(** * go-tavily: request construction, executor and error classification

    A shallow embedding of [client.go], [types.go] and [helpers.go].

    Conventions of the embedding:
    - Go [int] and [time.Duration] are [Z] (no arithmetic is done on the
      option fields, they are compared with zero and copied);
    - Go [string] is [string]; a [[]string] is a [list string];
    - a [*bool] is an [option bool] ([None] is the nil pointer);
    - a field of type [any] is a [GoAny];
    - a Go [error] is an [error]; [nil] is the absence of one;
    - a JSON string in a request body is the Go string as
      [encoding/json] writes it ([encode_string]): valid UTF-8 as it is,
      any other byte as U+FFFD;
    - the header map of the client is a [gmap string string];
    - a function that performs network calls returns, next to its
      result, the list of requests it handed to the HTTP client. *)

From Stdlib Require Import ZArith Ascii.
From stdpp Require Import base option list strings gmap fin_maps pretty.

Local Open Scope Z_scope.

(** ** Constants of [client.go] *)

Definition DefaultBaseURL : string := "https://api.tavily.com".
(** [60 * time.Second], in nanoseconds. *)
Definition time_Second : Z := 1000000000.
Definition DefaultTimeout : Z := 60 * time_Second.
Definition DefaultMaxResults : Z := 5.
Definition DefaultSearchDepth : string := "basic".
Definition DefaultTopic : string := "general".
Definition DefaultFormat : string := "text".
Definition ClientSource : string := "go-tavily".

(** ** Typed string constants of [types.go] used by the helpers *)

Definition SearchDepthBasic : string := "basic".
Definition SearchDepthAdvanced : string := "advanced".
Definition TopicGeneral : string := "general".
Definition TopicNews : string := "news".
Definition TopicFinance : string := "finance".
Definition FormatText : string := "text".
Definition FormatMarkdown : string := "markdown".
Definition CategoryDocumentation : string := "Documentation".
Definition CategoryDeveloper : string := "Developer".

(** ** [APIError] and the error values of Go *)

Module APIError.
Record t := mk { StatusCode : Z; Message : string }.

Definition Error (e : t) : string := Message e.
Definition IsRateLimit (e : t) : bool := StatusCode e =? 429.
Definition IsForbidden (e : t) : bool :=
  (StatusCode e =? 403) || (StatusCode e =? 432) || (StatusCode e =? 433).
Definition IsUnauthorized (e : t) : bool := StatusCode e =? 401.
Definition IsBadRequest (e : t) : bool := StatusCode e =? 400.
End APIError.

(** The error values the package handles: its own [*APIError], the
    wrapper built by [fmt.Errorf(prefix + "%w", err)], and an error value
    of a library (net/http, io, encoding/json), known by its text. *)
Inductive error :=
| APIErr (e : APIError.t)
| Errorf_w (prefix : string) (err : error)
| LibErr (msg : string).

(** [err.Error()]. *)
Fixpoint error_Error (err : error) : string :=
  match err with
  | APIErr e => APIError.Error e
  | Errorf_w prefix inner => prefix +:+ error_Error inner
  | LibErr msg => msg
  end.

(** [errors.Unwrap(err)]. *)
Definition errors_Unwrap (err : error) : option error :=
  match err with
  | Errorf_w _ inner => Some inner
  | _ => None
  end.

(** [var apiErr *APIError; errors.As(err, &apiErr)]: the first
    [*APIError] on the unwrap chain. *)
Fixpoint errors_As_APIError (err : error) : option APIError.t :=
  match err with
  | APIErr e => Some e
  | Errorf_w _ inner => errors_As_APIError inner
  | LibErr _ => None
  end.

(** [errors.Is(err, target)] for the error values above: [target] is on
    the unwrap chain of [err]. *)
Inductive errors_Is : error -> error -> Prop :=
| Is_here err : errors_Is err err
| Is_wrapped prefix err target :
    errors_Is err target -> errors_Is (Errorf_w prefix err) target.

(** ** JSON values and [encoding/json] struct encoding *)

#[local] Unset Elimination Schemes.
Inductive JSON :=
| JNull
| JBool (b : bool)
| JNumber (n : Z)
| JString (s : string)
| JArray (items : list JSON)
| JObject (members : list (string * JSON)).
#[local] Set Elimination Schemes.

(** A value stored in a field of type [any]. *)
Inductive GoAny :=
| AnyNil
| AnyBool (b : bool)
| AnyString (s : string)
| AnyInt (n : Z)
| AnyBoolPtr (p : option bool)
| AnyUnsupported (type_name : string).

(** A struct field ready for encoding: its JSON key and its value, [None]
    when the [omitempty] tag drops it. *)
Definition Field : Type := string * option JSON.

(** Field without [omitempty]. *)
Definition always (key : string) (v : JSON) : Field := (key, Some v).

(** *** Strings, as [encoding/json] writes them

    The encoder writes a Go string as a JSON string of valid UTF-8. It
    goes through the bytes as [utf8.DecodeRuneInString] does: an ASCII
    byte and a well-formed sequence of two to four bytes are copied, and
    a byte that does not start a well-formed sequence is written as the
    replacement character U+FFFD. *)

(** The lead bytes of [unicode/utf8]: the size of the sequence and the
    range accepted for its second byte. *)
Definition utf8_lead (b : N) : option (nat * N * N) :=
  (if (194 <=? b) && (b <=? 223) then Some (2%nat, 128, 191)
   else if b =? 224 then Some (3%nat, 160, 191)
   else if (225 <=? b) && (b <=? 236) then Some (3%nat, 128, 191)
   else if b =? 237 then Some (3%nat, 128, 159)
   else if (238 <=? b) && (b <=? 239) then Some (3%nat, 128, 191)
   else if b =? 240 then Some (4%nat, 144, 191)
   else if (241 <=? b) && (b <=? 243) then Some (4%nat, 128, 191)
   else if b =? 244 then Some (4%nat, 128, 143)
   else None)%N.

(** The byte [a] lies between [lo] and [hi]. *)
Definition utf8_between (lo hi : N) (a : ascii) : bool :=
  ((lo <=? N_of_ascii a) && (N_of_ascii a <=? hi))%N.

(** The size of the rune [utf8.DecodeRuneInString] reads at the start of
    a non-empty string; [None] when it returns [RuneError] with size 1. *)
Definition utf8_rune_size (s : string) : option nat :=
  match s with
  | EmptyString => None
  | String s0 rest =>
      if (N_of_ascii s0 <? 128)%N then Some 1%nat
      else
        match utf8_lead (N_of_ascii s0), rest with
        | Some (sz, lo, hi), String s1 rest1 =>
            if negb (utf8_between lo hi s1) then None
            else if (sz =? 2)%nat then Some 2%nat
            else
              match rest1 with
              | String s2 rest2 =>
                  if negb (utf8_between 128 191 s2) then None
                  else if (sz =? 3)%nat then Some 3%nat
                  else
                    match rest2 with
                    | String s3 _ =>
                        if utf8_between 128 191 s3 then Some 4%nat else None
                    | EmptyString => None
                    end
              | EmptyString => None
              end
        | _, _ => None
        end
  end.

(** U+FFFD in UTF-8. *)
Definition utf8_RuneError : string :=
  String "239"%char (String "191"%char (String "189"%char EmptyString)).

(** The string with every byte that starts no well-formed sequence
    replaced; [skip] counts the bytes still to copy of the sequence being
    read. *)
Fixpoint json_valid_from (skip : nat) (s : string) : string :=
  match s with
  | EmptyString => EmptyString
  | String a s' =>
      match skip with
      | S k => String a (json_valid_from k s')
      | O =>
          match utf8_rune_size s with
          | Some n => String a (json_valid_from (n - 1) s')
          | None => utf8_RuneError +:+ json_valid_from 0 s'
          end
      end
  end.

Definition json_valid_utf8 (s : string) : string := json_valid_from 0 s.

(** A Go string as a JSON value. *)
Definition encode_string (s : string) : JSON := JString (json_valid_utf8 s).

(** [string] field tagged [omitempty]: dropped when of length zero. *)
Definition omitempty_string (key s : string) : Field :=
  (key, if String.eqb s "" then None else Some (encode_string s)).

(** [int] field tagged [omitempty]: dropped when zero. *)
Definition omitempty_int (key : string) (n : Z) : Field :=
  (key, if n =? 0 then None else Some (JNumber n)).

(** Slice field tagged [omitempty]: dropped when of length zero. *)
Definition omitempty_strings (key : string) (l : list string) : Field :=
  (key, match l with [] => None | _ => Some (JArray (encode_string <$> l)) end).

(** [*bool] field tagged [omitempty]: dropped when the pointer is nil,
    encoded as the pointed-to boolean otherwise. *)
Definition omitempty_boolptr (key : string) (p : option bool) : Field :=
  (key, JBool <$> p).

(** Encoding of the contents of an [any] field tagged [omitempty]: a nil
    interface is dropped; any other content is encoded, whatever its
    value; a nil pointer inside the interface is [null]; a value of a
    type the encoder does not support is an error. *)
Definition encode_any (a : GoAny) : error + option JSON :=
  match a with
  | AnyNil => inr None
  | AnyBool b => inr (Some (JBool b))
  | AnyString s => inr (Some (encode_string s))
  | AnyInt n => inr (Some (JNumber n))
  | AnyBoolPtr None => inr (Some JNull)
  | AnyBoolPtr (Some b) => inr (Some (JBool b))
  | AnyUnsupported ty => inl (LibErr ("json: unsupported type: " +:+ ty))
  end.

(** The members of the encoded object: the fields in declaration order,
    without the dropped ones. *)
Definition members_of (fs : list Field) : list (string * JSON) :=
  omap (fun f : Field => pair (fst f) <$> snd f) fs.

Definition encode_struct (fs : list Field) : JSON := JObject (members_of fs).

(** First member of an object with the given key. *)
Fixpoint assoc (key : string) (ms : list (string * JSON)) : option JSON :=
  match ms with
  | [] => None
  | (k, v) :: ms' => if String.eqb key k then Some v else assoc key ms'
  end.

Definition json_get (key : string) (j : JSON) : option JSON :=
  match j with
  | JObject ms => assoc key ms
  | _ => None
  end.

(** The same lookup on the fields before the dropped ones are removed. *)
Fixpoint pick (key : string) (fs : list Field) : option JSON :=
  match fs with
  | [] => None
  | (k, o) :: fs' =>
      if String.eqb key k
      then match o with Some v => Some v | None => pick key fs' end
      else pick key fs'
  end.

(** [json.Marshal] at a given Go type. *)
Class Marshal (A : Type) := marshal : A -> error + JSON.

(** ** Option structs of [types.go] *)

Module SearchOptions.
Record t := mk {
  SearchDepth : string;
  Topic : string;
  TimeRange : string;
  Days : Z;
  MaxResults : Z;
  IncludeDomains : list string;
  ExcludeDomains : list string;
  IncludeAnswer : GoAny;
  IncludeRawContent : GoAny;
  IncludeImages : option bool;
  IncludeImageDescriptions : option bool;
  MaxTokens : Z;
  ChunksPerSource : Z;
  Country : string;
  Timeout : Z
}.
(** [SearchOptions{}]. *)
Definition zero : t :=
  mk "" "" "" 0 0 [] [] AnyNil AnyNil None None 0 0 "" 0.
End SearchOptions.

Module ExtractOptions.
Record t := mk {
  IncludeImages : option bool;
  ExtractDepth : string;
  Format : string;
  Timeout : Z
}.
Definition zero : t := mk None "" "" 0.
End ExtractOptions.

Module CrawlOptions.
Record t := mk {
  MaxDepth : Z;
  MaxBreadth : Z;
  Limit : Z;
  Instructions : string;
  ExtractDepth : string;
  SelectPaths : list string;
  SelectDomains : list string;
  ExcludePaths : list string;
  ExcludeDomains : list string;
  AllowExternal : option bool;
  IncludeImages : option bool;
  Categories : list string;
  Format : string;
  Timeout : Z
}.
Definition zero : t := mk 0 0 0 "" "" [] [] [] [] None None [] "" 0.
End CrawlOptions.

Module MapOptions.
Record t := mk {
  MaxDepth : Z;
  MaxBreadth : Z;
  Limit : Z;
  Instructions : string;
  SelectPaths : list string;
  SelectDomains : list string;
  ExcludePaths : list string;
  ExcludeDomains : list string;
  AllowExternal : option bool;
  Categories : list string;
  Timeout : Z
}.
Definition zero : t := mk 0 0 0 "" [] [] [] [] None [] 0.
End MapOptions.

(** ** Request structs of [types.go], with their JSON tags *)

Module SearchRequest.
Record t := mk {
  Query : string;
  SearchDepth : string;
  Topic : string;
  TimeRange : string;
  Days : Z;
  MaxResults : Z;
  IncludeDomains : list string;
  ExcludeDomains : list string;
  IncludeAnswer : GoAny;
  IncludeRawContent : GoAny;
  IncludeImages : option bool;
  IncludeImageDescriptions : option bool;
  MaxTokens : Z;
  ChunksPerSource : Z;
  Country : string;
  Timeout : Z
}.

(** The fields in declaration order; the two [any] fields are given
    already encoded. *)
Definition fields (r : t) (include_answer include_raw_content : option JSON)
  : list Field :=
  [ always "query" (encode_string (Query r));
    omitempty_string "search_depth" (SearchDepth r);
    omitempty_string "topic" (Topic r);
    omitempty_string "time_range" (TimeRange r);
    omitempty_int "days" (Days r);
    omitempty_int "max_results" (MaxResults r);
    omitempty_strings "include_domains" (IncludeDomains r);
    omitempty_strings "exclude_domains" (ExcludeDomains r);
    ("include_answer", include_answer);
    ("include_raw_content", include_raw_content);
    omitempty_boolptr "include_images" (IncludeImages r);
    omitempty_boolptr "include_image_descriptions" (IncludeImageDescriptions r);
    omitempty_int "max_tokens" (MaxTokens r);
    omitempty_int "chunks_per_source" (ChunksPerSource r);
    omitempty_string "country" (Country r);
    omitempty_int "timeout" (Timeout r) ].

Definition Marshal (r : t) : error + JSON :=
  match encode_any (IncludeAnswer r) with
  | inl err => inl err
  | inr include_answer =>
      match encode_any (IncludeRawContent r) with
      | inl err => inl err
      | inr include_raw_content =>
          inr (encode_struct (fields r include_answer include_raw_content))
      end
  end.
End SearchRequest.

Module ExtractRequest.
Record t := mk {
  URLs : list string;
  IncludeImages : option bool;
  ExtractDepth : string;
  Format : string;
  Timeout : Z
}.

(** [urls] has no [omitempty]; [Extract] never encodes an empty list. *)
Definition fields (r : t) : list Field :=
  [ always "urls" (JArray (encode_string <$> URLs r));
    omitempty_boolptr "include_images" (IncludeImages r);
    omitempty_string "extract_depth" (ExtractDepth r);
    omitempty_string "format" (Format r);
    omitempty_int "timeout" (Timeout r) ].

Definition Marshal (r : t) : error + JSON := inr (encode_struct (fields r)).
End ExtractRequest.

Module CrawlRequest.
Record t := mk {
  URL : string;
  MaxDepth : Z;
  MaxBreadth : Z;
  Limit : Z;
  Instructions : string;
  ExtractDepth : string;
  SelectPaths : list string;
  SelectDomains : list string;
  ExcludePaths : list string;
  ExcludeDomains : list string;
  AllowExternal : option bool;
  IncludeImages : option bool;
  Categories : list string;
  Format : string;
  Timeout : Z
}.

Definition fields (r : t) : list Field :=
  [ always "url" (encode_string (URL r));
    omitempty_int "max_depth" (MaxDepth r);
    omitempty_int "max_breadth" (MaxBreadth r);
    omitempty_int "limit" (Limit r);
    omitempty_string "instructions" (Instructions r);
    omitempty_string "extract_depth" (ExtractDepth r);
    omitempty_strings "select_paths" (SelectPaths r);
    omitempty_strings "select_domains" (SelectDomains r);
    omitempty_strings "exclude_paths" (ExcludePaths r);
    omitempty_strings "exclude_domains" (ExcludeDomains r);
    omitempty_boolptr "allow_external" (AllowExternal r);
    omitempty_boolptr "include_images" (IncludeImages r);
    omitempty_strings "categories" (Categories r);
    omitempty_string "format" (Format r);
    omitempty_int "timeout" (Timeout r) ].

Definition Marshal (r : t) : error + JSON := inr (encode_struct (fields r)).
End CrawlRequest.

Module MapRequest.
Record t := mk {
  URL : string;
  MaxDepth : Z;
  MaxBreadth : Z;
  Limit : Z;
  Instructions : string;
  SelectPaths : list string;
  SelectDomains : list string;
  ExcludePaths : list string;
  ExcludeDomains : list string;
  AllowExternal : option bool;
  Categories : list string;
  Timeout : Z
}.

Definition fields (r : t) : list Field :=
  [ always "url" (encode_string (URL r));
    omitempty_int "max_depth" (MaxDepth r);
    omitempty_int "max_breadth" (MaxBreadth r);
    omitempty_int "limit" (Limit r);
    omitempty_string "instructions" (Instructions r);
    omitempty_strings "select_paths" (SelectPaths r);
    omitempty_strings "select_domains" (SelectDomains r);
    omitempty_strings "exclude_paths" (ExcludePaths r);
    omitempty_strings "exclude_domains" (ExcludeDomains r);
    omitempty_boolptr "allow_external" (AllowExternal r);
    omitempty_strings "categories" (Categories r);
    omitempty_int "timeout" (Timeout r) ].

Definition Marshal (r : t) : error + JSON := inr (encode_struct (fields r)).
End MapRequest.

#[export] Instance SearchRequest_Marshal : Marshal SearchRequest.t :=
  SearchRequest.Marshal.
#[export] Instance ExtractRequest_Marshal : Marshal ExtractRequest.t :=
  ExtractRequest.Marshal.
#[export] Instance CrawlRequest_Marshal : Marshal CrawlRequest.t :=
  CrawlRequest.Marshal.
#[export] Instance MapRequest_Marshal : Marshal MapRequest.t :=
  MapRequest.Marshal.

(** ** Response structs of [types.go]

    A [float64] is kept as its IEEE-754 bit pattern; nothing here
    computes with it. *)

Definition float64 : Type := Z.

Module SearchImage.
Record t := mk { URL : string; Description : string }.
End SearchImage.

Module SearchResult.
Record t := mk {
  Title : string;
  URL : string;
  Content : string;
  RawContent : string;
  Score : float64;
  PublishedDate : string
}.
End SearchResult.

Module SearchResponse.
Record t := mk {
  Query : string;
  Answer : string;
  ResponseTime : float64;
  Images : list SearchImage.t;
  Results : list SearchResult.t
}.
Definition zero : t := mk "" "" 0 [] [].
End SearchResponse.

Module ExtractResult.
Record t := mk { URL : string; RawContent : string; Images : list string }.
End ExtractResult.

Module ExtractFailedResult.
Record t := mk { URL : string; Error : string }.
End ExtractFailedResult.

Module ExtractResponse.
Record t := mk {
  ResponseTime : float64;
  Results : list ExtractResult.t;
  FailedResults : list ExtractFailedResult.t
}.
Definition zero : t := mk 0 [] [].
End ExtractResponse.

Module CrawlResult.
Record t := mk { URL : string; RawContent : string; Images : list string }.
End CrawlResult.

Module CrawlResponse.
Record t := mk {
  ResponseTime : float64;
  BaseURL : string;
  Results : list CrawlResult.t
}.
Definition zero : t := mk 0 "" [].
End CrawlResponse.

Module MapResponse.
Record t := mk {
  ResponseTime : float64;
  BaseURL : string;
  Results : list string
}.
Definition zero : t := mk 0 "" [].
End MapResponse.

(** The anonymous struct [parseAPIError] decodes an error body into. *)
Module errorResp.
Record detail := mk_detail { Error : string }.
Record t := mk { Detail : detail }.
End errorResp.

(** ** The HTTP exchange *)

(** A [context.Context]: the nil interface, or a context that is or is
    not yet done. *)
Inductive Context :=
| NilContext
| Ctx (done : bool).

Module Request.
Record t := mk {
  ctx : Context;
  Method : string;
  URL : string;
  Header : gmap string string;
  Body : option JSON
}.
End Request.

(** What [Do] hands back: the status code, and what [io.ReadAll] on the
    body will give. *)
Module Response.
Record t := mk { StatusCode : Z; Body : error + string }.
End Response.

(** [http.Client]: its timeout and its [Do] method. *)
Module http_Client.
Record t := mk { Timeout : Z; Do : Request.t -> error + Response.t }.
End http_Client.

(** What the package takes from the platform and the libraries: the
    process environment, URL parsing of [net/http] (the text of its
    error, if any), the transport behind an [http.Client] with a given
    timeout, and [json.Unmarshal] at each of the types the package
    decodes into. *)
Record Platform := {
  os_Getenv : string -> string;
  url_Parse_error : string -> option string;
  http_Transport : Z -> Request.t -> error + Response.t;
  json_Unmarshal_errorResp : string -> errorResp.t * option error;
  json_Unmarshal_SearchResponse : string -> error + SearchResponse.t;
  json_Unmarshal_ExtractResponse : string -> error + ExtractResponse.t;
  json_Unmarshal_CrawlResponse : string -> error + CrawlResponse.t;
  json_Unmarshal_MapResponse : string -> error + MapResponse.t
}.

(** A computation that may call the network: the requests handed to the
    HTTP client, in order, and the result. *)
Definition Net (A : Type) : Type := list Request.t * A.
Definition sent {A} (x : Net A) : list Request.t := fst x.
Definition result {A} (x : Net A) : A := snd x.

(** ** [strings] *)

Definition strings_HasSuffix (s suffix : string) : bool :=
  (String.length suffix <=? String.length s)%nat &&
  String.eqb
    (String.substring (String.length s - String.length suffix)
               (String.length suffix) s)
    suffix.

Definition strings_TrimSuffix (s suffix : string) : string :=
  if strings_HasSuffix s suffix
  then String.substring 0 (String.length s - String.length suffix) s
  else s.

(** ** [client.go] *)

Module Options.
Record t := mk {
  BaseURL : string;
  HTTPClient : option http_Client.t;
  Timeout : Z
}.
Definition zero : t := mk "" None 0.
End Options.

Module Client.
Record t := mk {
  baseURL : string;
  apiKey : string;
  httpClient : http_Client.t;
  headers : gmap string string
}.
End Client.

Definition defaultString (value defaultValue : string) : string :=
  if String.eqb value "" then defaultValue else value.

Definition defaultInt (value defaultValue : Z) : Z :=
  if value =? 0 then defaultValue else value.

Section Tavily.
Variable pf : Platform.

Definition New (apiKey : string) (opts : option Options.t) : Client.t :=
  let apiKey := if String.eqb apiKey "" then os_Getenv pf "TAVILY_API_KEY"
                else apiKey in
  let opts := default Options.zero opts in
  let baseURL := Options.BaseURL opts in
  let baseURL := if String.eqb baseURL "" then DefaultBaseURL else baseURL in
  let timeout := Options.Timeout opts in
  let timeout := if timeout =? 0 then DefaultTimeout else timeout in
  let httpClient :=
    match Options.HTTPClient opts with
    | None => http_Client.mk timeout (http_Transport pf timeout)
    | Some hc => hc
    end in
  Client.mk
    (strings_TrimSuffix baseURL "/")
    apiKey
    httpClient
    (<["Content-Type" := "application/json"]>
       (<["Authorization" := "Bearer " +:+ apiKey]>
          (<["X-Client-Source" := ClientSource]> ∅))).

Definition parseAPIError (statusCode : Z) (respData : string) : error :=
  let '(errorResp, unmarshal_err) := json_Unmarshal_errorResp pf respData in
  let message := "unknown error" in
  let message :=
    if bool_decide (unmarshal_err = None) &&
       negb (String.eqb (errorResp.Error (errorResp.Detail errorResp)) "")
    then errorResp.Error (errorResp.Detail errorResp)
    else message in
  APIErr (APIError.mk statusCode message).

(** [http.NewRequestWithContext]: refuses a nil context and a URL that
    does not parse; the new request has no header yet. *)
Definition http_NewRequestWithContext
    (ctx : Context) (method url : string) (body : option JSON)
  : error + Request.t :=
  match ctx with
  | NilContext => inl (LibErr "net/http: nil Context")
  | Ctx _ =>
      match url_Parse_error pf url with
      | Some msg => inl (LibErr msg)
      | None => inr (Request.mk ctx method url ∅ body)
      end
  end.

(** [req.Header.Set(key, value)]; the three keys of the client are in
    canonical form already, so [Set] stores them as they are. *)
Definition Header_Set (key value : string) (req : Request.t) : Request.t :=
  Request.mk (Request.ctx req) (Request.Method req) (Request.URL req)
             (<[key := value]> (Request.Header req)) (Request.Body req).

(** [requestBody] and [responseBody] are [None] for a nil argument;
    [responseBody] stands for [json.Unmarshal] into the pointer given.
    The result is the error, or what was written through
    [responseBody]. *)
Definition doRequest {Req Resp : Type} `{Marshal Req}
    (c : Client.t) (ctx : Context) (endpoint : string)
    (requestBody : option Req)
    (responseBody : option (string -> error + Resp))
  : Net (error + option Resp) :=
  if String.eqb (Client.apiKey c) "" then
    ([], inl (APIErr (APIError.mk 401
      "missing API key - provide via parameter or TAVILY_API_KEY environment variable")))
  else
    let marshalled : error + option JSON :=
      match requestBody with
      | None => inr None
      | Some r =>
          match marshal r with
          | inl err => inl err
          | inr jsonData => inr (Some jsonData)
          end
      end in
    match marshalled with
    | inl err => ([], inl (Errorf_w "failed to marshal request: " err))
    | inr body =>
        match http_NewRequestWithContext ctx "POST"
                (Client.baseURL c +:+ endpoint) body with
        | inl err => ([], inl (Errorf_w "failed to create request: " err))
        | inr req =>
            let req :=
              map_fold (fun key value req => Header_Set key value req)
                       req (Client.headers c) in
            match http_Client.Do (Client.httpClient c) req with
            | inl err => ([req], inl (Errorf_w "request failed: " err))
            | inr resp =>
                match Response.Body resp with
                | inl err =>
                    ([req], inl (Errorf_w "failed to read response: " err))
                | inr respData =>
                    if negb (Response.StatusCode resp =? 200) then
                      ([req],
                       inl (parseAPIError (Response.StatusCode resp) respData))
                    else
                      match responseBody with
                      | None => ([req], inr None)
                      | Some unmarshal =>
                          match unmarshal respData with
                          | inl err =>
                              ([req], inl (Errorf_w
                                 "failed to unmarshal response: " err))
                          | inr v => ([req], inr (Some v))
                          end
                      end
                end
            end
        end
    end.

(** The request literal of [Search]. *)
Definition Search_request (query : string) (opts : option SearchOptions.t)
  : SearchRequest.t :=
  let opts := default SearchOptions.zero opts in
  SearchRequest.mk
    query
    (defaultString (SearchOptions.SearchDepth opts) DefaultSearchDepth)
    (defaultString (SearchOptions.Topic opts) DefaultTopic)
    (SearchOptions.TimeRange opts)
    (SearchOptions.Days opts)
    (defaultInt (SearchOptions.MaxResults opts) DefaultMaxResults)
    (SearchOptions.IncludeDomains opts)
    (SearchOptions.ExcludeDomains opts)
    (SearchOptions.IncludeAnswer opts)
    (SearchOptions.IncludeRawContent opts)
    (SearchOptions.IncludeImages opts)
    (SearchOptions.IncludeImageDescriptions opts)
    (SearchOptions.MaxTokens opts)
    (SearchOptions.ChunksPerSource opts)
    (SearchOptions.Country opts)
    (defaultInt (SearchOptions.Timeout opts) 60).

Definition Search (c : Client.t) (ctx : Context) (query : string)
    (opts : option SearchOptions.t) : Net (error + SearchResponse.t) :=
  let req := Search_request query opts in
  let '(reqs, r) :=
    doRequest c ctx "/search" (Some req)
              (Some (json_Unmarshal_SearchResponse pf)) in
  match r with
  | inl err => (reqs, inl (Errorf_w "search failed: " err))
  | inr resp => (reqs, inr (default SearchResponse.zero resp))
  end.

(** The request literal of [Extract]. *)
Definition Extract_request (urls : list string)
    (opts : option ExtractOptions.t) : ExtractRequest.t :=
  let opts := default ExtractOptions.zero opts in
  ExtractRequest.mk
    urls
    (ExtractOptions.IncludeImages opts)
    (defaultString (ExtractOptions.ExtractDepth opts) DefaultSearchDepth)
    (defaultString (ExtractOptions.Format opts) DefaultFormat)
    (defaultInt (ExtractOptions.Timeout opts) 60).

Definition Extract (c : Client.t) (ctx : Context) (urls : list string)
    (opts : option ExtractOptions.t) : Net (error + ExtractResponse.t) :=
  if (length urls =? 0)%nat then
    ([], inl (APIErr (APIError.mk 400 "at least one URL is required")))
  else
    let req := Extract_request urls opts in
    let '(reqs, r) :=
      doRequest c ctx "/extract" (Some req)
                (Some (json_Unmarshal_ExtractResponse pf)) in
    match r with
    | inl err => (reqs, inl (Errorf_w "extract failed: " err))
    | inr resp => (reqs, inr (default ExtractResponse.zero resp))
    end.

(** The request literal of [Crawl]. *)
Definition Crawl_request (url : string) (opts : option CrawlOptions.t)
  : CrawlRequest.t :=
  let opts := default CrawlOptions.zero opts in
  CrawlRequest.mk
    url
    (defaultInt (CrawlOptions.MaxDepth opts) 1)
    (defaultInt (CrawlOptions.MaxBreadth opts) 20)
    (defaultInt (CrawlOptions.Limit opts) 50)
    (CrawlOptions.Instructions opts)
    (defaultString (CrawlOptions.ExtractDepth opts) DefaultSearchDepth)
    (CrawlOptions.SelectPaths opts)
    (CrawlOptions.SelectDomains opts)
    (CrawlOptions.ExcludePaths opts)
    (CrawlOptions.ExcludeDomains opts)
    (CrawlOptions.AllowExternal opts)
    (CrawlOptions.IncludeImages opts)
    (CrawlOptions.Categories opts)
    (defaultString (CrawlOptions.Format opts) DefaultFormat)
    (defaultInt (CrawlOptions.Timeout opts) 60).

Definition Crawl (c : Client.t) (ctx : Context) (url : string)
    (opts : option CrawlOptions.t) : Net (error + CrawlResponse.t) :=
  if String.eqb url "" then
    ([], inl (APIErr (APIError.mk 400 "URL is required")))
  else
    let req := Crawl_request url opts in
    let '(reqs, r) :=
      doRequest c ctx "/crawl" (Some req)
                (Some (json_Unmarshal_CrawlResponse pf)) in
    match r with
    | inl err => (reqs, inl (Errorf_w "crawl failed: " err))
    | inr resp => (reqs, inr (default CrawlResponse.zero resp))
    end.

(** The request literal of [Map]. *)
Definition Map_request (url : string) (opts : option MapOptions.t)
  : MapRequest.t :=
  let opts := default MapOptions.zero opts in
  MapRequest.mk
    url
    (defaultInt (MapOptions.MaxDepth opts) 1)
    (defaultInt (MapOptions.MaxBreadth opts) 20)
    (defaultInt (MapOptions.Limit opts) 50)
    (MapOptions.Instructions opts)
    (MapOptions.SelectPaths opts)
    (MapOptions.SelectDomains opts)
    (MapOptions.ExcludePaths opts)
    (MapOptions.ExcludeDomains opts)
    (MapOptions.AllowExternal opts)
    (MapOptions.Categories opts)
    (defaultInt (MapOptions.Timeout opts) 60).

Definition Map (c : Client.t) (ctx : Context) (url : string)
    (opts : option MapOptions.t) : Net (error + MapResponse.t) :=
  if String.eqb url "" then
    ([], inl (APIErr (APIError.mk 400 "URL is required")))
  else
    let req := Map_request url opts in
    let '(reqs, r) :=
      doRequest c ctx "/map" (Some req)
                (Some (json_Unmarshal_MapResponse pf)) in
    match r with
    | inl err => (reqs, inl (Errorf_w "map failed: " err))
    | inr resp => (reqs, inr (default MapResponse.zero resp))
    end.

(** ** [helpers.go] *)

Definition BoolPtr (b : bool) : option bool := Some b.

Definition SearchSimple (c : Client.t) (ctx : Context) (query : string)
  : Net (error + SearchResponse.t) :=
  Search c ctx query None.

Definition SearchWithAnswer_opts : SearchOptions.t :=
  SearchOptions.mk "" "" "" 0 10 [] [] (AnyBool true) AnyNil None None 0 0 "" 0.

Definition SearchWithAnswer (c : Client.t) (ctx : Context) (query : string)
  : Net (error + SearchResponse.t) :=
  let opts := SearchWithAnswer_opts in
  Search c ctx query (Some opts).

Definition SearchNews_opts (days : Z) : SearchOptions.t :=
  SearchOptions.mk SearchDepthAdvanced TopicNews "" days 15 [] []
                   (AnyBool true) AnyNil None None 0 0 "" 0.

Definition SearchNews (c : Client.t) (ctx : Context) (query : string)
    (days : Z) : Net (error + SearchResponse.t) :=
  let opts := SearchNews_opts days in
  Search c ctx query (Some opts).

Definition ExtractSimple (c : Client.t) (ctx : Context) (url : string)
  : Net (error + ExtractResponse.t) :=
  Extract c ctx [url] None.

Definition ExtractWithImages_opts : ExtractOptions.t :=
  ExtractOptions.mk (BoolPtr true) SearchDepthAdvanced FormatMarkdown 0.

Definition ExtractWithImages (c : Client.t) (ctx : Context)
    (urls : list string) : Net (error + ExtractResponse.t) :=
  let opts := ExtractWithImages_opts in
  Extract c ctx urls (Some opts).

Definition CrawlDocumentation_opts (maxPages : Z) : CrawlOptions.t :=
  CrawlOptions.mk 3 0 maxPages "" ""
    ["/docs/*"; "/api/*"; "/guide/*"; "/tutorial/*"] [] [] []
    (BoolPtr false) None
    [CategoryDocumentation; CategoryDeveloper]
    FormatMarkdown 0.

Definition CrawlDocumentation (c : Client.t) (ctx : Context) (url : string)
    (maxPages : Z) : Net (error + CrawlResponse.t) :=
  let opts := CrawlDocumentation_opts maxPages in
  Crawl c ctx url (Some opts).

Definition MapSite_opts : MapOptions.t :=
  MapOptions.mk 2 0 100 "" [] [] [] [] None [] 0.

Definition MapSite (c : Client.t) (ctx : Context) (url : string)
  : Net (error + MapResponse.t) :=
  let opts := MapSite_opts in
  Map c ctx url (Some opts).

Definition GetSearchContext_opts (maxTokens : Z) : SearchOptions.t :=
  SearchOptions.mk SearchDepthAdvanced "" "" 0 5 [] []
                   AnyNil (AnyString FormatText) None None maxTokens 0 "" 0.

(** The line feed of the format strings. *)
Definition LF : string := String "010"%char "".

(** One turn of the loop of [GetSearchContext]: the text so far and the
    index [i] of the next result. *)
Definition GetSearchContext_step (acc : string * nat) (r : SearchResult.t)
  : string * nat :=
  let '(context, i) := acc in
  (context +:+ "Source " +:+ pretty (i + 1)%nat +:+ ": "
     +:+ SearchResult.Title r +:+ LF
     +:+ "URL: " +:+ SearchResult.URL r +:+ LF
     +:+ "Content: " +:+ SearchResult.Content r +:+ LF +:+ LF,
   S i).

Definition GetSearchContext (c : Client.t) (ctx : Context) (query : string)
    (maxTokens : Z) : Net (error + string) :=
  let opts := GetSearchContext_opts maxTokens in
  let '(reqs, r) := Search c ctx query (Some opts) in
  match r with
  | inl err => (reqs, inl (Errorf_w "search failed: " err))
  | inr result =>
      let context := "Search query: " +:+ query +:+ LF +:+ LF in
      (reqs,
       inr (fst (foldl GetSearchContext_step (context, 0%nat)
                       (SearchResponse.Results result))))
  end.

End Tavily.

Definition GetVersionInfo : gmap string string :=
  <["client_name" := "go-tavily"]>
    (<["client_version" := "1.0.0"]>
       (<["go_version" := "1.24+"]>
          (<["api_version" := "v1"]> ∅))).

(** ** The rules of the specification, as predicates *)

(** Default substitution: a supplied value equal to the zero value is
    replaced by the default, any other is kept. *)
Definition default_rule {A : Type} (zero supplied dflt payload : A) : Prop :=
  (supplied = zero -> payload = dflt) /\ (supplied <> zero -> payload = supplied).

(** Tri-state boolean: an absent field has no member in the body, a
    present one is encoded as its boolean. *)
Definition tri_state (field : option bool) (member : option JSON) : Prop :=
  (field = None -> member = None) /\
  (field = Some false -> member = Some (JBool false)) /\
  (field = Some true -> member = Some (JBool true)).

(** Tri-state of an [any] field used as an optional boolean. *)
Definition any_tri_state (field : GoAny) (member : option JSON) : Prop :=
  (field = AnyNil -> member = None) /\
  (field = AnyBool false -> member = Some (JBool false)) /\
  (field = AnyBool true -> member = Some (JBool true)).

(** The returned error [err] still shows the error [original] it was made
    from: [errors.Is] finds [original] in it, and [errors.As] finds in it
    the [APIError] it finds in [original]. *)
Definition surfaces (err original : error) : Prop :=
  errors_Is err original /\
  errors_As_APIError err = errors_As_APIError original.

(** The text [GetSearchContext] makes of a response. *)
Definition GetSearchContext_text (query : string) (resp : SearchResponse.t)
  : string :=
  fst (foldl GetSearchContext_step
             ("Search query: " +:+ query +:+ LF +:+ LF, 0%nat)
             (SearchResponse.Results resp)).

(** The error of a call, if it failed. *)
Definition failure {A : Type} (x : Net (error + A)) : option error :=
  match result x with
  | inl err => Some err
  | inr _ => None
  end.

(** The call failed with an unauthorized [APIError], reachable through
    [errors.As], and nothing was sent. *)
Definition fails_unauthorized {A : Type} (x : Net (error + A)) : Prop :=
  sent x = [] /\
  exists err e,
    result x = inl err /\ errors_As_APIError err = Some e /\
    APIError.StatusCode e = 401 /\ APIError.IsUnauthorized e = true.

(** The options the specification documents for [SearchNews]. *)
Definition spec_SearchNews_options (d : Z) : SearchOptions.t :=
  {| SearchOptions.SearchDepth := "advanced";
     SearchOptions.Topic := "news";
     SearchOptions.TimeRange := "";
     SearchOptions.Days := d;
     SearchOptions.MaxResults := 15;
     SearchOptions.IncludeDomains := [];
     SearchOptions.ExcludeDomains := [];
     SearchOptions.IncludeAnswer := AnyBool true;
     SearchOptions.IncludeRawContent := AnyNil;
     SearchOptions.IncludeImages := None;
     SearchOptions.IncludeImageDescriptions := None;
     SearchOptions.MaxTokens := 0;
     SearchOptions.ChunksPerSource := 0;
     SearchOptions.Country := "";
     SearchOptions.Timeout := 0 |}.

(** ** What the executor puts on the wire *)

(** The request [doRequest] hands to the HTTP client. *)
Definition outgoing_request (c : Client.t) (ctx : Context)
    (endpoint : string) (body : JSON) : Request.t :=
  Request.mk ctx "POST" (Client.baseURL c +:+ endpoint)
             (Client.headers c) (Some body).

(** What [doRequest] makes of the answer of the HTTP client. *)
Definition handle_response {Resp : Type} (pf : Platform)
    (unmarshal : string -> error + Resp)
    (answer : error + Response.t) : error + option Resp :=
  match answer with
  | inl err => inl (Errorf_w "request failed: " err)
  | inr resp =>
      match Response.Body resp with
      | inl err => inl (Errorf_w "failed to read response: " err)
      | inr respData =>
          if negb (Response.StatusCode resp =? 200) then
            inl (parseAPIError pf (Response.StatusCode resp) respData)
          else
            match unmarshal respData with
            | inl err => inl (Errorf_w "failed to unmarshal response: " err)
            | inr v => inr (Some v)
            end
      end
  end.

(** ** A test double, after [client_test.go]

    A server that answers every request with one fixed status and body,
    and a platform without environment whose decoders know that body. *)

Definition DQ : string := String "034"%char "".

(** The body of [TestErrorHandling], without its white space. *)
Definition invalid_key_body : string :=
  "{" +:+ DQ +:+ "detail" +:+ DQ +:+ ":{" +:+ DQ +:+ "error" +:+ DQ +:+ ":"
      +:+ DQ +:+ "Invalid API key provided" +:+ DQ +:+ "}}".

Definition test_result : SearchResult.t :=
  SearchResult.mk "Test Result" "https://example.com" "Test content" "" 0 "".

Definition test_response : SearchResponse.t :=
  SearchResponse.mk "test query" "" 0 [] [test_result].

Definition test_platform : Platform :=
  {| os_Getenv := fun _ => "";
     url_Parse_error := fun _ => None;
     http_Transport := fun _ _ => inl (LibErr "dial tcp: connection refused");
     json_Unmarshal_errorResp := fun body =>
       if String.eqb body invalid_key_body
       then (errorResp.mk (errorResp.mk_detail "Invalid API key provided"), None)
       else (errorResp.mk (errorResp.mk_detail ""),
             Some (LibErr "unexpected end of JSON input"));
     json_Unmarshal_SearchResponse := fun _ => inr test_response;
     json_Unmarshal_ExtractResponse := fun _ => inr ExtractResponse.zero;
     json_Unmarshal_CrawlResponse := fun _ => inr CrawlResponse.zero;
     json_Unmarshal_MapResponse := fun _ => inr MapResponse.zero |}.

(** [httptest.NewServer] with a handler writing [status] and [body]. *)
Definition test_server (status : Z) (body : string) : http_Client.t :=
  http_Client.mk (5 * time_Second)
                 (fun _ => inr (Response.mk status (inr body))).

Definition test_client (status : Z) (body : string) : Client.t :=
  New test_platform "tvly-test-key"
      (Some (Options.mk "http://127.0.0.1:8080/"
                        (Some (test_server status body)) 0)).

(** A client built without key and without environment. *)
Definition keyless_client : Client.t := New test_platform "" None.

(** ** Further predicates and test doubles *)

(** [omitempty] on a field copied from the options: a zero value leaves
    no member, any other value is the member. *)
Definition omitempty_rule {A : Type} (zero value : A) (encode : A -> JSON)
    (member : option JSON) : Prop :=
  (value = zero -> member = None) /\
  (value <> zero -> member = Some (encode value)).

(** Search options with the defaults of [Search] written out. *)
Definition with_Search_defaults (o : SearchOptions.t) : SearchOptions.t :=
  SearchOptions.mk
    (defaultString (SearchOptions.SearchDepth o) DefaultSearchDepth)
    (defaultString (SearchOptions.Topic o) DefaultTopic)
    (SearchOptions.TimeRange o)
    (SearchOptions.Days o)
    (defaultInt (SearchOptions.MaxResults o) DefaultMaxResults)
    (SearchOptions.IncludeDomains o)
    (SearchOptions.ExcludeDomains o)
    (SearchOptions.IncludeAnswer o)
    (SearchOptions.IncludeRawContent o)
    (SearchOptions.IncludeImages o)
    (SearchOptions.IncludeImageDescriptions o)
    (SearchOptions.MaxTokens o)
    (SearchOptions.ChunksPerSource o)
    (SearchOptions.Country o)
    (defaultInt (SearchOptions.Timeout o) 60).

(** The block [GetSearchContext] writes for the result at index [i]. *)
Definition GetSearchContext_entry (i : nat) (r : SearchResult.t) : string :=
  "Source " +:+ pretty (i + 1)%nat +:+ ": "
    +:+ SearchResult.Title r +:+ LF
    +:+ "URL: " +:+ SearchResult.URL r +:+ LF
    +:+ "Content: " +:+ SearchResult.Content r +:+ LF +:+ LF.

(** The blocks for the results from index [i] on, in order. *)
Fixpoint GetSearchContext_blocks (i : nat) (rs : list SearchResult.t)
  : string :=
  match rs with
  | [] => ""
  | r :: rs' => GetSearchContext_entry i r +:+ GetSearchContext_blocks (S i) rs'
  end.

(** The keys of the members of an object. *)
Definition json_keys (j : JSON) : list string :=
  match j with
  | JObject ms => fst <$> ms
  | _ => []
  end.



(** [utf8.ValidString]: every rune of the string decodes. *)
Fixpoint utf8_valid_from (skip : nat) (s : string) : bool :=
  match s with
  | EmptyString => true
  | String a s' =>
      match skip with
      | S k => utf8_valid_from k s'
      | O =>
          match utf8_rune_size s with
          | Some n => utf8_valid_from (n - 1) s'
          | None => false
          end
      end
  end.

Definition utf8_ValidString (s : string) : bool := utf8_valid_from 0 s.

(** A client with a key and no server to reach. *)
Definition offline_client : Client.t := New test_platform "tvly-test-key" None.

(** A platform whose decoder of search responses turns down one body. *)
Definition picky_platform : Platform :=
  {| os_Getenv := fun _ => "tvly-env-key";
     url_Parse_error := fun url =>
       if String.eqb url "://search" then Some "missing protocol scheme"
       else None;
     http_Transport := fun _ _ => inl (LibErr "dial tcp: connection refused");
     json_Unmarshal_errorResp := json_Unmarshal_errorResp test_platform;
     json_Unmarshal_SearchResponse := fun body =>
       if String.eqb body "<html>"
       then inl (LibErr "invalid character '<' looking for beginning of value")
       else inr test_response;
     json_Unmarshal_ExtractResponse := fun _ => inr ExtractResponse.zero;
     json_Unmarshal_CrawlResponse := fun _ => inr CrawlResponse.zero;
     json_Unmarshal_MapResponse := fun _ => inr MapResponse.zero |}.

Definition picky_client (status : Z) (body : string) : Client.t :=
  New picky_platform ""
      (Some (Options.mk "http://127.0.0.1:8080"
                        (Some (test_server status body)) 0)).

(** * Properties *)

(** ** Encoding *)

Lemma assoc_members_of (key : string) (fs : list Field) :
  assoc key (members_of fs) = pick key fs.
Proof.
  induction fs as [|[k [v|]] fs IH]; simpl; [done| |].
  - by destruct (String.eqb key k).
  - rewrite IH. by destruct (String.eqb key k).
Qed.

Lemma json_get_encode_struct (key : string) (fs : list Field) :
  json_get key (encode_struct fs) = pick key fs.
Proof. apply assoc_members_of. Qed.

Lemma option_match_id {A : Type} (x : option A) :
  match x with Some v => Some v | None => None end = x.
Proof. by destruct x. Qed.

(** Looks a key up in the fields of an encoded struct. *)
Ltac pick_field :=
  rewrite ?json_get_encode_struct;
  unfold SearchRequest.fields, ExtractRequest.fields, CrawlRequest.fields,
    MapRequest.fields, always, omitempty_string, omitempty_int,
    omitempty_strings, omitempty_boolptr;
  cbn [pick String.eqb Ascii.eqb Bool.eqb].

Lemma json_valid_from_valid (skip : nat) (s : string) :
  utf8_valid_from skip s = true -> json_valid_from skip s = s.
Proof.
  revert skip. induction s as [|a s IH]; intros skip; [done|].
  cbn [utf8_valid_from json_valid_from]. destruct skip as [|k].
  - destruct (utf8_rune_size (String a s)) as [n|]; [|done].
    intros Hv. by rewrite IH.
  - intros Hv. by rewrite IH.
Qed.

(** A string of valid UTF-8 is written as it is. *)
Lemma encode_string_valid (s : string) :
  utf8_ValidString s = true -> encode_string s = JString s.
Proof.
  intros Hv. unfold encode_string, json_valid_utf8.
  by rewrite json_valid_from_valid.
Qed.

Lemma SearchRequest_Marshal_inv (r : SearchRequest.t) (body : JSON) :
  marshal r = inr body ->
  exists a rc,
    encode_any (SearchRequest.IncludeAnswer r) = inr a /\
    encode_any (SearchRequest.IncludeRawContent r) = inr rc /\
    body = encode_struct (SearchRequest.fields r a rc).
Proof.
  unfold marshal, SearchRequest_Marshal, SearchRequest.Marshal.
  destruct (encode_any (SearchRequest.IncludeAnswer r)) as [?|a]; [done|].
  destruct (encode_any (SearchRequest.IncludeRawContent r)) as [?|rc]; [done|].
  intros [= <-]. by exists a, rc.
Qed.

Lemma encode_any_error (a : GoAny) (err : error) :
  encode_any a = inl err -> exists msg, err = LibErr msg.
Proof. destruct a as [| | | |[|]|]; intros [= <-]. eauto. Qed.

Lemma SearchRequest_Marshal_error (r : SearchRequest.t) (err : error) :
  marshal r = inl err -> exists msg, err = LibErr msg.
Proof.
  unfold marshal, SearchRequest_Marshal, SearchRequest.Marshal.
  destruct (encode_any (SearchRequest.IncludeAnswer r)) as [e|a] eqn:Ha.
  { intros [= <-]. by eapply encode_any_error. }
  destruct (encode_any (SearchRequest.IncludeRawContent r)) as [e|rc] eqn:Hr.
  { intros [= <-]. by eapply encode_any_error. }
  done.
Qed.

(** ** Defaults *)

Lemma defaultString_rule (value dflt : string) :
  default_rule "" value dflt (defaultString value dflt).
Proof.
  unfold default_rule, defaultString.
  destruct (String.eqb_spec value ""); split; congruence.
Qed.

Lemma defaultInt_rule (value dflt : Z) :
  default_rule 0 value dflt (defaultInt value dflt).
Proof.
  unfold default_rule, defaultInt.
  destruct (Z.eqb_spec value 0); split; congruence.
Qed.

Lemma defaultString_nonempty (value dflt : string) :
  dflt <> "" -> String.eqb (defaultString value dflt) "" = false.
Proof.
  intros Hd. unfold defaultString.
  destruct (String.eqb_spec value ""); by apply String.eqb_neq.
Qed.

Lemma defaultInt_nonzero (value dflt : Z) :
  dflt <> 0 -> (defaultInt value dflt =? 0) = false.
Proof.
  intros Hd. unfold defaultInt.
  destruct (Z.eqb_spec value 0); by apply Z.eqb_neq.
Qed.

(** ** Errors *)

Lemma errors_Is_wrap (prefix : string) (err : error) :
  errors_Is (Errorf_w prefix err) err.
Proof. constructor. constructor. Qed.

Lemma errors_Is_trans (a b c : error) :
  errors_Is a b -> errors_Is b c -> errors_Is a c.
Proof. induction 1; [done|]. intros. constructor. auto. Qed.

Lemma errors_As_wrap (prefix : string) (err : error) :
  errors_As_APIError (Errorf_w prefix err) = errors_As_APIError err.
Proof. reflexivity. Qed.

(** ** The executor *)

Lemma set_headers (req : Request.t) (hs : gmap string string) :
  map_fold (fun key value r => Header_Set key value r) req hs =
  Request.mk (Request.ctx req) (Request.Method req) (Request.URL req)
             (hs ∪ Request.Header req) (Request.Body req).
Proof.
  apply (map_fold_weak_ind (fun r (m : gmap string string) =>
    r = Request.mk (Request.ctx req) (Request.Method req) (Request.URL req)
                   (m ∪ Request.Header req) (Request.Body req))).
  - rewrite (left_id_L ∅ (∪)). by destruct req.
  - intros k v m r _ ->. unfold Header_Set; simpl.
    by rewrite insert_union_l.
Qed.

Lemma parseAPIError_spec (pf : Platform) (statusCode : Z) (respData : string) :
  exists e,
    parseAPIError pf statusCode respData = APIErr e /\
    APIError.StatusCode e = statusCode /\
    (forall decoded,
       json_Unmarshal_errorResp pf respData = (decoded, None) ->
       errorResp.Error (errorResp.Detail decoded) <> "" ->
       APIError.Message e = errorResp.Error (errorResp.Detail decoded)) /\
    (forall decoded unmarshal_err,
       json_Unmarshal_errorResp pf respData = (decoded, unmarshal_err) ->
       unmarshal_err <> None \/
       errorResp.Error (errorResp.Detail decoded) = "" ->
       APIError.Message e = "unknown error") /\
    APIError.Message e <> "".
Proof.
  unfold parseAPIError.
  destruct (json_Unmarshal_errorResp pf respData) as [decoded uerr].
  eexists. split; [reflexivity|]. simpl. split; [done|].
  destruct uerr as [uerr|]; simpl.
  - repeat split; [by intros ? [= _ ?]|done..].
  - destruct (String.eqb_spec (errorResp.Error (errorResp.Detail decoded)) "")
      as [He|He]; simpl.
    + repeat split; [by intros ? [= <-] ?|done..].
    + repeat split; [by intros ? [= <-] ?| |done].
      intros ? ? [= <- <-] [?|?]; done.
Qed.

Lemma doRequest_missing_key {Req Resp : Type} `{Marshal Req}
    (pf : Platform) (c : Client.t) (ctx : Context) (endpoint : string)
    (requestBody : option Req)
    (responseBody : option (string -> error + Resp)) :
  Client.apiKey c = "" ->
  doRequest pf c ctx endpoint requestBody responseBody =
  ([], inl (APIErr (APIError.mk 401
     "missing API key - provide via parameter or TAVILY_API_KEY environment variable"))).
Proof. intros Hk. unfold doRequest. by rewrite Hk. Qed.

(** With a key, a request that encodes, a live context and a URL that
    parses, exactly one request goes out, and the result is read off the
    answer. *)
Lemma doRequest_exchange {Req Resp : Type} `{Marshal Req}
    (pf : Platform) (c : Client.t) (ctx : Context) (endpoint : string)
    (r : Req) (unmarshal : string -> error + Resp) (body : JSON) :
  Client.apiKey c <> "" ->
  marshal r = inr body ->
  ctx <> NilContext ->
  url_Parse_error pf (Client.baseURL c +:+ endpoint) = None ->
  doRequest pf c ctx endpoint (Some r) (Some unmarshal) =
  ([outgoing_request c ctx endpoint body],
   handle_response pf unmarshal
     (http_Client.Do (Client.httpClient c)
                     (outgoing_request c ctx endpoint body))).
Proof.
  intros Hk Hm Hc Hu. unfold doRequest.
  apply String.eqb_neq in Hk. rewrite Hk, Hm.
  unfold http_NewRequestWithContext. destruct ctx as [|d]; [done|].
  rewrite Hu, set_headers; simpl. rewrite (right_id_L ∅ (∪)).
  fold (outgoing_request c (Ctx d) endpoint body).
  unfold handle_response.
  destruct (http_Client.Do _ _) as [err|resp]; [done|].
  destruct (Response.Body resp) as [err|respData]; [done|].
  destruct (negb (Response.StatusCode resp =? 200)); [done|].
  by destruct (unmarshal respData).
Qed.

(** A request that went out: the conditions above held. *)
Lemma doRequest_sent_inv {Req Resp : Type} `{Marshal Req}
    (pf : Platform) (c : Client.t) (ctx : Context) (endpoint : string)
    (r : Req) (unmarshal : string -> error + Resp) (req : Request.t) :
  req ∈ sent (doRequest pf c ctx endpoint (Some r) (Some unmarshal)) ->
  exists body,
    Client.apiKey c <> "" /\ marshal r = inr body /\ ctx <> NilContext /\
    url_Parse_error pf (Client.baseURL c +:+ endpoint) = None /\
    req = outgoing_request c ctx endpoint body.
Proof.
  destruct (String.eqb_spec (Client.apiKey c) "") as [Hk|Hk].
  { rewrite doRequest_missing_key by done. simpl. by intros ?%elem_of_nil. }
  destruct (marshal r) as [err|body] eqn:Hm.
  { unfold doRequest. apply String.eqb_neq in Hk. rewrite Hk, Hm. simpl.
    by intros ?%elem_of_nil. }
  destruct ctx as [|d].
  { unfold doRequest. apply String.eqb_neq in Hk. rewrite Hk, Hm. simpl.
    by intros ?%elem_of_nil. }
  destruct (url_Parse_error pf (Client.baseURL c +:+ endpoint)) as [msg|] eqn:Hu.
  { unfold doRequest, http_NewRequestWithContext.
    apply String.eqb_neq in Hk. rewrite Hk, Hm, Hu. simpl.
    by intros ?%elem_of_nil. }
  rewrite (doRequest_exchange pf c (Ctx d) endpoint r unmarshal body)
    by done.
  simpl. intros ->%list_elem_of_singleton. by exists body.
Qed.

(** Without a request on the wire, the error is none of the server's. *)
Lemma doRequest_nothing_sent {Req Resp : Type} `{Marshal Req}
    (pf : Platform) (c : Client.t) (ctx : Context) (endpoint : string)
    (r : Req) (unmarshal : string -> error + Resp) :
  sent (doRequest pf c ctx endpoint (Some r) (Some unmarshal)) = [] ->
  (exists e, marshal r = inl e /\
     result (doRequest pf c ctx endpoint (Some r) (Some unmarshal)) =
     inl (Errorf_w "failed to marshal request: " e)) \/
  (exists msg,
     result (doRequest pf c ctx endpoint (Some r) (Some unmarshal)) =
     inl (Errorf_w "failed to create request: " (LibErr msg))) \/
  (Client.apiKey c = "" /\
   result (doRequest pf c ctx endpoint (Some r) (Some unmarshal)) =
   inl (APIErr (APIError.mk 401
     "missing API key - provide via parameter or TAVILY_API_KEY environment variable"))).
Proof.
  destruct (String.eqb_spec (Client.apiKey c) "") as [Hk|Hk].
  { rewrite doRequest_missing_key by done. intros _. right. right. done. }
  destruct (marshal r) as [err|body] eqn:Hm.
  { unfold doRequest. apply String.eqb_neq in Hk. rewrite Hk, Hm. simpl.
    intros _. left. by exists err. }
  destruct ctx as [|d].
  { unfold doRequest. apply String.eqb_neq in Hk. rewrite Hk, Hm. simpl.
    intros _. right. left. by eexists. }
  destruct (url_Parse_error pf (Client.baseURL c +:+ endpoint)) as [msg|] eqn:Hu.
  { unfold doRequest, http_NewRequestWithContext.
    apply String.eqb_neq in Hk. rewrite Hk, Hm, Hu. simpl.
    intros _. right. left. by eexists. }
  rewrite (doRequest_exchange pf c (Ctx d) endpoint r unmarshal body)
    by done.
  done.
Qed.

(** Either nothing is sent, or the exchange takes place. *)
Lemma doRequest_sent_cases {Req Resp : Type} `{Marshal Req}
    (pf : Platform) (c : Client.t) (ctx : Context) (endpoint : string)
    (r : Req) (unmarshal : string -> error + Resp) :
  sent (doRequest pf c ctx endpoint (Some r) (Some unmarshal)) = [] \/
  exists body,
    marshal r = inr body /\
    doRequest pf c ctx endpoint (Some r) (Some unmarshal) =
    ([outgoing_request c ctx endpoint body],
     handle_response pf unmarshal
       (http_Client.Do (Client.httpClient c)
                       (outgoing_request c ctx endpoint body))).
Proof.
  destruct (String.eqb_spec (Client.apiKey c) "") as [Hk|Hk].
  { left. by rewrite doRequest_missing_key. }
  destruct (marshal r) as [err|body] eqn:Hm.
  { left. unfold doRequest. apply String.eqb_neq in Hk. by rewrite Hk, Hm. }
  destruct ctx as [|d].
  { left. unfold doRequest. apply String.eqb_neq in Hk. by rewrite Hk, Hm. }
  destruct (url_Parse_error pf (Client.baseURL c +:+ endpoint)) as [msg|] eqn:Hu.
  { left. unfold doRequest, http_NewRequestWithContext.
    apply String.eqb_neq in Hk. by rewrite Hk, Hm, Hu. }
  right. exists body. split; [done|]. by apply doRequest_exchange.
Qed.

(** ** The operations, in terms of the executor *)

Lemma Search_unfold (pf : Platform) (c : Client.t) (ctx : Context)
    (query : string) (opts : option SearchOptions.t) :
  Search pf c ctx query opts =
  let d := doRequest pf c ctx "/search" (Some (Search_request query opts))
                     (Some (json_Unmarshal_SearchResponse pf)) in
  (sent d,
   match result d with
   | inl err => inl (Errorf_w "search failed: " err)
   | inr resp => inr (default SearchResponse.zero resp)
   end).
Proof.
  unfold Search. simpl.
  destruct (doRequest _ _ _ _ _ _) as [reqs [err|resp]]; reflexivity.
Qed.

Lemma Extract_unfold (pf : Platform) (c : Client.t) (ctx : Context)
    (urls : list string) (opts : option ExtractOptions.t) :
  urls <> [] ->
  Extract pf c ctx urls opts =
  let d := doRequest pf c ctx "/extract" (Some (Extract_request urls opts))
                     (Some (json_Unmarshal_ExtractResponse pf)) in
  (sent d,
   match result d with
   | inl err => inl (Errorf_w "extract failed: " err)
   | inr resp => inr (default ExtractResponse.zero resp)
   end).
Proof.
  intros Hu. unfold Extract. destruct urls as [|u urls]; [done|]. simpl.
  destruct (doRequest _ _ _ _ _ _) as [reqs [err|resp]]; reflexivity.
Qed.

Lemma Crawl_unfold (pf : Platform) (c : Client.t) (ctx : Context)
    (url : string) (opts : option CrawlOptions.t) :
  url <> "" ->
  Crawl pf c ctx url opts =
  let d := doRequest pf c ctx "/crawl" (Some (Crawl_request url opts))
                     (Some (json_Unmarshal_CrawlResponse pf)) in
  (sent d,
   match result d with
   | inl err => inl (Errorf_w "crawl failed: " err)
   | inr resp => inr (default CrawlResponse.zero resp)
   end).
Proof.
  intros Hu%String.eqb_neq. unfold Crawl. rewrite Hu. simpl.
  destruct (doRequest _ _ _ _ _ _) as [reqs [err|resp]]; reflexivity.
Qed.

Lemma Map_unfold (pf : Platform) (c : Client.t) (ctx : Context)
    (url : string) (opts : option MapOptions.t) :
  url <> "" ->
  Map pf c ctx url opts =
  let d := doRequest pf c ctx "/map" (Some (Map_request url opts))
                     (Some (json_Unmarshal_MapResponse pf)) in
  (sent d,
   match result d with
   | inl err => inl (Errorf_w "map failed: " err)
   | inr resp => inr (default MapResponse.zero resp)
   end).
Proof.
  intros Hu%String.eqb_neq. unfold Map. rewrite Hu. simpl.
  destruct (doRequest _ _ _ _ _ _) as [reqs [err|resp]]; reflexivity.
Qed.

Lemma Extract_no_urls (pf : Platform) (c : Client.t) (ctx : Context)
    (opts : option ExtractOptions.t) :
  Extract pf c ctx [] opts =
  ([], inl (APIErr (APIError.mk 400 "at least one URL is required"))).
Proof. reflexivity. Qed.

Lemma Crawl_no_url (pf : Platform) (c : Client.t) (ctx : Context)
    (opts : option CrawlOptions.t) :
  Crawl pf c ctx "" opts =
  ([], inl (APIErr (APIError.mk 400 "URL is required"))).
Proof. reflexivity. Qed.

Lemma Map_no_url (pf : Platform) (c : Client.t) (ctx : Context)
    (opts : option MapOptions.t) :
  Map pf c ctx "" opts =
  ([], inl (APIErr (APIError.mk 400 "URL is required"))).
Proof. reflexivity. Qed.

(** The body of a request [Search] sent is the encoding of its request
    literal. *)
Lemma Search_sent_body (pf : Platform) (c : Client.t) (ctx : Context)
    (query : string) (opts : option SearchOptions.t) (req : Request.t) :
  req ∈ sent (Search pf c ctx query opts) ->
  exists body,
    marshal (Search_request query opts) = inr body /\
    req = outgoing_request c ctx "/search" body.
Proof.
  rewrite Search_unfold. simpl. intros Hin.
  apply doRequest_sent_inv in Hin as (body & _ & Hm & _ & _ & ->).
  by exists body.
Qed.

Lemma Search_exchange (pf : Platform) (c : Client.t) (ctx : Context)
    (query : string) (opts : option SearchOptions.t) (body : JSON) :
  Client.apiKey c <> "" ->
  marshal (Search_request query opts) = inr body ->
  ctx <> NilContext ->
  url_Parse_error pf (Client.baseURL c +:+ "/search") = None ->
  Search pf c ctx query opts =
  ([outgoing_request c ctx "/search" body],
   match handle_response pf (json_Unmarshal_SearchResponse pf)
           (http_Client.Do (Client.httpClient c)
                           (outgoing_request c ctx "/search" body)) with
   | inl err => inl (Errorf_w "search failed: " err)
   | inr resp => inr (default SearchResponse.zero resp)
   end).
Proof.
  intros Hk Hm Hc Hu. rewrite Search_unfold.
  by rewrite (doRequest_exchange pf c ctx "/search" _ _ body).
Qed.

Lemma Extract_sent_body (pf : Platform) (c : Client.t) (ctx : Context)
    (urls : list string) (opts : option ExtractOptions.t) (req : Request.t) :
  req ∈ sent (Extract pf c ctx urls opts) ->
  Request.Body req = Some (encode_struct
    (ExtractRequest.fields (Extract_request urls opts))).
Proof.
  destruct urls as [|u urls]; [by intros ?%elem_of_nil|].
  rewrite Extract_unfold by done. simpl. intros Hin.
  by apply doRequest_sent_inv in Hin as (body & _ & [= <-] & _ & _ & ->).
Qed.

Lemma Crawl_sent_body (pf : Platform) (c : Client.t) (ctx : Context)
    (url : string) (opts : option CrawlOptions.t) (req : Request.t) :
  req ∈ sent (Crawl pf c ctx url opts) ->
  Request.Body req = Some (encode_struct
    (CrawlRequest.fields (Crawl_request url opts))).
Proof.
  destruct (String.eqb_spec url "") as [->|Hu]; [by intros ?%elem_of_nil|].
  rewrite Crawl_unfold by done. simpl. intros Hin.
  by apply doRequest_sent_inv in Hin as (body & _ & [= <-] & _ & _ & ->).
Qed.

Lemma Map_sent_body (pf : Platform) (c : Client.t) (ctx : Context)
    (url : string) (opts : option MapOptions.t) (req : Request.t) :
  req ∈ sent (Map pf c ctx url opts) ->
  Request.Body req = Some (encode_struct
    (MapRequest.fields (Map_request url opts))).
Proof.
  destruct (String.eqb_spec url "") as [->|Hu]; [by intros ?%elem_of_nil|].
  rewrite Map_unfold by done. simpl. intros Hin.
  by apply doRequest_sent_inv in Hin as (body & _ & [= <-] & _ & _ & ->).
Qed.

Lemma Extract_exchange_sent (pf : Platform) (c : Client.t) (ctx : Context)
    (urls : list string) (opts : option ExtractOptions.t) :
  urls <> [] ->
  Client.apiKey c <> "" ->
  ctx <> NilContext ->
  url_Parse_error pf (Client.baseURL c +:+ "/extract") = None ->
  sent (Extract pf c ctx urls opts) =
  [outgoing_request c ctx "/extract"
     (encode_struct (ExtractRequest.fields (Extract_request urls opts)))].
Proof.
  intros Hn Hk Hc Hu. rewrite Extract_unfold by done.
  simpl.
  by rewrite (doRequest_exchange pf c ctx "/extract" (Extract_request urls opts) (json_Unmarshal_ExtractResponse pf)
                (encode_struct (ExtractRequest.fields (Extract_request urls opts))) Hk eq_refl Hc Hu).
Qed.

Lemma Crawl_exchange_sent (pf : Platform) (c : Client.t) (ctx : Context)
    (url : string) (opts : option CrawlOptions.t) :
  url <> "" ->
  Client.apiKey c <> "" ->
  ctx <> NilContext ->
  url_Parse_error pf (Client.baseURL c +:+ "/crawl") = None ->
  sent (Crawl pf c ctx url opts) =
  [outgoing_request c ctx "/crawl"
     (encode_struct (CrawlRequest.fields (Crawl_request url opts)))].
Proof.
  intros Hn Hk Hc Hu. rewrite Crawl_unfold by done.
  simpl.
  by rewrite (doRequest_exchange pf c ctx "/crawl" (Crawl_request url opts) (json_Unmarshal_CrawlResponse pf)
                (encode_struct (CrawlRequest.fields (Crawl_request url opts))) Hk eq_refl Hc Hu).
Qed.

Lemma Map_exchange_sent (pf : Platform) (c : Client.t) (ctx : Context)
    (url : string) (opts : option MapOptions.t) :
  url <> "" ->
  Client.apiKey c <> "" ->
  ctx <> NilContext ->
  url_Parse_error pf (Client.baseURL c +:+ "/map") = None ->
  sent (Map pf c ctx url opts) =
  [outgoing_request c ctx "/map"
     (encode_struct (MapRequest.fields (Map_request url opts)))].
Proof.
  intros Hn Hk Hc Hu. rewrite Map_unfold by done.
  simpl.
  by rewrite (doRequest_exchange pf c ctx "/map" (Map_request url opts) (json_Unmarshal_MapResponse pf)
                (encode_struct (MapRequest.fields (Map_request url opts))) Hk eq_refl Hc Hu).
Qed.

(** What the executor returns once a request is out, by what the HTTP
    client did with it. *)
Lemma doRequest_after_send {Req Resp : Type} `{Marshal Req}
    (pf : Platform) (c : Client.t) (ctx : Context) (endpoint : string)
    (r : Req) (unmarshal : string -> error + Resp) (req : Request.t) :
  req ∈ sent (doRequest pf c ctx endpoint (Some r) (Some unmarshal)) ->
  result (doRequest pf c ctx endpoint (Some r) (Some unmarshal)) =
  handle_response pf unmarshal (http_Client.Do (Client.httpClient c) req).
Proof.
  intros (body & Hk & Hm & Hc & Hu & ->)%doRequest_sent_inv.
  by rewrite (doRequest_exchange pf c ctx endpoint r unmarshal body).
Qed.

(** The four operations, once a request is out. *)
Lemma operations_after_send (pf : Platform) (c : Client.t) (ctx : Context) :
  (forall query opts req,
     req ∈ sent (Search pf c ctx query opts) ->
     result (Search pf c ctx query opts) =
     match handle_response pf (json_Unmarshal_SearchResponse pf)
             (http_Client.Do (Client.httpClient c) req) with
     | inl err => inl (Errorf_w "search failed: " err)
     | inr resp => inr (default SearchResponse.zero resp)
     end) /\
  (forall urls opts req,
     req ∈ sent (Extract pf c ctx urls opts) ->
     result (Extract pf c ctx urls opts) =
     match handle_response pf (json_Unmarshal_ExtractResponse pf)
             (http_Client.Do (Client.httpClient c) req) with
     | inl err => inl (Errorf_w "extract failed: " err)
     | inr resp => inr (default ExtractResponse.zero resp)
     end) /\
  (forall url opts req,
     req ∈ sent (Crawl pf c ctx url opts) ->
     result (Crawl pf c ctx url opts) =
     match handle_response pf (json_Unmarshal_CrawlResponse pf)
             (http_Client.Do (Client.httpClient c) req) with
     | inl err => inl (Errorf_w "crawl failed: " err)
     | inr resp => inr (default CrawlResponse.zero resp)
     end) /\
  (forall url opts req,
     req ∈ sent (Map pf c ctx url opts) ->
     result (Map pf c ctx url opts) =
     match handle_response pf (json_Unmarshal_MapResponse pf)
             (http_Client.Do (Client.httpClient c) req) with
     | inl err => inl (Errorf_w "map failed: " err)
     | inr resp => inr (default MapResponse.zero resp)
     end).
Proof.
  split; [|split; [|split]].
  - intros query opts req. rewrite Search_unfold. simpl.
    by intros ->%doRequest_after_send.
  - intros [|u urls] opts req; [by intros ?%elem_of_nil|].
    rewrite Extract_unfold by done. simpl.
    by intros ->%doRequest_after_send.
  - intros url opts req.
    destruct (String.eqb_spec url "") as [->|Hu]; [by intros ?%elem_of_nil|].
    rewrite Crawl_unfold by done. simpl.
    by intros ->%doRequest_after_send.
  - intros url opts req.
    destruct (String.eqb_spec url "") as [->|Hu]; [by intros ?%elem_of_nil|].
    rewrite Map_unfold by done. simpl.
    by intros ->%doRequest_after_send.
Qed.

(** ** Status-code classification (C2) *)

(** C2. The four predicates of [APIError] are decided by the status code
    alone: [IsUnauthorized] holds exactly for 401, [IsRateLimit] for 429,
    [IsForbidden] for 403, 432 and 433, [IsBadRequest] for 400; no two of
    them hold together, and for any other code, such as 500, none
    holds. *)
Theorem APIError_classification (e : APIError.t) :
  let code := APIError.StatusCode e in
  (APIError.IsUnauthorized e = true <-> code = 401) /\
  (APIError.IsRateLimit e = true <-> code = 429) /\
  (APIError.IsForbidden e = true <-> code = 403 \/ code = 432 \/ code = 433) /\
  (APIError.IsBadRequest e = true <-> code = 400) /\
  (APIError.IsUnauthorized e = true ->
     APIError.IsRateLimit e = false /\ APIError.IsForbidden e = false /\
     APIError.IsBadRequest e = false) /\
  (APIError.IsRateLimit e = true ->
     APIError.IsUnauthorized e = false /\ APIError.IsForbidden e = false /\
     APIError.IsBadRequest e = false) /\
  (APIError.IsForbidden e = true ->
     APIError.IsUnauthorized e = false /\ APIError.IsRateLimit e = false /\
     APIError.IsBadRequest e = false) /\
  (APIError.IsBadRequest e = true ->
     APIError.IsUnauthorized e = false /\ APIError.IsRateLimit e = false /\
     APIError.IsForbidden e = false) /\
  (code <> 400 -> code <> 401 -> code <> 403 -> code <> 429 ->
   code <> 432 -> code <> 433 ->
     APIError.IsUnauthorized e = false /\ APIError.IsRateLimit e = false /\
     APIError.IsForbidden e = false /\ APIError.IsBadRequest e = false).
Proof.
  destruct e as [code msg]; simpl.
  unfold APIError.IsUnauthorized, APIError.IsRateLimit, APIError.IsForbidden,
    APIError.IsBadRequest; simpl.
  rewrite !orb_true_iff, !orb_false_iff, !Z.eqb_eq, !Z.eqb_neq.
  lia.
Qed.

Lemma APIError_classification_witness :
  let e := APIError.mk 500 "internal server error" in
  APIError.IsUnauthorized e = false /\ APIError.IsRateLimit e = false /\
  APIError.IsForbidden e = false /\ APIError.IsBadRequest e = false.
Proof.
  apply (APIError_classification (APIError.mk 500 "internal server error"));
    simpl; lia.
Defined.

(** ** Default substitution in [Search] (C1) *)

(** C1. In every [Search] call, the search depth, the topic, the maximum
    number of results and the timeout of the request payload are the
    documented defaults ("basic", "general", 5, 60) where the options
    leave them at the zero value, and the caller's value otherwise; the
    other scalar options are copied as they are; and the body of a
    request that is sent carries these four values, the two strings as
    the JSON encoder writes them: unchanged when they are valid UTF-8. *)
Theorem Search_default_substitution (pf : Platform) (c : Client.t)
    (ctx : Context) (query : string) (opts : option SearchOptions.t) :
  let o := default SearchOptions.zero opts in
  let r := Search_request query opts in
  (default_rule "" (SearchOptions.SearchDepth o) "basic"
                (SearchRequest.SearchDepth r) /\
   default_rule "" (SearchOptions.Topic o) "general" (SearchRequest.Topic r) /\
   default_rule 0 (SearchOptions.MaxResults o) 5 (SearchRequest.MaxResults r) /\
   default_rule 0 (SearchOptions.Timeout o) 60 (SearchRequest.Timeout r)) /\
  (SearchRequest.Query r = query /\
   SearchRequest.TimeRange r = SearchOptions.TimeRange o /\
   SearchRequest.Days r = SearchOptions.Days o /\
   SearchRequest.MaxTokens r = SearchOptions.MaxTokens o /\
   SearchRequest.ChunksPerSource r = SearchOptions.ChunksPerSource o /\
   SearchRequest.Country r = SearchOptions.Country o) /\
  (forall req, req ∈ sent (Search pf c ctx query opts) ->
   exists body,
     Request.Body req = Some body /\
     json_get "search_depth" body =
       Some (encode_string (SearchRequest.SearchDepth r)) /\
     json_get "topic" body = Some (encode_string (SearchRequest.Topic r)) /\
     json_get "max_results" body =
       Some (JNumber (SearchRequest.MaxResults r)) /\
     json_get "timeout" body = Some (JNumber (SearchRequest.Timeout r)) /\
     (utf8_ValidString (SearchRequest.SearchDepth r) = true ->
      json_get "search_depth" body =
        Some (JString (SearchRequest.SearchDepth r))) /\
     (utf8_ValidString (SearchRequest.Topic r) = true ->
      json_get "topic" body = Some (JString (SearchRequest.Topic r)))).
Proof.
  intros o r. split; [|split].
  - repeat split;
      first [apply defaultString_rule | apply defaultInt_rule].
  - done.
  - intros req (body & Hm & ->)%Search_sent_body.
    exists body. split; [done|].
    apply SearchRequest_Marshal_inv in Hm as (a & rc & _ & _ & ->).
    assert (json_get "search_depth"
              (encode_struct (SearchRequest.fields r a rc)) =
            Some (encode_string (SearchRequest.SearchDepth r))) as Hdepth.
    { pick_field. simpl. by rewrite defaultString_nonempty. }
    assert (json_get "topic" (encode_struct (SearchRequest.fields r a rc)) =
            Some (encode_string (SearchRequest.Topic r))) as Htopic.
    { pick_field. simpl. by rewrite defaultString_nonempty. }
    split; [exact Hdepth|]. split; [exact Htopic|].
    split; [pick_field; simpl; by rewrite defaultInt_nonzero|].
    split; [pick_field; simpl; by rewrite defaultInt_nonzero|].
    split; intros Hv; rewrite <- (encode_string_valid _ Hv);
      [exact Hdepth|exact Htopic].
Qed.

Lemma Search_default_substitution_witness :
  SearchRequest.SearchDepth (Search_request "test query" None) = "basic" /\
  SearchRequest.MaxResults
    (Search_request "test query" (Some SearchWithAnswer_opts)) = 10 /\
  exists body,
    Request.Body
      (outgoing_request (test_client 200 "{}") (Ctx false) "/search"
         (JObject [("query", JString "test query");
                   ("search_depth", JString "basic");
                   ("topic", JString "general");
                   ("max_results", JNumber 5);
                   ("timeout", JNumber 60)])) = Some body /\
    json_get "search_depth" body = Some (JString "basic") /\
    json_get "topic" body = Some (JString "general") /\
    json_get "max_results" body = Some (JNumber 5) /\
    json_get "timeout" body = Some (JNumber 60).
Proof.
  split; [|split].
  - apply (Search_default_substitution test_platform (test_client 200 "{}")
             (Ctx false) "test query" None).
    reflexivity.
  - apply (Search_default_substitution test_platform (test_client 200 "{}")
             (Ctx false) "test query" (Some SearchWithAnswer_opts)).
    simpl. lia.
  - destruct (proj2 (proj2 (Search_default_substitution test_platform
                              (test_client 200 "{}") (Ctx false)
                              "test query" None))
                     (outgoing_request (test_client 200 "{}") (Ctx false)
                        "/search"
                        (JObject [("query", JString "test query");
                                  ("search_depth", JString "basic");
                                  ("topic", JString "general");
                                  ("max_results", JNumber 5);
                                  ("timeout", JNumber 60)])))
      as (body & Hb & _ & _ & Hmax & Htimeout & Hdepth & Htopic).
    { vm_compute. constructor. }
    exists body. split; [exact Hb|].
    split; [apply Hdepth; reflexivity|].
    split; [apply Htopic; reflexivity|].
    split; [exact Hmax|exact Htimeout].
Defined.

(** ** Required targets (C3) *)

(** Whether the request of [Search] encodes does not depend on the
    query. *)
Lemma Search_marshal_any_query (q q' : string)
    (opts : option SearchOptions.t) (body : JSON) :
  marshal (Search_request q opts) = inr body ->
  exists body', marshal (Search_request q' opts) = inr body'.
Proof.
  unfold marshal, SearchRequest_Marshal, SearchRequest.Marshal. simpl.
  destruct (encode_any _) as [?|a]; [done|].
  destruct (encode_any _) as [?|rc]; [done|]. eauto.
Qed.

Lemma Search_sent_any_query (pf : Platform) (c : Client.t) (ctx : Context)
    (q q' : string) (opts : option SearchOptions.t) :
  sent (Search pf c ctx q opts) = [] -> sent (Search pf c ctx q' opts) = [].
Proof.
  intros Hq.
  destruct (sent (Search pf c ctx q' opts)) as [|req reqs] eqn:Hq'; [done|].
  assert (req ∈ sent (Search pf c ctx q' opts)) as Hin
    by (rewrite Hq'; left).
  rewrite Search_unfold in Hin. simpl in Hin.
  apply doRequest_sent_inv in Hin as (body' & Hk & Hm & Hc & Hu & _).
  apply (Search_marshal_any_query q' q) in Hm as [body Hm].
  by rewrite (Search_exchange pf c ctx q opts body) in Hq.
Qed.

(** C3. [Extract] with an empty URL list, and [Crawl] and [Map] with an
    empty URL, return an [APIError] of status 400 and send nothing.
    [Search] has no such check: with an empty query it reaches the
    network exactly when it does with any other query, an error it
    returns without a request sent is never a bad-request error, and with
    a key, a live context, a URL that parses and options that encode, the
    request goes out carrying the empty query. *)
Theorem required_target_validation (pf : Platform) (c : Client.t)
    (ctx : Context) :
  (forall opts,
     sent (Extract pf c ctx [] opts) = [] /\
     exists e, result (Extract pf c ctx [] opts) = inl (APIErr e) /\
               APIError.StatusCode e = 400 /\ APIError.IsBadRequest e = true) /\
  (forall opts,
     sent (Crawl pf c ctx "" opts) = [] /\
     exists e, result (Crawl pf c ctx "" opts) = inl (APIErr e) /\
               APIError.StatusCode e = 400 /\ APIError.IsBadRequest e = true) /\
  (forall opts,
     sent (Map pf c ctx "" opts) = [] /\
     exists e, result (Map pf c ctx "" opts) = inl (APIErr e) /\
               APIError.StatusCode e = 400 /\ APIError.IsBadRequest e = true) /\
  (forall opts query,
     sent (Search pf c ctx "" opts) = [] <->
     sent (Search pf c ctx query opts) = []) /\
  (forall opts err e,
     sent (Search pf c ctx "" opts) = [] ->
     result (Search pf c ctx "" opts) = inl err ->
     errors_As_APIError err = Some e ->
     APIError.IsBadRequest e = false) /\
  (forall opts body,
     Client.apiKey c <> "" ->
     ctx <> NilContext ->
     url_Parse_error pf (Client.baseURL c +:+ "/search") = None ->
     marshal (Search_request "" opts) = inr body ->
     sent (Search pf c ctx "" opts) = [outgoing_request c ctx "/search" body] /\
     json_get "query" body = Some (JString "")).
Proof.
  split; [|split; [|split; [|split; [|split]]]].
  - intros opts. split; [done|]. by eexists.
  - intros opts. split; [done|]. by eexists.
  - intros opts. split; [done|]. by eexists.
  - intros opts query. split; apply Search_sent_any_query.
  - intros opts err e. rewrite Search_unfold. simpl. intros Hs Hr He.
    apply doRequest_nothing_sent
      in Hs as [(e' & Hm & Hd)|[(msg & Hd)|[_ Hd]]];
      rewrite Hd in Hr; injection Hr as <-; simpl in He.
    + apply SearchRequest_Marshal_error in Hm as [msg ->]. done.
    + done.
    + by injection He as <-.
  - intros opts body Hk Hc Hu Hm. split.
    + by rewrite (Search_exchange pf c ctx "" opts body).
    + apply SearchRequest_Marshal_inv in Hm as (a & rc & _ & _ & ->).
      by pick_field.
Qed.

Lemma required_target_validation_witness :
  let body := JObject [("query", JString "");
                       ("search_depth", JString "basic");
                       ("topic", JString "general");
                       ("max_results", JNumber 5);
                       ("timeout", JNumber 60)] in
  sent (Search test_platform (test_client 200 "{}") (Ctx false) "" None) =
  [outgoing_request (test_client 200 "{}") (Ctx false) "/search" body] /\
  json_get "query" body = Some (JString "").
Proof.
  apply (required_target_validation test_platform (test_client 200 "{}")
           (Ctx false)).
  - vm_compute. discriminate.
  - discriminate.
  - reflexivity.
  - reflexivity.
Defined.

(** ** Missing credential (C4) *)

(** On a client without key, [Extract] with an empty URL list is turned
    down as a bad request, not as unauthorized: the check of the URL list
    comes before the check of the key. *)
Lemma keyless_Extract_without_urls_not_unauthorized :
  Client.apiKey keyless_client = "" /\
  ~ fails_unauthorized (Extract test_platform keyless_client (Ctx false) [] None).
Proof.
  split; [reflexivity|].
  intros (_ & err & e & Hr & Ha & Hc & _).
  rewrite Extract_no_urls in Hr. injection Hr as <-.
  injection Ha as <-. discriminate Hc.
Qed.

Lemma doRequest_fails_unauthorized {Req Resp : Type} `{Marshal Req}
    (pf : Platform) (c : Client.t) (ctx : Context) (endpoint : string)
    (requestBody : option Req)
    (responseBody : option (string -> error + Resp)) (prefix : string)
    (zero : Resp) :
  Client.apiKey c = "" ->
  let d := doRequest pf c ctx endpoint requestBody responseBody in
  fails_unauthorized
    (sent d,
     match result d with
     | inl err => inl (Errorf_w prefix err)
     | inr resp => inr (default zero resp)
     end).
Proof.
  intros Hk d. unfold d. rewrite doRequest_missing_key by done.
  split; [done|]. by do 2 eexists.
Qed.

(** C4, amended. A client built with no key and no [TAVILY_API_KEY] has
    the empty key; on a client with the empty key, [Search] with any
    query, [Extract] with a non-empty URL list, and [Crawl] and [Map]
    with a non-empty URL fail with an [APIError] of status 401, for which
    [IsUnauthorized] holds and which [errors.As] finds in the returned
    error, and send nothing. *)
Theorem missing_key_unauthorized (pf : Platform) (ctx : Context) :
  (forall opts, os_Getenv pf "TAVILY_API_KEY" = "" ->
                Client.apiKey (New pf "" opts) = "") /\
  (forall c, Client.apiKey c = "" ->
     (forall query opts, fails_unauthorized (Search pf c ctx query opts)) /\
     (forall urls opts, urls <> [] ->
                        fails_unauthorized (Extract pf c ctx urls opts)) /\
     (forall url opts, url <> "" ->
                       fails_unauthorized (Crawl pf c ctx url opts)) /\
     (forall url opts, url <> "" ->
                       fails_unauthorized (Map pf c ctx url opts))).
Proof.
  split.
  - intros opts Henv. unfold New. simpl. by rewrite Henv.
  - intros c Hk. split; [|split; [|split]].
    + intros query opts. rewrite Search_unfold.
      by apply doRequest_fails_unauthorized.
    + intros urls opts Hu. rewrite Extract_unfold by done.
      by apply doRequest_fails_unauthorized.
    + intros url opts Hu. rewrite Crawl_unfold by done.
      by apply doRequest_fails_unauthorized.
    + intros url opts Hu. rewrite Map_unfold by done.
      by apply doRequest_fails_unauthorized.
Qed.

Lemma missing_key_unauthorized_witness :
  Client.apiKey (New test_platform "" None) = "" /\
  fails_unauthorized
    (Search test_platform keyless_client (Ctx false) "test" None) /\
  fails_unauthorized
    (Extract test_platform keyless_client (Ctx false)
             ["https://example.com"] None) /\
  fails_unauthorized
    (Crawl test_platform keyless_client (Ctx false) "https://example.com" None) /\
  fails_unauthorized
    (Map test_platform keyless_client (Ctx false) "https://example.com" None).
Proof.
  split; [|split; [|split; [|split]]].
  - apply (missing_key_unauthorized test_platform (Ctx false)). reflexivity.
  - apply (missing_key_unauthorized test_platform (Ctx false)). reflexivity.
  - apply (missing_key_unauthorized test_platform (Ctx false));
      [reflexivity | discriminate].
  - apply (missing_key_unauthorized test_platform (Ctx false));
      [reflexivity | discriminate].
  - apply (missing_key_unauthorized test_platform (Ctx false));
      [reflexivity | discriminate].
Defined.

(** ** Non-200 responses (C5) *)




(** ** Error propagation (C6) *)

Lemma surfaces_wrap (prefix : string) (original : error) :
  surfaces (Errorf_w prefix original) original.
Proof. split; [apply errors_Is_wrap | apply errors_As_wrap]. Qed.

Lemma surfaces_refl (original : error) : surfaces original original.
Proof. split; [constructor | reflexivity]. Qed.

Lemma surfaces_trans (a b c : error) :
  surfaces a b -> surfaces b c -> surfaces a c.
Proof.
  intros [Hab Eab] [Hbc Ebc]. split; [by eapply errors_Is_trans | congruence].
Qed.

(** The errors of the executor: an [APIError] as it is (missing key, or a
    status other than 200), or the error of a library (encoding, request
    construction, transport, reading, decoding) under a prefix. *)
Lemma doRequest_error_kinds {Req Resp : Type} `{Marshal Req}
    (pf : Platform) (c : Client.t) (ctx : Context) (endpoint : string)
    (r : Req) (unmarshal : string -> error + Resp) (original : error) :
  result (doRequest pf c ctx endpoint (Some r) (Some unmarshal)) =
    inl original ->
  (exists e, original = APIErr e) \/
  (exists prefix cause, original = Errorf_w prefix cause /\
     (marshal r = inl cause \/
      (exists msg, cause = LibErr msg /\
                   prefix = "failed to create request: ") \/
      (exists req,
         req ∈ sent (doRequest pf c ctx endpoint (Some r) (Some unmarshal)) /\
         (http_Client.Do (Client.httpClient c) req = inl cause \/
          exists resp,
            http_Client.Do (Client.httpClient c) req = inr resp /\
            (Response.Body resp = inl cause \/
             exists respData,
               Response.Body resp = inr respData /\
               Response.StatusCode resp = 200 /\
               unmarshal respData = inl cause))))).
Proof.
  destruct (doRequest_sent_cases pf c ctx endpoint r unmarshal)
    as [Hs|(body & Hm & Heq)].
  - apply doRequest_nothing_sent
      in Hs as [(e & Hm & ->)|[(msg & ->)|[_ ->]]]; intros [= <-].
    + right. exists "failed to marshal request: ", e. auto.
    + right. exists "failed to create request: ", (LibErr msg).
      split; [done|]. right. left. by exists msg.
    + left. by eexists.
  - rewrite Heq. simpl.
    assert (outgoing_request c ctx endpoint body
            ∈ [outgoing_request c ctx endpoint body]) as Hin by left.
    unfold handle_response.
    destruct (http_Client.Do _ _) as [cause|resp] eqn:Hdo.
    { intros [= <-]. right. do 2 eexists. split; [done|].
      right. right. eexists. split; [exact Hin|]. by left. }
    destruct (Response.Body resp) as [cause|respData] eqn:Hb.
    { intros [= <-]. right. do 2 eexists. split; [done|].
      right. right. eexists. split; [exact Hin|]. right. exists resp. auto. }
    destruct (Z.eqb_spec (Response.StatusCode resp) 200) as [H200|H200]; simpl.
    + destruct (unmarshal respData) as [cause|v] eqn:Hun; [|done].
      intros [= <-]. right. do 2 eexists. split; [done|].
      right. right. eexists. split; [exact Hin|]. right. exists resp.
      split; [done|]. right. by exists respData.
    + destruct (parseAPIError_spec pf (Response.StatusCode resp) respData)
        as (e & -> & _).
      intros [= <-]. left. by exists e.
Qed.

(** C6. Every error made inside an operation call comes out of it, and
    in a form that still shows its kind. An error of the executor is
    returned under the name of the operation ("search failed: " and the
    like), and [GetSearchContext] returns the error of its search under
    one more such prefix; the bad-request [APIError] of an operation's
    own check is returned as it is. Once the request is out: a failure of
    the HTTP client, a failure to read the body, and a failure to decode
    a 200 answer are returned so that [errors.Is] finds the cause and
    [errors.As] finds an [APIError] only if the cause holds one; an
    answer with another status and a body that is read is returned so
    that [errors.As] finds the [APIError] with that status. Conversely,
    every error an operation returns is one of these, and [errors.Is]
    and [errors.As] see the original through the wrapping. *)
Theorem wrapped_errors_keep_their_kind (pf : Platform) (c : Client.t)
    (ctx : Context) :
  let kept (prefix : string) (original : error) (returned : option error) :=
    returned = Some (Errorf_w prefix original) /\
    surfaces (Errorf_w prefix original) original /\
    forall e, original = APIErr e ->
              errors_As_APIError (Errorf_w prefix original) = Some e in
  let surfaced {R : Type} (unmarshal : string -> error + R)
               (answer : error + Response.t) (returned : option error) :=
    (forall cause,
       answer = inl cause ->
       exists err, returned = Some err /\ surfaces err cause) /\
    (forall resp cause,
       answer = inr resp -> Response.Body resp = inl cause ->
       exists err, returned = Some err /\ surfaces err cause) /\
    (forall resp respData,
       answer = inr resp -> Response.Body resp = inr respData ->
       Response.StatusCode resp <> 200 ->
       exists err e,
         returned = Some err /\ surfaces err (APIErr e) /\
         errors_As_APIError err = Some e /\
         APIError.StatusCode e = Response.StatusCode resp) /\
    (forall resp respData cause,
       answer = inr resp -> Response.Body resp = inr respData ->
       Response.StatusCode resp = 200 -> unmarshal respData = inl cause ->
       exists err, returned = Some err /\ surfaces err cause) in
  ((forall query opts original,
      result (doRequest pf c ctx "/search" (Some (Search_request query opts))
                (Some (json_Unmarshal_SearchResponse pf))) = inl original ->
      kept "search failed: " original
           (failure (Search pf c ctx query opts))) /\
   (forall urls opts original,
      urls <> [] ->
      result (doRequest pf c ctx "/extract" (Some (Extract_request urls opts))
                (Some (json_Unmarshal_ExtractResponse pf))) = inl original ->
      kept "extract failed: " original
           (failure (Extract pf c ctx urls opts))) /\
   (forall url opts original,
      url <> "" ->
      result (doRequest pf c ctx "/crawl" (Some (Crawl_request url opts))
                (Some (json_Unmarshal_CrawlResponse pf))) = inl original ->
      kept "crawl failed: " original (failure (Crawl pf c ctx url opts))) /\
   (forall url opts original,
      url <> "" ->
      result (doRequest pf c ctx "/map" (Some (Map_request url opts))
                (Some (json_Unmarshal_MapResponse pf))) = inl original ->
      kept "map failed: " original (failure (Map pf c ctx url opts))) /\
   (forall query maxTokens original,
      result (Search pf c ctx query (Some (GetSearchContext_opts maxTokens)))
        = inl original ->
      kept "search failed: " original
           (failure (GetSearchContext pf c ctx query maxTokens))) /\
   (forall opts,
      failure (Extract pf c ctx [] opts) =
      Some (APIErr (APIError.mk 400 "at least one URL is required"))) /\
   (forall opts,
      failure (Crawl pf c ctx "" opts) =
      Some (APIErr (APIError.mk 400 "URL is required"))) /\
   (forall opts,
      failure (Map pf c ctx "" opts) =
      Some (APIErr (APIError.mk 400 "URL is required")))) /\
  ((forall query opts req,
      req ∈ sent (Search pf c ctx query opts) ->
      surfaced (json_Unmarshal_SearchResponse pf)
               (http_Client.Do (Client.httpClient c) req)
               (failure (Search pf c ctx query opts))) /\
   (forall urls opts req,
      req ∈ sent (Extract pf c ctx urls opts) ->
      surfaced (json_Unmarshal_ExtractResponse pf)
               (http_Client.Do (Client.httpClient c) req)
               (failure (Extract pf c ctx urls opts))) /\
   (forall url opts req,
      req ∈ sent (Crawl pf c ctx url opts) ->
      surfaced (json_Unmarshal_CrawlResponse pf)
               (http_Client.Do (Client.httpClient c) req)
               (failure (Crawl pf c ctx url opts))) /\
   (forall url opts req,
      req ∈ sent (Map pf c ctx url opts) ->
      surfaced (json_Unmarshal_MapResponse pf)
               (http_Client.Do (Client.httpClient c) req)
               (failure (Map pf c ctx url opts)))) /\
  (forall query opts err,
     result (Search pf c ctx query opts) = inl err ->
     exists original,
       result (doRequest pf c ctx "/search" (Some (Search_request query opts))
                 (Some (json_Unmarshal_SearchResponse pf))) = inl original /\
       err = Errorf_w "search failed: " original /\
       surfaces err original /\
       forall e, original = APIErr e -> errors_As_APIError err = Some e) /\
  (forall urls opts err,
     result (Extract pf c ctx urls opts) = inl err ->
     exists original,
       (urls = [] /\ original = err /\
        err = APIErr (APIError.mk 400 "at least one URL is required") \/
        result (doRequest pf c ctx "/extract"
                  (Some (Extract_request urls opts))
                  (Some (json_Unmarshal_ExtractResponse pf))) = inl original /\
        err = Errorf_w "extract failed: " original) /\
       surfaces err original /\
       forall e, original = APIErr e -> errors_As_APIError err = Some e) /\
  (forall url opts err,
     result (Crawl pf c ctx url opts) = inl err ->
     exists original,
       (url = "" /\ original = err /\
        err = APIErr (APIError.mk 400 "URL is required") \/
        result (doRequest pf c ctx "/crawl" (Some (Crawl_request url opts))
                  (Some (json_Unmarshal_CrawlResponse pf))) = inl original /\
        err = Errorf_w "crawl failed: " original) /\
       surfaces err original /\
       forall e, original = APIErr e -> errors_As_APIError err = Some e) /\
  (forall url opts err,
     result (Map pf c ctx url opts) = inl err ->
     exists original,
       (url = "" /\ original = err /\
        err = APIErr (APIError.mk 400 "URL is required") \/
        result (doRequest pf c ctx "/map" (Some (Map_request url opts))
                  (Some (json_Unmarshal_MapResponse pf))) = inl original /\
        err = Errorf_w "map failed: " original) /\
       surfaces err original /\
       forall e, original = APIErr e -> errors_As_APIError err = Some e) /\
  (forall query maxTokens err,
     result (GetSearchContext pf c ctx query maxTokens) = inl err ->
     exists original,
       result (Search pf c ctx query
                 (Some (GetSearchContext_opts maxTokens))) = inl original /\
       err = Errorf_w "search failed: " original /\
       surfaces err original).
Proof.
  intros kept surfaced. subst kept surfaced. simpl.
  split; [|split; [|split; [|split; [|split; [|split]]]]].
  - unfold failure.
    split; [|split; [|split; [|split; [|split; [|split; [|split]]]]]].
    + intros query opts original Hd. rewrite Search_unfold. simpl.
      rewrite Hd. split; [done|]. split; [apply surfaces_wrap|]. by intros e ->.
    + intros urls opts original Hn Hd. rewrite Extract_unfold by done. simpl.
      rewrite Hd. split; [done|]. split; [apply surfaces_wrap|]. by intros e ->.
    + intros url opts original Hn Hd. rewrite Crawl_unfold by done. simpl.
      rewrite Hd. split; [done|]. split; [apply surfaces_wrap|]. by intros e ->.
    + intros url opts original Hn Hd. rewrite Map_unfold by done. simpl.
      rewrite Hd. split; [done|]. split; [apply surfaces_wrap|]. by intros e ->.
    + intros query maxTokens original. unfold GetSearchContext.
      destruct (Search _ _ _ _ _) as [reqs [err|resp]]; simpl; [|done].
      intros [= ->]. split; [done|]. split; [apply surfaces_wrap|].
      by intros e ->.
    + done.
    + done.
    + done.
  - destruct (operations_after_send pf c ctx) as (HS & HE & HC & HM).
    unfold failure.
    split; [|split; [|split]]; intros ? ? req Hin;
      [rewrite (HS _ _ _ Hin)|rewrite (HE _ _ _ Hin)
      |rewrite (HC _ _ _ Hin)|rewrite (HM _ _ _ Hin)];
      unfold handle_response;
      (split; [|split; [|split]]).
    all: try (intros cause ->; eexists; split; [reflexivity|];
              eapply surfaces_trans; apply surfaces_wrap).
    all: try (intros resp cause -> ->; eexists; split; [reflexivity|];
              eapply surfaces_trans; apply surfaces_wrap).
    all: try (intros resp respData -> -> Hst%Z.eqb_neq; rewrite Hst; simpl;
              destruct (parseAPIError_spec pf (Response.StatusCode resp)
                          respData) as (e & -> & Hcode & _);
              eexists; exists e; split; [reflexivity|];
              split; [apply surfaces_wrap|]; done).
    all: intros resp respData cause -> -> -> Hun; rewrite Hun; simpl;
         eexists; split; [reflexivity|];
         eapply surfaces_trans; apply surfaces_wrap.
  - intros query opts err. rewrite Search_unfold. simpl.
    destruct (result (doRequest _ _ _ _ _ _)) as [original|resp]; [|done].
    intros [= <-]. exists original.
    split; [done|]. split; [done|]. split; [apply surfaces_wrap|].
    by intros e ->.
  - intros urls opts err. destruct urls as [|u urls].
    { rewrite Extract_no_urls. intros [= <-]. eexists.
      split; [left; done|]. split; [apply surfaces_refl|]. by intros e ->. }
    rewrite Extract_unfold by done. simpl.
    destruct (result (doRequest _ _ _ _ _ _)) as [original|resp]; [|done].
    intros [= <-]. exists original.
    split; [right; done|]. split; [apply surfaces_wrap|]. by intros e ->.
  - intros url opts err. destruct (String.eqb_spec url "") as [->|Hu].
    { rewrite Crawl_no_url. intros [= <-]. eexists.
      split; [left; done|]. split; [apply surfaces_refl|]. by intros e ->. }
    rewrite Crawl_unfold by done. simpl.
    destruct (result (doRequest _ _ _ _ _ _)) as [original|resp]; [|done].
    intros [= <-]. exists original.
    split; [right; done|]. split; [apply surfaces_wrap|]. by intros e ->.
  - intros url opts err. destruct (String.eqb_spec url "") as [->|Hu].
    { rewrite Map_no_url. intros [= <-]. eexists.
      split; [left; done|]. split; [apply surfaces_refl|]. by intros e ->. }
    rewrite Map_unfold by done. simpl.
    destruct (result (doRequest _ _ _ _ _ _)) as [original|resp]; [|done].
    intros [= <-]. exists original.
    split; [right; done|]. split; [apply surfaces_wrap|]. by intros e ->.
  - intros query maxTokens err. unfold GetSearchContext.
    destruct (Search _ _ _ _ _) as [reqs [original|resp]]; simpl; [|done].
    intros [= <-]. exists original.
    split; [done|]. split; [done|]. apply surfaces_wrap.
Qed.

Lemma wrapped_errors_keep_their_kind_witness :
  let original := APIErr (APIError.mk 401 "Invalid API key provided") in
  failure (Search test_platform (test_client 401 invalid_key_body) (Ctx false)
                  "test" None) =
    Some (Errorf_w "search failed: " original) /\
  surfaces (Errorf_w "search failed: " original) original /\
  forall e, original = APIErr e ->
            errors_As_APIError (Errorf_w "search failed: " original) = Some e.
Proof.
  intros original.
  apply (proj1 (proj1 (wrapped_errors_keep_their_kind test_platform
                         (test_client 401 invalid_key_body) (Ctx false)))
               "test" None original).
  vm_compute. reflexivity.
Defined.

(** ** Optional booleans (C7) *)

Lemma boolptr_tri_state (p : option bool) : tri_state p (JBool <$> p).
Proof. by destruct p as [[|]|]. Qed.

Lemma encode_any_tri_state (a : GoAny) (member : option JSON) :
  encode_any a = inr member -> any_tri_state a member.
Proof.
  destruct a as [|[|]| | |[|]|]; intros [= <-]; by repeat split.
Qed.

(** C7. In the body of every request an operation sends, each optional
    boolean of the options has no member when it is absent (nil), and is
    the member [false] or [true] when it is given: [include_images] and
    [include_image_descriptions] of [Search], [include_images] of
    [Extract], [allow_external] and [include_images] of [Crawl],
    [allow_external] of [Map], and the [any] fields [include_answer] and
    [include_raw_content] of [Search] when they hold a boolean. An absent
    field and an explicit [false] therefore give different bodies. *)
Theorem optional_booleans_tri_state (pf : Platform) (c : Client.t)
    (ctx : Context) :
  (forall query opts req,
     req ∈ sent (Search pf c ctx query opts) ->
     let o := default SearchOptions.zero opts in
     exists body,
       Request.Body req = Some body /\
       tri_state (SearchOptions.IncludeImages o)
                 (json_get "include_images" body) /\
       tri_state (SearchOptions.IncludeImageDescriptions o)
                 (json_get "include_image_descriptions" body) /\
       any_tri_state (SearchOptions.IncludeAnswer o)
                     (json_get "include_answer" body) /\
       any_tri_state (SearchOptions.IncludeRawContent o)
                     (json_get "include_raw_content" body)) /\
  (forall urls opts req,
     req ∈ sent (Extract pf c ctx urls opts) ->
     let o := default ExtractOptions.zero opts in
     exists body,
       Request.Body req = Some body /\
       tri_state (ExtractOptions.IncludeImages o)
                 (json_get "include_images" body)) /\
  (forall url opts req,
     req ∈ sent (Crawl pf c ctx url opts) ->
     let o := default CrawlOptions.zero opts in
     exists body,
       Request.Body req = Some body /\
       tri_state (CrawlOptions.AllowExternal o)
                 (json_get "allow_external" body) /\
       tri_state (CrawlOptions.IncludeImages o)
                 (json_get "include_images" body)) /\
  (forall url opts req,
     req ∈ sent (Map pf c ctx url opts) ->
     let o := default MapOptions.zero opts in
     exists body,
       Request.Body req = Some body /\
       tri_state (MapOptions.AllowExternal o)
                 (json_get "allow_external" body)).
Proof.
  split; [|split; [|split]].
  - intros query opts req (body & Hm & ->)%Search_sent_body o.
    exists body. split; [done|].
    apply SearchRequest_Marshal_inv in Hm as (a & rc & Ha & Hrc & ->).
    apply encode_any_tri_state in Ha, Hrc. simpl in Ha, Hrc.
    split; [|split; [|split]]; pick_field; rewrite option_match_id.
    + apply boolptr_tri_state.
    + apply boolptr_tri_state.
    + apply Ha.
    + apply Hrc.
  - intros urls opts req Hb%Extract_sent_body o. eexists. split; [exact Hb|].
    pick_field. rewrite option_match_id. apply boolptr_tri_state.
  - intros url opts req Hb%Crawl_sent_body o. eexists. split; [exact Hb|].
    split; pick_field; rewrite option_match_id; apply boolptr_tri_state.
  - intros url opts req Hb%Map_sent_body o. eexists. split; [exact Hb|].
    pick_field. rewrite option_match_id. apply boolptr_tri_state.
Qed.

Lemma optional_booleans_tri_state_witness :
  let opts := SearchOptions.mk "" "" "" 0 0 [] [] (AnyBool false) AnyNil
                               (BoolPtr false) None 0 0 "" 0 in
  let req := outgoing_request (test_client 200 "{}") (Ctx false) "/search"
               (JObject [("query", JString "q");
                         ("search_depth", JString "basic");
                         ("topic", JString "general");
                         ("max_results", JNumber 5);
                         ("include_answer", JBool false);
                         ("include_images", JBool false);
                         ("timeout", JNumber 60)]) in
  exists body,
    Request.Body req = Some body /\
    json_get "include_images" body = Some (JBool false) /\
    json_get "include_image_descriptions" body = None /\
    json_get "include_answer" body = Some (JBool false) /\
    json_get "include_raw_content" body = None.
Proof.
  intros opts req.
  destruct (proj1 (optional_booleans_tri_state test_platform
                     (test_client 200 "{}") (Ctx false))
                  "q" (Some opts) req)
    as (body & Hb & (_ & Himg & _) & (Hdesc & _) & (_ & Hans & _) & (Hraw & _)).
  { vm_compute. constructor. }
  exists body. split; [exact Hb|].
  split; [apply Himg; reflexivity|].
  split; [apply Hdesc; reflexivity|].
  split; [apply Hans; reflexivity|apply Hraw; reflexivity].
Defined.

(** ** Convenience presets (C8) *)

(** [GetSearchContext] is more than its core call: a failure of [Search]
    comes back wrapped once more, and a success comes back as a text, not
    as the response. *)
Lemma GetSearchContext_adds_to_Search :
  failure (GetSearchContext test_platform keyless_client (Ctx false) "q" 100)
  <> failure (Search test_platform keyless_client (Ctx false) "q"
                (Some (GetSearchContext_opts 100))) /\
  result (Search test_platform (test_client 200 "{}") (Ctx false) "q"
            (Some (GetSearchContext_opts 100))) = inr test_response /\
  result (GetSearchContext test_platform (test_client 200 "{}") (Ctx false)
            "q" 100) =
  inr ("Search query: q" +:+ LF +:+ LF +:+
       "Source 1: Test Result" +:+ LF +:+
       "URL: https://example.com" +:+ LF +:+
       "Content: Test content" +:+ LF +:+ LF).
Proof.
  split; [|split].
  - vm_compute. discriminate.
  - reflexivity.
  - reflexivity.
Qed.

(** C8, amended. [SearchNews] with query [q] and [d] days is [Search]
    with the options topic "news", search depth "advanced", days [d], 15
    results at most and the answer included, and builds the same request
    payload; [SearchSimple], [SearchWithAnswer], [ExtractSimple],
    [ExtractWithImages], [CrawlDocumentation] and [MapSite] are their core
    call with their fixed options, and nothing more. [GetSearchContext]
    sends what [Search] sends with its fixed options and fails exactly
    when that call fails, with the error of [Search] under one more
    "search failed: " prefix; on success it returns the text made of the
    results. *)
Theorem convenience_presets_delegate (pf : Platform) (c : Client.t)
    (ctx : Context) :
  (forall q d,
     SearchNews pf c ctx q d =
       Search pf c ctx q (Some (spec_SearchNews_options d)) /\
     Search_request q (Some (SearchNews_opts d)) =
       Search_request q (Some (spec_SearchNews_options d)) /\
     Search_request q (Some (spec_SearchNews_options d)) =
       SearchRequest.mk q "advanced" "news" "" d 15 [] []
                        (AnyBool true) AnyNil None None 0 0 "" 60) /\
  (forall q, SearchSimple pf c ctx q = Search pf c ctx q None) /\
  (forall q,
     SearchWithAnswer pf c ctx q =
     Search pf c ctx q
       (Some {| SearchOptions.SearchDepth := "";
                SearchOptions.Topic := "";
                SearchOptions.TimeRange := "";
                SearchOptions.Days := 0;
                SearchOptions.MaxResults := 10;
                SearchOptions.IncludeDomains := [];
                SearchOptions.ExcludeDomains := [];
                SearchOptions.IncludeAnswer := AnyBool true;
                SearchOptions.IncludeRawContent := AnyNil;
                SearchOptions.IncludeImages := None;
                SearchOptions.IncludeImageDescriptions := None;
                SearchOptions.MaxTokens := 0;
                SearchOptions.ChunksPerSource := 0;
                SearchOptions.Country := "";
                SearchOptions.Timeout := 0 |})) /\
  (forall url, ExtractSimple pf c ctx url = Extract pf c ctx [url] None) /\
  (forall urls,
     ExtractWithImages pf c ctx urls =
     Extract pf c ctx urls
       (Some {| ExtractOptions.IncludeImages := Some true;
                ExtractOptions.ExtractDepth := "advanced";
                ExtractOptions.Format := "markdown";
                ExtractOptions.Timeout := 0 |})) /\
  (forall url maxPages,
     CrawlDocumentation pf c ctx url maxPages =
     Crawl pf c ctx url
       (Some {| CrawlOptions.MaxDepth := 3;
                CrawlOptions.MaxBreadth := 0;
                CrawlOptions.Limit := maxPages;
                CrawlOptions.Instructions := "";
                CrawlOptions.ExtractDepth := "";
                CrawlOptions.SelectPaths :=
                  ["/docs/*"; "/api/*"; "/guide/*"; "/tutorial/*"];
                CrawlOptions.SelectDomains := [];
                CrawlOptions.ExcludePaths := [];
                CrawlOptions.ExcludeDomains := [];
                CrawlOptions.AllowExternal := Some false;
                CrawlOptions.IncludeImages := None;
                CrawlOptions.Categories := ["Documentation"; "Developer"];
                CrawlOptions.Format := "markdown";
                CrawlOptions.Timeout := 0 |})) /\
  (forall url,
     MapSite pf c ctx url =
     Map pf c ctx url
       (Some {| MapOptions.MaxDepth := 2;
                MapOptions.MaxBreadth := 0;
                MapOptions.Limit := 100;
                MapOptions.Instructions := "";
                MapOptions.SelectPaths := [];
                MapOptions.SelectDomains := [];
                MapOptions.ExcludePaths := [];
                MapOptions.ExcludeDomains := [];
                MapOptions.AllowExternal := None;
                MapOptions.Categories := [];
                MapOptions.Timeout := 0 |})) /\
  (forall q maxTokens,
     let core :=
       Search pf c ctx q
         (Some {| SearchOptions.SearchDepth := "advanced";
                  SearchOptions.Topic := "";
                  SearchOptions.TimeRange := "";
                  SearchOptions.Days := 0;
                  SearchOptions.MaxResults := 5;
                  SearchOptions.IncludeDomains := [];
                  SearchOptions.ExcludeDomains := [];
                  SearchOptions.IncludeAnswer := AnyNil;
                  SearchOptions.IncludeRawContent := AnyString "text";
                  SearchOptions.IncludeImages := None;
                  SearchOptions.IncludeImageDescriptions := None;
                  SearchOptions.MaxTokens := maxTokens;
                  SearchOptions.ChunksPerSource := 0;
                  SearchOptions.Country := "";
                  SearchOptions.Timeout := 0 |}) in
     sent (GetSearchContext pf c ctx q maxTokens) = sent core /\
     failure (GetSearchContext pf c ctx q maxTokens) =
       Errorf_w "search failed: " <$> failure core /\
     forall resp,
       result core = inr resp ->
       result (GetSearchContext pf c ctx q maxTokens) =
         inr (GetSearchContext_text q resp)).
Proof.
  do 7 (split; [done|]).
  intros q maxTokens core. subst core.
  unfold GetSearchContext, GetSearchContext_opts, SearchDepthAdvanced,
    FormatText, failure.
  destruct (Search _ _ _ _ _) as [reqs [err|resp']]; simpl.
  - done.
  - split; [done|]. split; [done|]. by intros resp [= ->].
Qed.

Lemma convenience_presets_delegate_witness :
  result (GetSearchContext test_platform (test_client 200 "{}") (Ctx false)
            "q" 100) =
  inr (GetSearchContext_text "q" test_response).
Proof.
  apply (convenience_presets_delegate test_platform (test_client 200 "{}")
           (Ctx false)).
  reflexivity.
Defined.

(** ** Client construction (C9) *)

Lemma append_cons (a : ascii) (s t : string) :
  String a s +:+ t = String a (s +:+ t).
Proof. reflexivity. Qed.

Lemma length_append (s t : string) :
  String.length (s +:+ t) = (String.length s + String.length t)%nat.
Proof.
  induction s as [|a s IH]; [done|].
  rewrite append_cons. simpl. by rewrite IH.
Qed.

Lemma substring_suffix (s t : string) :
  String.substring (String.length s) (String.length t) (s +:+ t) = t.
Proof.
  induction s as [|a s IH]; [|by rewrite append_cons].
  change ("" +:+ t) with t. simpl.
  induction t as [|b t IHt]; [done|]. simpl. by rewrite IHt.
Qed.

Lemma substring_prefix (s t : string) :
  String.substring 0 (String.length s) (s +:+ t) = s.
Proof.
  induction s as [|a s IH].
  - by destruct t.
  - rewrite append_cons. simpl. by rewrite IH.
Qed.

Lemma HasSuffix_append (s suffix : string) :
  strings_HasSuffix (s +:+ suffix) suffix = true.
Proof.
  unfold strings_HasSuffix. rewrite length_append.
  replace (String.length s + String.length suffix - String.length suffix)%nat
    with (String.length s) by lia.
  rewrite substring_suffix, String.eqb_refl, andb_true_r.
  apply Nat.leb_le. lia.
Qed.

Lemma TrimSuffix_append (s suffix : string) :
  strings_TrimSuffix (s +:+ suffix) suffix = s.
Proof.
  unfold strings_TrimSuffix. rewrite HasSuffix_append, length_append.
  replace (String.length s + String.length suffix - String.length suffix)%nat
    with (String.length s) by lia.
  apply substring_prefix.
Qed.

Lemma HasSuffix_slash_inv (s : string) :
  strings_HasSuffix s "/" = true -> exists p, s = p +:+ "/".
Proof.
  induction s as [|a s IH]; [done|].
  destruct s as [|b s].
  - unfold strings_HasSuffix. simpl.
    destruct (Ascii.eqb_spec a "/") as [->|]; [|done]. by exists "".
  - intros Hs. destruct IH as [p ->].
    { revert Hs. unfold strings_HasSuffix. simpl.
      by rewrite !Nat.sub_0_r. }
    exists (String a p). by rewrite append_cons.
Qed.

Lemma TrimSuffix_no_slash (s : string) :
  (forall p, s <> p +:+ "/") -> strings_TrimSuffix s "/" = s.
Proof.
  intros Hn. unfold strings_TrimSuffix.
  destruct (strings_HasSuffix s "/") eqn:Hs; [|done].
  apply HasSuffix_slash_inv in Hs as [p ->]. by destruct (Hn p).
Qed.

(** With an injected HTTP client, a zero timeout option does not give a
    60-second timeout: the injected client is used with its own. *)
Lemma injected_client_keeps_its_timeout :
  let opts := Options.mk "" (Some (test_server 200 "{}")) 0 in
  Options.Timeout opts = 0 /\
  http_Client.Timeout
    (Client.httpClient (New test_platform "tvly-test-key" (Some opts)))
  <> 60 * time_Second.
Proof. split; [reflexivity|]. vm_compute. discriminate. Qed.

(** C9, amended. For every construction of a client: the key is the
    given one, or the value of [TAVILY_API_KEY] when none is given; an
    empty base URL option gives "https://api.tavily.com"; a base URL
    ending in a slash loses that one slash, any other is kept; when no
    HTTP client is injected, a zero timeout option gives an HTTP client
    with a timeout of 60 seconds and a non-zero one gives that timeout;
    an injected HTTP client is used as it is, whatever the timeout
    option; and the headers are exactly [Content-Type] "application/json",
    [Authorization] "Bearer " followed by the key, and [X-Client-Source]
    "go-tavily". *)
Theorem New_configuration (pf : Platform) (apiKey : string)
    (opts : option Options.t) :
  let o := default Options.zero opts in
  let c := New pf apiKey opts in
  (apiKey <> "" -> Client.apiKey c = apiKey) /\
  (apiKey = "" -> Client.apiKey c = os_Getenv pf "TAVILY_API_KEY") /\
  (Options.BaseURL o = "" -> Client.baseURL c = "https://api.tavily.com") /\
  (forall s, Options.BaseURL o = s +:+ "/" -> Client.baseURL c = s) /\
  (Options.BaseURL o <> "" -> (forall s, Options.BaseURL o <> s +:+ "/") ->
   Client.baseURL c = Options.BaseURL o) /\
  (Options.HTTPClient o = None -> Options.Timeout o = 0 ->
   http_Client.Timeout (Client.httpClient c) = 60 * 1000000000) /\
  (Options.HTTPClient o = None -> Options.Timeout o <> 0 ->
   http_Client.Timeout (Client.httpClient c) = Options.Timeout o) /\
  (forall hc, Options.HTTPClient o = Some hc -> Client.httpClient c = hc) /\
  Client.headers c !! "Content-Type" = Some "application/json" /\
  Client.headers c !! "Authorization" = Some ("Bearer " +:+ Client.apiKey c) /\
  Client.headers c !! "X-Client-Source" = Some "go-tavily" /\
  (forall key value,
     Client.headers c !! key = Some value ->
     key = "Content-Type" \/ key = "Authorization" \/ key = "X-Client-Source").
Proof.
  intros o c. subst c. unfold New. fold o. simpl.
  split; [|split; [|split; [|split; [|split; [|split; [|split; [|split]]]]]]].
  - intros Hk%String.eqb_neq. by rewrite Hk.
  - by intros ->.
  - by intros ->.
  - intros s Hs. rewrite Hs.
    destruct (String.eqb_spec (s +:+ "/") "") as [He|He].
    + by destruct s.
    + apply TrimSuffix_append.
  - intros Hb%String.eqb_neq Hn. rewrite Hb. by apply TrimSuffix_no_slash.
  - by intros -> ->.
  - intros -> Ht%Z.eqb_neq. by rewrite Ht.
  - by intros hc ->.
  - split; [|split; [|split]].
    + by rewrite lookup_insert_eq.
    + rewrite lookup_insert_ne by done. by rewrite lookup_insert_eq.
    + rewrite !lookup_insert_ne by done. by rewrite lookup_insert_eq.
    + intros key value. rewrite !lookup_insert_Some, lookup_empty.
      intros [[<- _]|[_ [[<- _]|[_ [[<- _]|[_ ?]]]]]]; auto. done.
Qed.

Lemma New_configuration_witness :
  Client.baseURL (test_client 200 "{}") = "http://127.0.0.1:8080" /\
  Client.baseURL (New test_platform "tvly-test-key" None) =
    "https://api.tavily.com" /\
  http_Client.Timeout
    (Client.httpClient (New test_platform "tvly-test-key" None)) =
    60 * 1000000000 /\
  Client.httpClient (test_client 200 "{}") = test_server 200 "{}" /\
  Client.apiKey (test_client 200 "{}") = "tvly-test-key".
Proof.
  destruct (New_configuration test_platform "tvly-test-key"
              (Some (Options.mk "http://127.0.0.1:8080/"
                                (Some (test_server 200 "{}")) 0)))
    as (Hkey & _ & _ & Hslash & _ & _ & _ & Hinjected & _).
  destruct (New_configuration test_platform "tvly-test-key" None)
    as (_ & _ & Hdefault & _ & _ & Htimeout & _).
  split; [|split; [|split; [|split]]].
  - apply Hslash. reflexivity.
  - apply Hdefault. reflexivity.
  - apply Htimeout; reflexivity.
  - apply Hinjected. reflexivity.
  - apply Hkey. discriminate.
Defined.

(** ** Negative integers (C10) *)

Lemma defaultInt_negative (value dflt : Z) :
  value < 0 -> defaultInt value dflt = value.
Proof.
  intros Hv. unfold defaultInt.
  destruct (Z.eqb_spec value 0); [lia|done].
Qed.

Lemma negative_nonzero (value : Z) : value < 0 -> (value =? 0) = false.
Proof. intros Hv. apply Z.eqb_neq. lia. Qed.

(** Closes a goal on the member of a negative integer option. *)
Ltac negative_member :=
  let Hv := fresh "Hv" in
  intros Hv; pick_field; simpl;
  rewrite (defaultInt_negative _ _ Hv), (negative_nonzero _ Hv);
  reflexivity.

(** C10. [defaultInt] substitutes the default for zero only: a negative
    value is returned as it is. So a negative [MaxResults] or [Timeout]
    of [Search], [Timeout] of [Extract], and [MaxDepth], [MaxBreadth],
    [Limit] or [Timeout] of [Crawl] and [Map] goes into the request
    payload unchanged; and no check turns the call down: with a target,
    a key, a live context and a URL that parses, the request is sent and
    its body carries the negative value. *)
Theorem negative_integers_pass_through (pf : Platform) (c : Client.t)
    (ctx : Context) :
  (forall value dflt, value < 0 -> defaultInt value dflt = value) /\
  (forall query o,
     let r := Search_request query (Some o) in
     (SearchOptions.MaxResults o < 0 ->
      SearchRequest.MaxResults r = SearchOptions.MaxResults o) /\
     (SearchOptions.Timeout o < 0 ->
      SearchRequest.Timeout r = SearchOptions.Timeout o)) /\
  (forall urls o,
     ExtractOptions.Timeout o < 0 ->
     ExtractRequest.Timeout (Extract_request urls (Some o)) =
     ExtractOptions.Timeout o) /\
  (forall url o,
     let r := Crawl_request url (Some o) in
     (CrawlOptions.MaxDepth o < 0 ->
      CrawlRequest.MaxDepth r = CrawlOptions.MaxDepth o) /\
     (CrawlOptions.MaxBreadth o < 0 ->
      CrawlRequest.MaxBreadth r = CrawlOptions.MaxBreadth o) /\
     (CrawlOptions.Limit o < 0 ->
      CrawlRequest.Limit r = CrawlOptions.Limit o) /\
     (CrawlOptions.Timeout o < 0 ->
      CrawlRequest.Timeout r = CrawlOptions.Timeout o)) /\
  (forall url o,
     let r := Map_request url (Some o) in
     (MapOptions.MaxDepth o < 0 ->
      MapRequest.MaxDepth r = MapOptions.MaxDepth o) /\
     (MapOptions.MaxBreadth o < 0 ->
      MapRequest.MaxBreadth r = MapOptions.MaxBreadth o) /\
     (MapOptions.Limit o < 0 -> MapRequest.Limit r = MapOptions.Limit o) /\
     (MapOptions.Timeout o < 0 ->
      MapRequest.Timeout r = MapOptions.Timeout o)) /\
  (Client.apiKey c <> "" -> ctx <> NilContext ->
   (forall query o body,
      url_Parse_error pf (Client.baseURL c +:+ "/search") = None ->
      marshal (Search_request query (Some o)) = inr body ->
      sent (Search pf c ctx query (Some o)) =
        [outgoing_request c ctx "/search" body] /\
      (SearchOptions.MaxResults o < 0 ->
       json_get "max_results" body =
         Some (JNumber (SearchOptions.MaxResults o))) /\
      (SearchOptions.Timeout o < 0 ->
       json_get "timeout" body = Some (JNumber (SearchOptions.Timeout o)))) /\
   (forall urls o,
      urls <> [] ->
      url_Parse_error pf (Client.baseURL c +:+ "/extract") = None ->
      exists body,
        sent (Extract pf c ctx urls (Some o)) =
          [outgoing_request c ctx "/extract" body] /\
        (ExtractOptions.Timeout o < 0 ->
         json_get "timeout" body = Some (JNumber (ExtractOptions.Timeout o)))) /\
   (forall url o,
      url <> "" ->
      url_Parse_error pf (Client.baseURL c +:+ "/crawl") = None ->
      exists body,
        sent (Crawl pf c ctx url (Some o)) =
          [outgoing_request c ctx "/crawl" body] /\
        (CrawlOptions.MaxDepth o < 0 ->
         json_get "max_depth" body = Some (JNumber (CrawlOptions.MaxDepth o))) /\
        (CrawlOptions.MaxBreadth o < 0 ->
         json_get "max_breadth" body =
           Some (JNumber (CrawlOptions.MaxBreadth o))) /\
        (CrawlOptions.Limit o < 0 ->
         json_get "limit" body = Some (JNumber (CrawlOptions.Limit o))) /\
        (CrawlOptions.Timeout o < 0 ->
         json_get "timeout" body = Some (JNumber (CrawlOptions.Timeout o)))) /\
   (forall url o,
      url <> "" ->
      url_Parse_error pf (Client.baseURL c +:+ "/map") = None ->
      exists body,
        sent (Map pf c ctx url (Some o)) =
          [outgoing_request c ctx "/map" body] /\
        (MapOptions.MaxDepth o < 0 ->
         json_get "max_depth" body = Some (JNumber (MapOptions.MaxDepth o))) /\
        (MapOptions.MaxBreadth o < 0 ->
         json_get "max_breadth" body =
           Some (JNumber (MapOptions.MaxBreadth o))) /\
        (MapOptions.Limit o < 0 ->
         json_get "limit" body = Some (JNumber (MapOptions.Limit o))) /\
        (MapOptions.Timeout o < 0 ->
         json_get "timeout" body = Some (JNumber (MapOptions.Timeout o))))).
Proof.
  split; [apply defaultInt_negative|].
  split; [by intros; split; apply defaultInt_negative|].
  split; [by intros; apply defaultInt_negative|].
  split; [by intros; repeat split; apply defaultInt_negative|].
  split; [by intros; repeat split; apply defaultInt_negative|].
  intros Hk Hc. split; [|split; [|split]].
  - intros query o body Hu Hm. split.
    + by rewrite (Search_exchange pf c ctx query (Some o) body).
    + apply SearchRequest_Marshal_inv in Hm as (a & rc & _ & _ & ->).
      split; negative_member.
  - intros urls o Hn Hu. eexists.
    split; [by apply Extract_exchange_sent|]. negative_member.
  - intros url o Hn Hu. eexists.
    split; [by apply Crawl_exchange_sent|].
    repeat split; negative_member.
  - intros url o Hn Hu. eexists.
    split; [by apply Map_exchange_sent|].
    repeat split; negative_member.
Qed.

Lemma negative_integers_pass_through_witness :
  let search_opts := SearchOptions.mk "" "" "" 0 (-1) [] [] AnyNil AnyNil
                                      None None 0 0 "" (-5) in
  let crawl_opts := CrawlOptions.mk (-3) 0 0 "" "" [] [] [] [] None None []
                                    "" 0 in
  let c := test_client 200 "{}" in
  defaultInt (-1) 5 = -1 /\
  (let body := JObject [("query", JString "q");
                        ("search_depth", JString "basic");
                        ("topic", JString "general");
                        ("max_results", JNumber (-1));
                        ("timeout", JNumber (-5))] in
   sent (Search test_platform c (Ctx false) "q" (Some search_opts)) =
     [outgoing_request c (Ctx false) "/search" body] /\
   json_get "max_results" body = Some (JNumber (-1)) /\
   json_get "timeout" body = Some (JNumber (-5))) /\
  exists body,
    sent (Crawl test_platform c (Ctx false) "https://example.com"
                (Some crawl_opts)) =
      [outgoing_request c (Ctx false) "/crawl" body] /\
    json_get "max_depth" body = Some (JNumber (-3)).
Proof.
  intros search_opts crawl_opts c.
  destruct (negative_integers_pass_through test_platform c (Ctx false))
    as (Hdefault & _ & _ & _ & _ & Hsent).
  destruct Hsent as (Hsearch & _ & Hcrawl & _).
  { vm_compute. discriminate. }
  { discriminate. }
  split; [apply Hdefault; lia|]. split.
  - destruct (Hsearch "q" search_opts
                (JObject [("query", JString "q");
                          ("search_depth", JString "basic");
                          ("topic", JString "general");
                          ("max_results", JNumber (-1));
                          ("timeout", JNumber (-5))]))
      as (Hs & Hmax & Htimeout); [reflexivity..|].
    split; [exact Hs|]. split; [apply Hmax|apply Htimeout]; simpl; lia.
  - destruct (Hcrawl "https://example.com" crawl_opts)
      as (body & Hs & Hdepth & _); [discriminate|reflexivity|].
    exists body. split; [exact Hs|]. apply Hdepth. simpl. lia.
Defined.

(** * Further properties *)

(** ** Default substitution in [Extract], [Crawl] and [Map] *)

(** X1. In every [Extract] call the extract depth, the format and the
    timeout of the request payload are "basic", "text" and 60 where the
    options leave them at the zero value, and the caller's value
    otherwise; the URL list is copied; and the body of a request that is
    sent carries the URL list, in order, and these three values, every
    string as the JSON encoder writes it. *)
Theorem Extract_default_substitution (pf : Platform) (c : Client.t)
    (ctx : Context) (urls : list string) (opts : option ExtractOptions.t) :
  let o := default ExtractOptions.zero opts in
  let r := Extract_request urls opts in
  (default_rule "" (ExtractOptions.ExtractDepth o) "basic"
                (ExtractRequest.ExtractDepth r) /\
   default_rule "" (ExtractOptions.Format o) "text" (ExtractRequest.Format r) /\
   default_rule 0 (ExtractOptions.Timeout o) 60 (ExtractRequest.Timeout r)) /\
  ExtractRequest.URLs r = urls /\
  (forall req, req ∈ sent (Extract pf c ctx urls opts) ->
   exists body,
     Request.Body req = Some body /\
     json_get "urls" body = Some (JArray (encode_string <$> urls)) /\
     json_get "extract_depth" body =
       Some (encode_string (ExtractRequest.ExtractDepth r)) /\
     json_get "format" body = Some (encode_string (ExtractRequest.Format r)) /\
     json_get "timeout" body = Some (JNumber (ExtractRequest.Timeout r))).
Proof.
  intros o r. split; [|split; [done|]].
  - repeat split; first [apply defaultString_rule | apply defaultInt_rule].
  - intros req Hb%Extract_sent_body. eexists. split; [exact Hb|].
    repeat split; pick_field; simpl;
      rewrite ?defaultString_nonempty, ?defaultInt_nonzero by done; done.
Qed.

Lemma Extract_default_substitution_witness :
  ExtractRequest.Format
    (Extract_request ["https://example.com"] None) = "text" /\
  ExtractRequest.ExtractDepth
    (Extract_request ["https://example.com"] (Some ExtractWithImages_opts)) =
    "advanced" /\
  exists body,
    Request.Body
      (outgoing_request (test_client 200 "{}") (Ctx false) "/extract"
         (JObject [("urls", JArray [JString "https://example.com"]);
                   ("extract_depth", JString "basic");
                   ("format", JString "text");
                   ("timeout", JNumber 60)])) = Some body /\
    json_get "urls" body = Some (JArray [JString "https://example.com"]) /\
    json_get "extract_depth" body = Some (JString "basic") /\
    json_get "format" body = Some (JString "text") /\
    json_get "timeout" body = Some (JNumber 60).
Proof.
  destruct (Extract_default_substitution test_platform (test_client 200 "{}")
              (Ctx false) ["https://example.com"] None)
    as ((_ & Hformat & _) & _ & Hsent).
  destruct (Extract_default_substitution test_platform (test_client 200 "{}")
              (Ctx false) ["https://example.com"]
              (Some ExtractWithImages_opts))
    as ((Hdepth & _) & _).
  split; [apply Hformat; reflexivity|].
  split; [apply Hdepth; discriminate|].
  apply Hsent. vm_compute. constructor.
Defined.

(** X2. In every [Crawl] call the maximum depth, the maximum breadth, the
    limit, the extract depth, the format and the timeout of the request
    payload are 1, 20, 50, "basic", "text" and 60 where the options leave
    them at the zero value, and the caller's value otherwise; the body of
    a request that is sent carries the URL and these six values, every
    string as the JSON encoder writes it. *)
Theorem Crawl_default_substitution (pf : Platform) (c : Client.t)
    (ctx : Context) (url : string) (opts : option CrawlOptions.t) :
  let o := default CrawlOptions.zero opts in
  let r := Crawl_request url opts in
  (default_rule 0 (CrawlOptions.MaxDepth o) 1 (CrawlRequest.MaxDepth r) /\
   default_rule 0 (CrawlOptions.MaxBreadth o) 20 (CrawlRequest.MaxBreadth r) /\
   default_rule 0 (CrawlOptions.Limit o) 50 (CrawlRequest.Limit r) /\
   default_rule "" (CrawlOptions.ExtractDepth o) "basic"
                (CrawlRequest.ExtractDepth r) /\
   default_rule "" (CrawlOptions.Format o) "text" (CrawlRequest.Format r) /\
   default_rule 0 (CrawlOptions.Timeout o) 60 (CrawlRequest.Timeout r)) /\
  (forall req, req ∈ sent (Crawl pf c ctx url opts) ->
   exists body,
     Request.Body req = Some body /\
     json_get "url" body = Some (encode_string url) /\
     json_get "max_depth" body = Some (JNumber (CrawlRequest.MaxDepth r)) /\
     json_get "max_breadth" body =
       Some (JNumber (CrawlRequest.MaxBreadth r)) /\
     json_get "limit" body = Some (JNumber (CrawlRequest.Limit r)) /\
     json_get "extract_depth" body =
       Some (encode_string (CrawlRequest.ExtractDepth r)) /\
     json_get "format" body = Some (encode_string (CrawlRequest.Format r)) /\
     json_get "timeout" body = Some (JNumber (CrawlRequest.Timeout r))).
Proof.
  intros o r. split.
  - repeat split; first [apply defaultString_rule | apply defaultInt_rule].
  - intros req Hb%Crawl_sent_body. eexists. split; [exact Hb|].
    repeat split; pick_field; simpl;
      rewrite ?defaultString_nonempty, ?defaultInt_nonzero by done; done.
Qed.

Lemma Crawl_default_substitution_witness :
  CrawlRequest.Limit (Crawl_request "https://example.com" None) = 50 /\
  CrawlRequest.MaxDepth
    (Crawl_request "https://example.com" (Some (CrawlDocumentation_opts 25))) =
    3 /\
  exists body,
    Request.Body
      (outgoing_request (test_client 200 "{}") (Ctx false) "/crawl"
         (JObject [("url", JString "https://example.com");
                   ("max_depth", JNumber 1);
                   ("max_breadth", JNumber 20);
                   ("limit", JNumber 50);
                   ("extract_depth", JString "basic");
                   ("format", JString "text");
                   ("timeout", JNumber 60)])) = Some body /\
    json_get "url" body = Some (JString "https://example.com") /\
    json_get "max_depth" body = Some (JNumber 1) /\
    json_get "max_breadth" body = Some (JNumber 20) /\
    json_get "limit" body = Some (JNumber 50) /\
    json_get "extract_depth" body = Some (JString "basic") /\
    json_get "format" body = Some (JString "text") /\
    json_get "timeout" body = Some (JNumber 60).
Proof.
  destruct (Crawl_default_substitution test_platform (test_client 200 "{}")
              (Ctx false) "https://example.com" None)
    as ((_ & _ & Hlimit & _) & Hsent).
  destruct (Crawl_default_substitution test_platform (test_client 200 "{}")
              (Ctx false) "https://example.com"
              (Some (CrawlDocumentation_opts 25)))
    as ((Hdepth & _) & _).
  split; [apply Hlimit; reflexivity|].
  split; [apply Hdepth; discriminate|].
  apply Hsent. vm_compute. constructor.
Defined.

(** X3. In every [Map] call the maximum depth, the maximum breadth, the
    limit and the timeout of the request payload are 1, 20, 50 and 60
    where the options leave them at zero, and the caller's value
    otherwise; the body of a request that is sent carries the URL, as
    the JSON encoder writes it, and these four values. *)
Theorem Map_default_substitution (pf : Platform) (c : Client.t)
    (ctx : Context) (url : string) (opts : option MapOptions.t) :
  let o := default MapOptions.zero opts in
  let r := Map_request url opts in
  (default_rule 0 (MapOptions.MaxDepth o) 1 (MapRequest.MaxDepth r) /\
   default_rule 0 (MapOptions.MaxBreadth o) 20 (MapRequest.MaxBreadth r) /\
   default_rule 0 (MapOptions.Limit o) 50 (MapRequest.Limit r) /\
   default_rule 0 (MapOptions.Timeout o) 60 (MapRequest.Timeout r)) /\
  (forall req, req ∈ sent (Map pf c ctx url opts) ->
   exists body,
     Request.Body req = Some body /\
     json_get "url" body = Some (encode_string url) /\
     json_get "max_depth" body = Some (JNumber (MapRequest.MaxDepth r)) /\
     json_get "max_breadth" body = Some (JNumber (MapRequest.MaxBreadth r)) /\
     json_get "limit" body = Some (JNumber (MapRequest.Limit r)) /\
     json_get "timeout" body = Some (JNumber (MapRequest.Timeout r))).
Proof.
  intros o r. split.
  - repeat split; apply defaultInt_rule.
  - intros req Hb%Map_sent_body. eexists. split; [exact Hb|].
    repeat split; pick_field; simpl;
      rewrite ?defaultInt_nonzero by done; done.
Qed.

Lemma Map_default_substitution_witness :
  MapRequest.MaxBreadth (Map_request "https://example.com" None) = 20 /\
  MapRequest.Limit
    (Map_request "https://example.com" (Some MapSite_opts)) = 100 /\
  exists body,
    Request.Body
      (outgoing_request (test_client 200 "{}") (Ctx false) "/map"
         (JObject [("url", JString "https://example.com");
                   ("max_depth", JNumber 1);
                   ("max_breadth", JNumber 20);
                   ("limit", JNumber 50);
                   ("timeout", JNumber 60)])) = Some body /\
    json_get "url" body = Some (JString "https://example.com") /\
    json_get "max_depth" body = Some (JNumber 1) /\
    json_get "max_breadth" body = Some (JNumber 20) /\
    json_get "limit" body = Some (JNumber 50) /\
    json_get "timeout" body = Some (JNumber 60).
Proof.
  destruct (Map_default_substitution test_platform (test_client 200 "{}")
              (Ctx false) "https://example.com" None)
    as ((_ & Hbreadth & _) & Hsent).
  destruct (Map_default_substitution test_platform (test_client 200 "{}")
              (Ctx false) "https://example.com" (Some MapSite_opts))
    as ((_ & _ & Hlimit & _) & _).
  split; [apply Hbreadth; reflexivity|].
  split; [apply Hlimit; discriminate|].
  apply Hsent. vm_compute. constructor.
Defined.

(** ** One exchange per call *)

Lemma Extract_exchange (pf : Platform) (c : Client.t) (ctx : Context)
    (urls : list string) (opts : option ExtractOptions.t) :
  urls <> [] ->
  Client.apiKey c <> "" ->
  ctx <> NilContext ->
  url_Parse_error pf (Client.baseURL c +:+ "/extract") = None ->
  let body := encode_struct (ExtractRequest.fields (Extract_request urls opts)) in
  Extract pf c ctx urls opts =
  ([outgoing_request c ctx "/extract" body],
   match handle_response pf (json_Unmarshal_ExtractResponse pf)
           (http_Client.Do (Client.httpClient c)
                           (outgoing_request c ctx "/extract" body)) with
   | inl err => inl (Errorf_w "extract failed: " err)
   | inr resp => inr (default ExtractResponse.zero resp)
   end).
Proof.
  intros Hn Hk Hc Hu body. rewrite Extract_unfold by done. simpl.
  by rewrite (doRequest_exchange pf c ctx "/extract" (Extract_request urls opts)
                (json_Unmarshal_ExtractResponse pf) body Hk eq_refl Hc Hu).
Qed.

Lemma Crawl_exchange (pf : Platform) (c : Client.t) (ctx : Context)
    (url : string) (opts : option CrawlOptions.t) :
  url <> "" ->
  Client.apiKey c <> "" ->
  ctx <> NilContext ->
  url_Parse_error pf (Client.baseURL c +:+ "/crawl") = None ->
  let body := encode_struct (CrawlRequest.fields (Crawl_request url opts)) in
  Crawl pf c ctx url opts =
  ([outgoing_request c ctx "/crawl" body],
   match handle_response pf (json_Unmarshal_CrawlResponse pf)
           (http_Client.Do (Client.httpClient c)
                           (outgoing_request c ctx "/crawl" body)) with
   | inl err => inl (Errorf_w "crawl failed: " err)
   | inr resp => inr (default CrawlResponse.zero resp)
   end).
Proof.
  intros Hn Hk Hc Hu body. rewrite Crawl_unfold by done. simpl.
  by rewrite (doRequest_exchange pf c ctx "/crawl" (Crawl_request url opts)
                (json_Unmarshal_CrawlResponse pf) body Hk eq_refl Hc Hu).
Qed.

Lemma Map_exchange (pf : Platform) (c : Client.t) (ctx : Context)
    (url : string) (opts : option MapOptions.t) :
  url <> "" ->
  Client.apiKey c <> "" ->
  ctx <> NilContext ->
  url_Parse_error pf (Client.baseURL c +:+ "/map") = None ->
  let body := encode_struct (MapRequest.fields (Map_request url opts)) in
  Map pf c ctx url opts =
  ([outgoing_request c ctx "/map" body],
   match handle_response pf (json_Unmarshal_MapResponse pf)
           (http_Client.Do (Client.httpClient c)
                           (outgoing_request c ctx "/map" body)) with
   | inl err => inl (Errorf_w "map failed: " err)
   | inr resp => inr (default MapResponse.zero resp)
   end).
Proof.
  intros Hn Hk Hc Hu body. rewrite Map_unfold by done. simpl.
  by rewrite (doRequest_exchange pf c ctx "/map" (Map_request url opts)
                (json_Unmarshal_MapResponse pf) body Hk eq_refl Hc Hu).
Qed.

Lemma doRequest_at_most_one {Req Resp : Type} `{Marshal Req}
    (pf : Platform) (c : Client.t) (ctx : Context) (endpoint : string)
    (r : Req) (unmarshal : string -> error + Resp) :
  (length (sent (doRequest pf c ctx endpoint (Some r) (Some unmarshal))) <= 1)%nat.
Proof.
  destruct (doRequest_sent_cases pf c ctx endpoint r unmarshal)
    as [->|(body & _ & ->)]; simpl; lia.
Qed.

(** X4. No operation retries: a call of [Search], [Extract], [Crawl],
    [Map] or [GetSearchContext] hands at most one request to the HTTP
    client, whatever the outcome. *)
Theorem at_most_one_request (pf : Platform) (c : Client.t) (ctx : Context) :
  (forall query opts,
     (length (sent (Search pf c ctx query opts)) <= 1)%nat) /\
  (forall urls opts,
     (length (sent (Extract pf c ctx urls opts)) <= 1)%nat) /\
  (forall url opts,
     (length (sent (Crawl pf c ctx url opts)) <= 1)%nat) /\
  (forall url opts,
     (length (sent (Map pf c ctx url opts)) <= 1)%nat) /\
  (forall query maxTokens,
     (length (sent (GetSearchContext pf c ctx query maxTokens)) <= 1)%nat).
Proof.
  assert (forall query opts,
            (length (sent (Search pf c ctx query opts)) <= 1)%nat) as HS.
  { intros. rewrite Search_unfold. apply doRequest_at_most_one. }
  split; [exact HS|]. split; [|split; [|split]].
  - intros [|u urls] opts; [simpl; lia|].
    rewrite Extract_unfold by done. apply doRequest_at_most_one.
  - intros url opts. destruct (String.eqb_spec url "") as [->|Hu]; [simpl; lia|].
    rewrite Crawl_unfold by done. apply doRequest_at_most_one.
  - intros url opts. destruct (String.eqb_spec url "") as [->|Hu]; [simpl; lia|].
    rewrite Map_unfold by done. apply doRequest_at_most_one.
  - intros query maxTokens. unfold GetSearchContext.
    pose proof (HS query (Some (GetSearchContext_opts maxTokens))) as Hle.
    by destruct (Search _ _ _ _ _) as [reqs [err|resp]].
Qed.

(** X5. Every request an operation sends is a POST to the base URL of
    the client followed by the endpoint of the operation ([/search],
    [/extract], [/crawl], [/map]); it carries the context of the call and
    exactly the headers of the client. *)
Theorem requests_go_to_the_endpoint (pf : Platform) (c : Client.t)
    (ctx : Context) :
  let to endpoint (req : Request.t) :=
    Request.Method req = "POST" /\
    Request.URL req = Client.baseURL c +:+ endpoint /\
    Request.Header req = Client.headers c /\
    Request.ctx req = ctx in
  (forall query opts req,
     req ∈ sent (Search pf c ctx query opts) -> to "/search" req) /\
  (forall urls opts req,
     req ∈ sent (Extract pf c ctx urls opts) -> to "/extract" req) /\
  (forall url opts req,
     req ∈ sent (Crawl pf c ctx url opts) -> to "/crawl" req) /\
  (forall url opts req,
     req ∈ sent (Map pf c ctx url opts) -> to "/map" req).
Proof.
  intros to. subst to. simpl. split; [|split; [|split]].
  - intros query opts req. rewrite Search_unfold. simpl.
    by intros (body & _ & _ & _ & _ & ->)%doRequest_sent_inv.
  - intros [|u urls] opts req; [by intros ?%elem_of_nil|].
    rewrite Extract_unfold by done. simpl.
    by intros (body & _ & _ & _ & _ & ->)%doRequest_sent_inv.
  - intros url opts req.
    destruct (String.eqb_spec url "") as [->|Hu]; [by intros ?%elem_of_nil|].
    rewrite Crawl_unfold by done. simpl.
    by intros (body & _ & _ & _ & _ & ->)%doRequest_sent_inv.
  - intros url opts req.
    destruct (String.eqb_spec url "") as [->|Hu]; [by intros ?%elem_of_nil|].
    rewrite Map_unfold by done. simpl.
    by intros (body & _ & _ & _ & _ & ->)%doRequest_sent_inv.
Qed.

Lemma requests_go_to_the_endpoint_witness :
  let c := test_client 200 "{}" in
  let req := outgoing_request c (Ctx false) "/map"
               (JObject [("url", JString "https://example.com");
                         ("max_depth", JNumber 2);
                         ("max_breadth", JNumber 20);
                         ("limit", JNumber 100);
                         ("timeout", JNumber 60)]) in
  Request.Method req = "POST" /\
  Request.URL req = "http://127.0.0.1:8080" +:+ "/map" /\
  Request.Header req = Client.headers c /\
  Request.ctx req = Ctx false.
Proof.
  intros c req.
  apply (requests_go_to_the_endpoint test_platform c (Ctx false))
    with (url := "https://example.com") (opts := Some MapSite_opts).
  vm_compute. constructor.
Defined.

(** ** Success *)

(** X6. With a key, a live context and a URL that parses, when the HTTP
    client answers the request with status 200 and a body that is read
    and decodes, the operation returns the decoded response and no
    error, having sent that one request. *)
Theorem success_returns_the_decoded_response (pf : Platform) (c : Client.t)
    (ctx : Context) :
  Client.apiKey c <> "" ->
  ctx <> NilContext ->
  (forall query opts body resp respData v,
     url_Parse_error pf (Client.baseURL c +:+ "/search") = None ->
     marshal (Search_request query opts) = inr body ->
     http_Client.Do (Client.httpClient c)
                    (outgoing_request c ctx "/search" body) = inr resp ->
     Response.StatusCode resp = 200 ->
     Response.Body resp = inr respData ->
     json_Unmarshal_SearchResponse pf respData = inr v ->
     Search pf c ctx query opts =
       ([outgoing_request c ctx "/search" body], inr v)) /\
  (forall urls opts resp respData v,
     urls <> [] ->
     url_Parse_error pf (Client.baseURL c +:+ "/extract") = None ->
     let body :=
       encode_struct (ExtractRequest.fields (Extract_request urls opts)) in
     http_Client.Do (Client.httpClient c)
                    (outgoing_request c ctx "/extract" body) = inr resp ->
     Response.StatusCode resp = 200 ->
     Response.Body resp = inr respData ->
     json_Unmarshal_ExtractResponse pf respData = inr v ->
     Extract pf c ctx urls opts =
       ([outgoing_request c ctx "/extract" body], inr v)) /\
  (forall url opts resp respData v,
     url <> "" ->
     url_Parse_error pf (Client.baseURL c +:+ "/crawl") = None ->
     let body := encode_struct (CrawlRequest.fields (Crawl_request url opts)) in
     http_Client.Do (Client.httpClient c)
                    (outgoing_request c ctx "/crawl" body) = inr resp ->
     Response.StatusCode resp = 200 ->
     Response.Body resp = inr respData ->
     json_Unmarshal_CrawlResponse pf respData = inr v ->
     Crawl pf c ctx url opts =
       ([outgoing_request c ctx "/crawl" body], inr v)) /\
  (forall url opts resp respData v,
     url <> "" ->
     url_Parse_error pf (Client.baseURL c +:+ "/map") = None ->
     let body := encode_struct (MapRequest.fields (Map_request url opts)) in
     http_Client.Do (Client.httpClient c)
                    (outgoing_request c ctx "/map" body) = inr resp ->
     Response.StatusCode resp = 200 ->
     Response.Body resp = inr respData ->
     json_Unmarshal_MapResponse pf respData = inr v ->
     Map pf c ctx url opts = ([outgoing_request c ctx "/map" body], inr v)).
Proof.
  intros Hk Hc. split; [|split; [|split]].
  - intros query opts body resp respData v Hu Hm Hdo Hst Hb Hv.
    rewrite (Search_exchange pf c ctx query opts body) by done.
    unfold handle_response. by rewrite Hdo, Hb, Hst, Hv.
  - intros urls opts resp respData v Hn Hu body Hdo Hst Hb Hv.
    rewrite Extract_exchange by done. fold body.
    unfold handle_response. by rewrite Hdo, Hb, Hst, Hv.
  - intros url opts resp respData v Hn Hu body Hdo Hst Hb Hv.
    rewrite Crawl_exchange by done. fold body.
    unfold handle_response. by rewrite Hdo, Hb, Hst, Hv.
  - intros url opts resp respData v Hn Hu body Hdo Hst Hb Hv.
    rewrite Map_exchange by done. fold body.
    unfold handle_response. by rewrite Hdo, Hb, Hst, Hv.
Qed.

Lemma success_returns_the_decoded_response_witness :
  let c := test_client 200 "{}" in
  Search test_platform c (Ctx false) "test query" None =
  ([outgoing_request c (Ctx false) "/search"
      (JObject [("query", JString "test query");
                ("search_depth", JString "basic");
                ("topic", JString "general");
                ("max_results", JNumber 5);
                ("timeout", JNumber 60)])],
   inr test_response).
Proof.
  intros c.
  apply (proj1 (success_returns_the_decoded_response test_platform c
                  (Ctx false) ltac:(vm_compute; discriminate)
                  ltac:(discriminate)))
    with (resp := Response.mk 200 (inr "{}")) (respData := "{}");
    reflexivity.
Defined.

(** ** Failures of the exchange *)

(** X7. When the HTTP client fails on the request an operation sent, the
    operation returns that failure under "request failed: " and the name
    of the operation; when the client answers but the body cannot be
    read, it returns the read failure under "failed to read response: ",
    whatever the status of the answer. Nothing but the cause can make
    [errors.As] find an [APIError] in such an error. *)
Theorem transport_failures_are_wrapped (pf : Platform) (c : Client.t)
    (ctx : Context) :
  let wrapped (prefix : string) (answer : error + Response.t)
              (err : option error) :=
    (forall cause,
       answer = inl cause ->
       err = Some (Errorf_w prefix (Errorf_w "request failed: " cause)) /\
       errors_As_APIError (Errorf_w prefix (Errorf_w "request failed: " cause))
         = errors_As_APIError cause) /\
    (forall resp cause,
       answer = inr resp -> Response.Body resp = inl cause ->
       err = Some (Errorf_w prefix
                     (Errorf_w "failed to read response: " cause)) /\
       errors_As_APIError
         (Errorf_w prefix (Errorf_w "failed to read response: " cause))
         = errors_As_APIError cause) in
  (forall query opts req,
     req ∈ sent (Search pf c ctx query opts) ->
     wrapped "search failed: " (http_Client.Do (Client.httpClient c) req)
             (failure (Search pf c ctx query opts))) /\
  (forall urls opts req,
     req ∈ sent (Extract pf c ctx urls opts) ->
     wrapped "extract failed: " (http_Client.Do (Client.httpClient c) req)
             (failure (Extract pf c ctx urls opts))) /\
  (forall url opts req,
     req ∈ sent (Crawl pf c ctx url opts) ->
     wrapped "crawl failed: " (http_Client.Do (Client.httpClient c) req)
             (failure (Crawl pf c ctx url opts))) /\
  (forall url opts req,
     req ∈ sent (Map pf c ctx url opts) ->
     wrapped "map failed: " (http_Client.Do (Client.httpClient c) req)
             (failure (Map pf c ctx url opts))).
Proof.
  intros wrapped. subst wrapped. simpl.
  destruct (operations_after_send pf c ctx) as (HS & HE & HC & HM).
  unfold failure.
  split; [|split; [|split]]; intros ? ? req Hin;
    [rewrite (HS _ _ _ Hin)|rewrite (HE _ _ _ Hin)
    |rewrite (HC _ _ _ Hin)|rewrite (HM _ _ _ Hin)];
    unfold handle_response; (split; [by intros cause ->|]);
    intros resp cause -> ->; done.
Qed.

Lemma transport_failures_are_wrapped_witness :
  let req := outgoing_request offline_client (Ctx false) "/search"
               (JObject [("query", JString "q");
                         ("search_depth", JString "basic");
                         ("topic", JString "general");
                         ("max_results", JNumber 5);
                         ("timeout", JNumber 60)]) in
  let cause := LibErr "dial tcp: connection refused" in
  failure (Search test_platform offline_client (Ctx false) "q" None) =
    Some (Errorf_w "search failed: " (Errorf_w "request failed: " cause)) /\
  errors_As_APIError
    (Errorf_w "search failed: " (Errorf_w "request failed: " cause)) =
    errors_As_APIError cause.
Proof.
  intros req cause.
  apply (proj1 (transport_failures_are_wrapped test_platform offline_client
                  (Ctx false)) "q" None req).
  - vm_compute. constructor.
  - reflexivity.
Defined.

(** X8. When the HTTP client answers the request an operation sent with
    status 200 and a body that is read but does not decode into the
    response of the operation, the operation returns the decoding failure
    under "failed to unmarshal response: " and the name of the operation,
    and no response. *)
Theorem decoding_failures_are_wrapped (pf : Platform) (c : Client.t)
    (ctx : Context) :
  (forall query opts req resp respData cause,
     req ∈ sent (Search pf c ctx query opts) ->
     http_Client.Do (Client.httpClient c) req = inr resp ->
     Response.StatusCode resp = 200 ->
     Response.Body resp = inr respData ->
     json_Unmarshal_SearchResponse pf respData = inl cause ->
     result (Search pf c ctx query opts) =
       inl (Errorf_w "search failed: "
              (Errorf_w "failed to unmarshal response: " cause))) /\
  (forall urls opts req resp respData cause,
     req ∈ sent (Extract pf c ctx urls opts) ->
     http_Client.Do (Client.httpClient c) req = inr resp ->
     Response.StatusCode resp = 200 ->
     Response.Body resp = inr respData ->
     json_Unmarshal_ExtractResponse pf respData = inl cause ->
     result (Extract pf c ctx urls opts) =
       inl (Errorf_w "extract failed: "
              (Errorf_w "failed to unmarshal response: " cause))) /\
  (forall url opts req resp respData cause,
     req ∈ sent (Crawl pf c ctx url opts) ->
     http_Client.Do (Client.httpClient c) req = inr resp ->
     Response.StatusCode resp = 200 ->
     Response.Body resp = inr respData ->
     json_Unmarshal_CrawlResponse pf respData = inl cause ->
     result (Crawl pf c ctx url opts) =
       inl (Errorf_w "crawl failed: "
              (Errorf_w "failed to unmarshal response: " cause))) /\
  (forall url opts req resp respData cause,
     req ∈ sent (Map pf c ctx url opts) ->
     http_Client.Do (Client.httpClient c) req = inr resp ->
     Response.StatusCode resp = 200 ->
     Response.Body resp = inr respData ->
     json_Unmarshal_MapResponse pf respData = inl cause ->
     result (Map pf c ctx url opts) =
       inl (Errorf_w "map failed: "
              (Errorf_w "failed to unmarshal response: " cause))).
Proof.
  destruct (operations_after_send pf c ctx) as (HS & HE & HC & HM).
  split; [|split; [|split]];
    intros ? ? req resp respData cause Hin Hdo Hst Hb Hv;
    [rewrite (HS _ _ _ Hin)|rewrite (HE _ _ _ Hin)
    |rewrite (HC _ _ _ Hin)|rewrite (HM _ _ _ Hin)];
    unfold handle_response; by rewrite Hdo, Hb, Hst, Hv.
Qed.

Lemma decoding_failures_are_wrapped_witness :
  result (Search picky_platform (picky_client 200 "<html>") (Ctx false)
                 "q" None) =
  inl (Errorf_w "search failed: "
         (Errorf_w "failed to unmarshal response: "
            (LibErr "invalid character '<' looking for beginning of value"))).
Proof.
  apply (proj1 (decoding_failures_are_wrapped picky_platform
                  (picky_client 200 "<html>") (Ctx false)))
    with (req := outgoing_request (picky_client 200 "<html>") (Ctx false)
                   "/search"
                   (JObject [("query", JString "q");
                             ("search_depth", JString "basic");
                             ("topic", JString "general");
                             ("max_results", JNumber 5);
                             ("timeout", JNumber 60)]))
         (resp := Response.mk 200 (inr "<html>")) (respData := "<html>").
  - vm_compute. constructor.
  - reflexivity.
  - reflexivity.
  - reflexivity.
  - reflexivity.
Defined.

(** ** Failures before the wire *)

Lemma doRequest_marshal_failure {Req Resp : Type} `{Marshal Req}
    (pf : Platform) (c : Client.t) (ctx : Context) (endpoint : string)
    (r : Req) (unmarshal : string -> error + Resp) (cause : error) :
  Client.apiKey c <> "" ->
  marshal r = inl cause ->
  doRequest pf c ctx endpoint (Some r) (Some unmarshal) =
  ([], inl (Errorf_w "failed to marshal request: " cause)).
Proof.
  intros Hk%String.eqb_neq Hm. unfold doRequest. by rewrite Hk, Hm.
Qed.

Lemma doRequest_no_request {Req Resp : Type} `{Marshal Req}
    (pf : Platform) (c : Client.t) (ctx : Context) (endpoint : string)
    (r : Req) (unmarshal : string -> error + Resp) (body : JSON)
    (msg : string) :
  Client.apiKey c <> "" ->
  marshal r = inr body ->
  ctx <> NilContext ->
  url_Parse_error pf (Client.baseURL c +:+ endpoint) = Some msg ->
  doRequest pf c ctx endpoint (Some r) (Some unmarshal) =
  ([], inl (Errorf_w "failed to create request: " (LibErr msg))).
Proof.
  intros Hk%String.eqb_neq Hm Hc Hu.
  unfold doRequest, http_NewRequestWithContext. rewrite Hk, Hm.
  destruct ctx; [done|]. by rewrite Hu.
Qed.

Lemma encode_any_supported (a : GoAny) :
  (forall ty, a <> AnyUnsupported ty) -> exists member, encode_any a = inr member.
Proof.
  destruct a as [| | | |[|]|ty]; intros Hs; eauto. by destruct (Hs ty).
Qed.

(** X9. A value the JSON encoder does not support in [IncludeAnswer], or
    in [IncludeRawContent] whatever supported value [IncludeAnswer] has,
    makes [Search] fail before anything is sent: with a key, the error is
    the encoder's, naming the type of the first such value, under "failed
    to marshal request: " and "search failed: ", and [errors.As] finds no
    [APIError] in it. *)
Theorem unsupported_option_fails_before_sending (pf : Platform)
    (c : Client.t) (ctx : Context) (query : string) (o : SearchOptions.t)
    (ty : string) :
  Client.apiKey c <> "" ->
  SearchOptions.IncludeAnswer o = AnyUnsupported ty \/
  (forall ty', SearchOptions.IncludeAnswer o <> AnyUnsupported ty') /\
  SearchOptions.IncludeRawContent o = AnyUnsupported ty ->
  let err := Errorf_w "search failed: "
               (Errorf_w "failed to marshal request: "
                  (LibErr ("json: unsupported type: " +:+ ty))) in
  Search pf c ctx query (Some o) = ([], inl err) /\
  errors_As_APIError err = None.
Proof.
  intros Hk Hu err. split; [|done].
  assert (marshal (Search_request query (Some o)) =
          inl (LibErr ("json: unsupported type: " +:+ ty))) as Hm.
  { unfold marshal, SearchRequest_Marshal, SearchRequest.Marshal. simpl.
    destruct Hu as [Ha|[Hs Hr]].
    - by rewrite Ha.
    - apply encode_any_supported in Hs as [member ->]. by rewrite Hr. }
  rewrite Search_unfold.
  by rewrite (doRequest_marshal_failure pf c ctx "/search" _ _ _ Hk Hm).
Qed.

Lemma unsupported_option_fails_before_sending_witness :
  let o := SearchOptions.mk "" "" "" 0 0 [] [] (AnyBool true)
                            (AnyUnsupported "chan int") None None 0 0 "" 0 in
  let err := Errorf_w "search failed: "
               (Errorf_w "failed to marshal request: "
                  (LibErr ("json: unsupported type: " +:+ "chan int"))) in
  Search test_platform (test_client 200 "{}") (Ctx false) "q" (Some o) =
    ([], inl err) /\
  errors_As_APIError err = None.
Proof.
  intros o.
  apply (unsupported_option_fails_before_sending test_platform
           (test_client 200 "{}") (Ctx false) "q" o "chan int").
  - vm_compute. discriminate.
  - right. split; [discriminate|reflexivity].
Defined.

(** X10. With a key and a live context, when the base URL of the client
    followed by the endpoint does not parse as a URL, the operation fails
    before anything is sent, with the parse error under "failed to create
    request: " and the name of the operation; [errors.As] finds no
    [APIError] in it. *)
Theorem unparsable_URL_fails_before_sending (pf : Platform) (c : Client.t)
    (ctx : Context) :
  Client.apiKey c <> "" ->
  ctx <> NilContext ->
  let failed_with {A : Type} (prefix msg : string) (x : Net (error + A)) :=
    x = ([], inl (Errorf_w prefix
                    (Errorf_w "failed to create request: " (LibErr msg)))) /\
    errors_As_APIError
      (Errorf_w prefix
         (Errorf_w "failed to create request: " (LibErr msg))) = None in
  (forall query opts body msg,
     marshal (Search_request query opts) = inr body ->
     url_Parse_error pf (Client.baseURL c +:+ "/search") = Some msg ->
     failed_with "search failed: " msg (Search pf c ctx query opts)) /\
  (forall urls opts msg,
     urls <> [] ->
     url_Parse_error pf (Client.baseURL c +:+ "/extract") = Some msg ->
     failed_with "extract failed: " msg (Extract pf c ctx urls opts)) /\
  (forall url opts msg,
     url <> "" ->
     url_Parse_error pf (Client.baseURL c +:+ "/crawl") = Some msg ->
     failed_with "crawl failed: " msg (Crawl pf c ctx url opts)) /\
  (forall url opts msg,
     url <> "" ->
     url_Parse_error pf (Client.baseURL c +:+ "/map") = Some msg ->
     failed_with "map failed: " msg (Map pf c ctx url opts)).
Proof.
  intros Hk Hc failed_with. subst failed_with. simpl.
  split; [|split; [|split]].
  - intros query opts body msg Hm Hu. split; [|done].
    rewrite Search_unfold.
    by rewrite (doRequest_no_request pf c ctx "/search" _ _ body msg).
  - intros urls opts msg Hn Hu. split; [|done].
    rewrite Extract_unfold by done.
    by rewrite (doRequest_no_request pf c ctx "/extract"
                  (Extract_request urls opts) _ _ msg Hk eq_refl Hc Hu).
  - intros url opts msg Hn Hu. split; [|done].
    rewrite Crawl_unfold by done.
    by rewrite (doRequest_no_request pf c ctx "/crawl"
                  (Crawl_request url opts) _ _ msg Hk eq_refl Hc Hu).
  - intros url opts msg Hn Hu. split; [|done].
    rewrite Map_unfold by done.
    by rewrite (doRequest_no_request pf c ctx "/map"
                  (Map_request url opts) _ _ msg Hk eq_refl Hc Hu).
Qed.

Lemma unparsable_URL_fails_before_sending_witness :
  let c := New picky_platform "tvly-test-key"
               (Some (Options.mk "://" None 0)) in
  Search picky_platform c (Ctx false) "q" None =
  ([], inl (Errorf_w "search failed: "
              (Errorf_w "failed to create request: "
                 (LibErr "missing protocol scheme")))).
Proof.
  intros c.
  apply (proj1 (unparsable_URL_fails_before_sending picky_platform c
                  (Ctx false) ltac:(vm_compute; discriminate)
                  ltac:(discriminate)) "q" None
               (JObject [("query", JString "q");
                         ("search_depth", JString "basic");
                         ("topic", JString "general");
                         ("max_results", JNumber 5);
                         ("timeout", JNumber 60)])
               "missing protocol scheme");
    reflexivity.
Defined.

Lemma doRequest_local_APIError {Req Resp : Type} `{Marshal Req}
    (pf : Platform) (c : Client.t) (ctx : Context) (endpoint : string)
    (r : Req) (unmarshal : string -> error + Resp) (prefix : string)
    (err : error) (e : APIError.t) :
  (forall cause, marshal r = inl cause -> exists msg, cause = LibErr msg) ->
  sent (doRequest pf c ctx endpoint (Some r) (Some unmarshal)) = [] ->
  match result (doRequest pf c ctx endpoint (Some r) (Some unmarshal)) with
  | inl original => inl (Errorf_w prefix original)
  | inr resp => inr resp
  end = inl err ->
  errors_As_APIError err = Some e ->
  Client.apiKey c = "" /\
  e = APIError.mk 401
    "missing API key - provide via parameter or TAVILY_API_KEY environment variable".
Proof.
  intros Hlib Hs Hr He.
  apply doRequest_nothing_sent
    in Hs as [(cause & Hm & Hd)|[(msg & Hd)|[Hk Hd]]];
    rewrite Hd in Hr; injection Hr as <-; simpl in He.
  - apply Hlib in Hm as [msg ->]. done.
  - done.
  - by injection He as <-.
Qed.

(** X11. An [APIError] that an operation returns without having sent a
    request is one of two: status 401 with the missing-key message, on a
    client with the empty key, or status 400 for an empty URL list (in
    [Extract]) or an empty URL (in [Crawl] and [Map]). [Search] makes only
    the first. *)
Theorem local_APIErrors (pf : Platform) (c : Client.t) (ctx : Context) :
  let missing_key (e : APIError.t) :=
    Client.apiKey c = "" /\
    e = APIError.mk 401
      "missing API key - provide via parameter or TAVILY_API_KEY environment variable" in
  (forall query opts err e,
     Search pf c ctx query opts = ([], inl err) ->
     errors_As_APIError err = Some e -> missing_key e) /\
  (forall urls opts err e,
     Extract pf c ctx urls opts = ([], inl err) ->
     errors_As_APIError err = Some e ->
     urls = [] /\ e = APIError.mk 400 "at least one URL is required" \/
     urls <> [] /\ missing_key e) /\
  (forall url opts err e,
     Crawl pf c ctx url opts = ([], inl err) ->
     errors_As_APIError err = Some e ->
     url = "" /\ e = APIError.mk 400 "URL is required" \/
     url <> "" /\ missing_key e) /\
  (forall url opts err e,
     Map pf c ctx url opts = ([], inl err) ->
     errors_As_APIError err = Some e ->
     url = "" /\ e = APIError.mk 400 "URL is required" \/
     url <> "" /\ missing_key e).
Proof.
  intros missing_key. subst missing_key. simpl.
  split; [|split; [|split]].
  - intros query opts err e. rewrite Search_unfold. simpl.
    intros [= Hs Hr] He.
    apply (doRequest_local_APIError pf c ctx "/search"
             (Search_request query opts) (json_Unmarshal_SearchResponse pf)
             "search failed: " err e); [|done| |done].
    + apply SearchRequest_Marshal_error.
    + by destruct (result _); [injection Hr as <-|].
  - intros [|u urls] opts err e.
    { rewrite Extract_no_urls. intros [= <-] [= <-]. by left. }
    rewrite Extract_unfold by done. simpl. intros [= Hs Hr] He.
    right. split; [done|].
    apply (doRequest_local_APIError pf c ctx "/extract"
             (Extract_request (u :: urls) opts)
             (json_Unmarshal_ExtractResponse pf)
             "extract failed: " err e); [by intros cause [=]|done| |done].
    by destruct (result _); [injection Hr as <-|].
  - intros url opts err e. destruct (String.eqb_spec url "") as [->|Hu].
    { rewrite Crawl_no_url. intros [= <-] [= <-]. by left. }
    rewrite Crawl_unfold by done. simpl. intros [= Hs Hr] He.
    right. split; [done|].
    apply (doRequest_local_APIError pf c ctx "/crawl"
             (Crawl_request url opts) (json_Unmarshal_CrawlResponse pf)
             "crawl failed: " err e); [by intros cause [=]|done| |done].
    by destruct (result _); [injection Hr as <-|].
  - intros url opts err e. destruct (String.eqb_spec url "") as [->|Hu].
    { rewrite Map_no_url. intros [= <-] [= <-]. by left. }
    rewrite Map_unfold by done. simpl. intros [= Hs Hr] He.
    right. split; [done|].
    apply (doRequest_local_APIError pf c ctx "/map"
             (Map_request url opts) (json_Unmarshal_MapResponse pf)
             "map failed: " err e); [by intros cause [=]|done| |done].
    by destruct (result _); [injection Hr as <-|].
Qed.

Lemma local_APIErrors_witness :
  let e := APIError.mk 401
    "missing API key - provide via parameter or TAVILY_API_KEY environment variable" in
  Client.apiKey keyless_client = "" /\ e = e.
Proof.
  intros e.
  apply (proj1 (local_APIErrors test_platform keyless_client (Ctx false))
               "q" None (Errorf_w "search failed: " (APIErr e)) e);
    reflexivity.
Defined.

(** ** What the zero value cannot say *)

Lemma defaultString_idem (value dflt : string) :
  defaultString (defaultString value dflt) dflt = defaultString value dflt.
Proof.
  unfold defaultString at 2 3. destruct (String.eqb_spec value "") as [->|Hv].
  - unfold defaultString. by destruct (String.eqb dflt "").
  - unfold defaultString. apply String.eqb_neq in Hv. by rewrite Hv.
Qed.

Lemma defaultInt_idem (value dflt : Z) :
  defaultInt (defaultInt value dflt) dflt = defaultInt value dflt.
Proof.
  unfold defaultInt at 2 3. destruct (Z.eqb_spec value 0) as [->|Hv].
  - unfold defaultInt. by destruct (dflt =? 0).
  - unfold defaultInt. apply Z.eqb_neq in Hv. by rewrite Hv.
Qed.

(** X12. [Search] cannot tell an option left at zero from the default
    written out: the call with the options and the call with the same
    options after the defaults are filled in are the same call, with the
    same request and the same outcome. The payload never has an empty
    search depth or topic, nor zero for the maximum number of results or
    the timeout, so none of these can be asked for. *)
Theorem Search_zero_is_default (pf : Platform) (c : Client.t)
    (ctx : Context) (query : string) (o : SearchOptions.t) :
  Search pf c ctx query (Some (with_Search_defaults o)) =
    Search pf c ctx query (Some o) /\
  Search pf c ctx query (Some SearchOptions.zero) =
    Search pf c ctx query None /\
  let r := Search_request query (Some o) in
  SearchRequest.SearchDepth r <> "" /\ SearchRequest.Topic r <> "" /\
  SearchRequest.MaxResults r <> 0 /\ SearchRequest.Timeout r <> 0.
Proof.
  split; [|split; [done|]].
  - unfold Search.
    replace (Search_request query (Some (with_Search_defaults o)))
      with (Search_request query (Some o)); [done|].
    unfold Search_request, with_Search_defaults. simpl.
    by rewrite !defaultString_idem, !defaultInt_idem.
  - simpl. repeat split.
    + apply String.eqb_neq. by apply defaultString_nonempty.
    + apply String.eqb_neq. by apply defaultString_nonempty.
    + apply Z.eqb_neq. by apply defaultInt_nonzero.
    + apply Z.eqb_neq. by apply defaultInt_nonzero.
Qed.

(** ** Members of the request body *)

(** X13. In the body of every request [Search] sends, the options that
    have no default are members only when they are not the zero value:
    [time_range], [country] (empty string), [days], [max_tokens],
    [chunks_per_source] (zero), [include_domains] and [exclude_domains]
    (empty list); a value that is not zero is the member, a number
    unchanged and a string as the JSON encoder writes it. The query is
    always a member, written the same way: unchanged when it is valid
    UTF-8. *)
Theorem Search_optional_members (pf : Platform) (c : Client.t)
    (ctx : Context) (query : string) (opts : option SearchOptions.t)
    (req : Request.t) :
  req ∈ sent (Search pf c ctx query opts) ->
  let o := default SearchOptions.zero opts in
  let JStrings (l : list string) := JArray (encode_string <$> l) in
  exists body,
    Request.Body req = Some body /\
    json_get "query" body = Some (encode_string query) /\
    omitempty_rule "" (SearchOptions.TimeRange o) encode_string
                   (json_get "time_range" body) /\
    omitempty_rule 0 (SearchOptions.Days o) JNumber (json_get "days" body) /\
    omitempty_rule [] (SearchOptions.IncludeDomains o) JStrings
                   (json_get "include_domains" body) /\
    omitempty_rule [] (SearchOptions.ExcludeDomains o) JStrings
                   (json_get "exclude_domains" body) /\
    omitempty_rule 0 (SearchOptions.MaxTokens o) JNumber
                   (json_get "max_tokens" body) /\
    omitempty_rule 0 (SearchOptions.ChunksPerSource o) JNumber
                   (json_get "chunks_per_source" body) /\
    omitempty_rule "" (SearchOptions.Country o) encode_string
                   (json_get "country" body) /\
    (utf8_ValidString query = true ->
     json_get "query" body = Some (JString query)).
Proof.
  intros (body & Hm & ->)%Search_sent_body o JStrings.
  exists body. split; [done|].
  apply SearchRequest_Marshal_inv in Hm as (a & rc & _ & _ & ->).
  unfold omitempty_rule.
  split; [by pick_field|].
  repeat split; pick_field; simpl; fold o.
  - by intros ->.
  - intros Hv%String.eqb_neq. by rewrite Hv.
  - by intros ->.
  - intros Hv%Z.eqb_neq. by rewrite Hv.
  - by intros ->.
  - by destruct (SearchOptions.IncludeDomains o).
  - by intros ->.
  - by destruct (SearchOptions.ExcludeDomains o).
  - by intros ->.
  - intros Hv%Z.eqb_neq. by rewrite Hv.
  - by intros ->.
  - intros Hv%Z.eqb_neq. by rewrite Hv.
  - by intros ->.
  - intros Hv%String.eqb_neq. by rewrite Hv.
  - intros Hv. by rewrite encode_string_valid.
Qed.

Lemma Search_optional_members_witness :
  let body := JObject [("query", JString "q");
                       ("search_depth", JString "advanced");
                       ("topic", JString "news");
                       ("days", JNumber 7);
                       ("max_results", JNumber 15);
                       ("include_answer", JBool true);
                       ("timeout", JNumber 60)] in
  json_get "days" body = Some (JNumber 7) /\
  json_get "time_range" body = None.
Proof.
  intros body.
  destruct (Search_optional_members test_platform (test_client 200 "{}")
              (Ctx false) "q" (Some (SearchNews_opts 7))
              (outgoing_request (test_client 200 "{}") (Ctx false) "/search"
                                body))
    as (body' & Hb & _ & (Hrange & _) & (_ & Hdays) & _).
  { vm_compute. constructor. }
  injection Hb as <-. split.
  - apply Hdays. discriminate.
  - apply Hrange. reflexivity.
Defined.

(** X14. With nil options, the body of the request is the target and the
    defaults, and nothing else: [query], [search_depth], [topic],
    [max_results] and [timeout] for [Search]; [urls], [extract_depth],
    [format] and [timeout] for [Extract]; [url], [max_depth],
    [max_breadth], [limit], [extract_depth], [format] and [timeout] for
    [Crawl]; [url], [max_depth], [max_breadth], [limit] and [timeout] for
    [Map]; in this order, the target as the JSON encoder writes it. *)
Theorem bodies_without_options (pf : Platform) (c : Client.t)
    (ctx : Context) :
  (forall query req,
     req ∈ sent (Search pf c ctx query None) ->
     Request.Body req =
       Some (JObject [("query", encode_string query);
                      ("search_depth", JString "basic");
                      ("topic", JString "general");
                      ("max_results", JNumber 5);
                      ("timeout", JNumber 60)])) /\
  (forall urls req,
     req ∈ sent (Extract pf c ctx urls None) ->
     Request.Body req =
       Some (JObject [("urls", JArray (encode_string <$> urls));
                      ("extract_depth", JString "basic");
                      ("format", JString "text");
                      ("timeout", JNumber 60)])) /\
  (forall url req,
     req ∈ sent (Crawl pf c ctx url None) ->
     Request.Body req =
       Some (JObject [("url", encode_string url);
                      ("max_depth", JNumber 1);
                      ("max_breadth", JNumber 20);
                      ("limit", JNumber 50);
                      ("extract_depth", JString "basic");
                      ("format", JString "text");
                      ("timeout", JNumber 60)])) /\
  (forall url req,
     req ∈ sent (Map pf c ctx url None) ->
     Request.Body req =
       Some (JObject [("url", encode_string url);
                      ("max_depth", JNumber 1);
                      ("max_breadth", JNumber 20);
                      ("limit", JNumber 50);
                      ("timeout", JNumber 60)])).
Proof.
  split; [|split; [|split]].
  - by intros query req (body & [= <-] & ->)%Search_sent_body.
  - by intros urls req ->%Extract_sent_body.
  - by intros url req ->%Crawl_sent_body.
  - by intros url req ->%Map_sent_body.
Qed.

Lemma bodies_without_options_witness :
  Request.Body
    (outgoing_request (test_client 200 "{}") (Ctx false) "/extract"
       (JObject [("urls", JArray [JString "https://a.example";
                                  JString "https://b.example"]);
                 ("extract_depth", JString "basic");
                 ("format", JString "text");
                 ("timeout", JNumber 60)])) =
  Some (JObject [("urls", JArray (encode_string <$> ["https://a.example";
                                                     "https://b.example"]));
                 ("extract_depth", JString "basic");
                 ("format", JString "text");
                 ("timeout", JNumber 60)]).
Proof.
  apply (bodies_without_options test_platform (test_client 200 "{}")
           (Ctx false)).
  vm_compute. constructor.
Defined.

Lemma members_of_keys (fs : list Field) :
  (fst <$> members_of fs) `sublist_of` (fst <$> fs).
Proof.
  induction fs as [|[k [v|]] fs IH]; simpl.
  - constructor.
  - by constructor.
  - by constructor.
Qed.

Lemma encode_struct_keys_NoDup (fs : list Field) :
  NoDup (fst <$> fs) -> NoDup (json_keys (encode_struct fs)).
Proof. intros Hnd. eapply sublist_NoDup; [exact Hnd|apply members_of_keys]. Qed.

(** X15. No request body has two members with the same key: the keys of
    the body of every request sent by [Search], [Extract], [Crawl] and
    [Map] are pairwise distinct. *)
Theorem body_keys_are_distinct (pf : Platform) (c : Client.t)
    (ctx : Context) :
  (forall query opts req,
     req ∈ sent (Search pf c ctx query opts) ->
     exists body, Request.Body req = Some body /\ NoDup (json_keys body)) /\
  (forall urls opts req,
     req ∈ sent (Extract pf c ctx urls opts) ->
     exists body, Request.Body req = Some body /\ NoDup (json_keys body)) /\
  (forall url opts req,
     req ∈ sent (Crawl pf c ctx url opts) ->
     exists body, Request.Body req = Some body /\ NoDup (json_keys body)) /\
  (forall url opts req,
     req ∈ sent (Map pf c ctx url opts) ->
     exists body, Request.Body req = Some body /\ NoDup (json_keys body)).
Proof.
  split; [|split; [|split]].
  - intros query opts req (body & Hm & ->)%Search_sent_body.
    exists body. split; [done|].
    apply SearchRequest_Marshal_inv in Hm as (a & rc & _ & _ & ->).
    apply encode_struct_keys_NoDup. simpl.
    apply (bool_decide_unpack _). by vm_compute.
  - intros urls opts req Hb%Extract_sent_body. eexists. split; [exact Hb|].
    apply encode_struct_keys_NoDup. simpl.
    apply (bool_decide_unpack _). by vm_compute.
  - intros url opts req Hb%Crawl_sent_body. eexists. split; [exact Hb|].
    apply encode_struct_keys_NoDup. simpl.
    apply (bool_decide_unpack _). by vm_compute.
  - intros url opts req Hb%Map_sent_body. eexists. split; [exact Hb|].
    apply encode_struct_keys_NoDup. simpl.
    apply (bool_decide_unpack _). by vm_compute.
Qed.

Lemma body_keys_are_distinct_witness :
  exists body,
    Request.Body
      (outgoing_request (test_client 200 "{}") (Ctx false) "/crawl"
         (JObject [("url", JString "https://example.com");
                   ("max_depth", JNumber 3);
                   ("max_breadth", JNumber 20);
                   ("limit", JNumber 25);
                   ("extract_depth", JString "basic");
                   ("select_paths",
                    JArray [JString "/docs/*"; JString "/api/*";
                            JString "/guide/*"; JString "/tutorial/*"]);
                   ("allow_external", JBool false);
                   ("categories",
                    JArray [JString "Documentation"; JString "Developer"]);
                   ("format", JString "markdown");
                   ("timeout", JNumber 60)])) = Some body /\
    NoDup (json_keys body).
Proof.
  apply (proj1 (proj2 (proj2 (body_keys_are_distinct test_platform
                                (test_client 200 "{}") (Ctx false))))
               "https://example.com" (Some (CrawlDocumentation_opts 25))).
  vm_compute. constructor.
Defined.

(** ** The presets *)

(** X16. [ExtractSimple] has no check of its URL: it calls [Extract] with
    the one-element list, which is never empty. So even for the empty
    URL, on a client without key it fails as unauthorized, not as a bad
    request, and with a key, a live context and a URL that parses it
    sends the request with that one URL, as the JSON encoder writes it,
    in [urls], where [Crawl] and [Map] turn the empty URL down. *)
Theorem ExtractSimple_accepts_any_URL (pf : Platform) (c : Client.t)
    (ctx : Context) (url : string) :
  (Client.apiKey c = "" -> fails_unauthorized (ExtractSimple pf c ctx url)) /\
  (Client.apiKey c <> "" -> ctx <> NilContext ->
   url_Parse_error pf (Client.baseURL c +:+ "/extract") = None ->
   sent (ExtractSimple pf c ctx url) =
     [outgoing_request c ctx "/extract"
        (JObject [("urls", JArray [encode_string url]);
                  ("extract_depth", JString "basic");
                  ("format", JString "text");
                  ("timeout", JNumber 60)])]).
Proof.
  unfold ExtractSimple. split.
  - intros Hk. rewrite Extract_unfold by done.
    by apply doRequest_fails_unauthorized.
  - intros Hk Hc Hu. by rewrite Extract_exchange.
Qed.

Lemma ExtractSimple_accepts_any_URL_witness :
  fails_unauthorized (ExtractSimple test_platform keyless_client (Ctx false) "")
  /\
  sent (ExtractSimple test_platform (test_client 200 "{}") (Ctx false) "") =
    [outgoing_request (test_client 200 "{}") (Ctx false) "/extract"
       (JObject [("urls", JArray [JString ""]);
                 ("extract_depth", JString "basic");
                 ("format", JString "text");
                 ("timeout", JNumber 60)])].
Proof.
  split.
  - apply (ExtractSimple_accepts_any_URL test_platform keyless_client
             (Ctx false) "").
    reflexivity.
  - apply (ExtractSimple_accepts_any_URL test_platform (test_client 200 "{}")
             (Ctx false) "").
    + vm_compute. discriminate.
    + discriminate.
    + reflexivity.
Defined.

Lemma GetSearchContext_sent (pf : Platform) (c : Client.t) (ctx : Context)
    (query : string) (maxTokens : Z) :
  sent (GetSearchContext pf c ctx query maxTokens) =
  sent (Search pf c ctx query (Some (GetSearchContext_opts maxTokens))).
Proof.
  unfold GetSearchContext.
  by destruct (Search _ _ _ _ _) as [reqs [err|resp]].
Qed.

(** X17. The bodies the presets send. [SearchWithAnswer]: 10 results and
    the answer. [SearchNews]: advanced depth, topic "news", 15 results,
    the answer, and [days] only when it is not zero. [ExtractWithImages]:
    images, advanced depth, markdown. [CrawlDocumentation]: depth 3, the
    given limit or 50 when it is zero, four documentation paths, no
    external links, two categories, markdown. [MapSite]: depth 2, limit
    100. [GetSearchContext]: advanced depth, 5 results, raw content as
    "text", and [max_tokens] only when it is not zero. Every other member
    is the default of the core call; the query, the URL and the URLs are
    members as the JSON encoder writes them. *)
Theorem preset_bodies (pf : Platform) (c : Client.t) (ctx : Context) :
  (forall query req,
     req ∈ sent (SearchWithAnswer pf c ctx query) ->
     Request.Body req =
       Some (JObject [("query", encode_string query);
                      ("search_depth", JString "basic");
                      ("topic", JString "general");
                      ("max_results", JNumber 10);
                      ("include_answer", JBool true);
                      ("timeout", JNumber 60)])) /\
  (forall query days req,
     req ∈ sent (SearchNews pf c ctx query days) ->
     Request.Body req =
       Some (JObject ([("query", encode_string query);
                       ("search_depth", JString "advanced");
                       ("topic", JString "news")] ++
                      (if days =? 0 then [] else [("days", JNumber days)]) ++
                      [("max_results", JNumber 15);
                       ("include_answer", JBool true);
                       ("timeout", JNumber 60)]))) /\
  (forall urls req,
     req ∈ sent (ExtractWithImages pf c ctx urls) ->
     Request.Body req =
       Some (JObject [("urls", JArray (encode_string <$> urls));
                      ("include_images", JBool true);
                      ("extract_depth", JString "advanced");
                      ("format", JString "markdown");
                      ("timeout", JNumber 60)])) /\
  (forall url maxPages req,
     req ∈ sent (CrawlDocumentation pf c ctx url maxPages) ->
     Request.Body req =
       Some (JObject [("url", encode_string url);
                      ("max_depth", JNumber 3);
                      ("max_breadth", JNumber 20);
                      ("limit",
                       JNumber (if maxPages =? 0 then 50 else maxPages));
                      ("extract_depth", JString "basic");
                      ("select_paths",
                       JArray [JString "/docs/*"; JString "/api/*";
                               JString "/guide/*"; JString "/tutorial/*"]);
                      ("allow_external", JBool false);
                      ("categories",
                       JArray [JString "Documentation"; JString "Developer"]);
                      ("format", JString "markdown");
                      ("timeout", JNumber 60)])) /\
  (forall url req,
     req ∈ sent (MapSite pf c ctx url) ->
     Request.Body req =
       Some (JObject [("url", encode_string url);
                      ("max_depth", JNumber 2);
                      ("max_breadth", JNumber 20);
                      ("limit", JNumber 100);
                      ("timeout", JNumber 60)])) /\
  (forall query maxTokens req,
     req ∈ sent (GetSearchContext pf c ctx query maxTokens) ->
     Request.Body req =
       Some (JObject ([("query", encode_string query);
                       ("search_depth", JString "advanced");
                       ("topic", JString "general");
                       ("max_results", JNumber 5);
                       ("include_raw_content", JString "text")] ++
                      (if maxTokens =? 0 then []
                       else [("max_tokens", JNumber maxTokens)]) ++
                      [("timeout", JNumber 60)]))).
Proof.
  split; [|split; [|split; [|split; [|split]]]].
  - by intros query req (body & [= <-] & ->)%Search_sent_body.
  - intros query days req (body & Hm & ->)%Search_sent_body.
    revert Hm. unfold marshal, SearchRequest_Marshal, SearchRequest.Marshal,
      encode_struct, members_of, SearchRequest.fields, omitempty_int.
    simpl. by destruct (days =? 0); intros [= <-].
  - by intros urls req ->%Extract_sent_body.
  - intros url maxPages req ->%Crawl_sent_body.
    destruct (Z.eqb_spec maxPages 0) as [->|Hn%Z.eqb_neq]; [done|].
    unfold encode_struct, members_of, CrawlRequest.fields, omitempty_int,
      Crawl_request, defaultInt.
    simpl. by rewrite !Hn.
  - by intros url req ->%Map_sent_body.
  - intros query maxTokens req. rewrite GetSearchContext_sent.
    intros (body & Hm & ->)%Search_sent_body.
    revert Hm. unfold marshal, SearchRequest_Marshal, SearchRequest.Marshal,
      encode_struct, members_of, SearchRequest.fields, omitempty_int.
    simpl. by destruct (maxTokens =? 0); intros [= <-].
Qed.

Lemma preset_bodies_witness :
  Request.Body
    (outgoing_request (test_client 200 "{}") (Ctx false) "/crawl"
       (JObject [("url", JString "https://example.com");
                 ("max_depth", JNumber 3);
                 ("max_breadth", JNumber 20);
                 ("limit", JNumber 50);
                 ("extract_depth", JString "basic");
                 ("select_paths",
                  JArray [JString "/docs/*"; JString "/api/*";
                          JString "/guide/*"; JString "/tutorial/*"]);
                 ("allow_external", JBool false);
                 ("categories",
                  JArray [JString "Documentation"; JString "Developer"]);
                 ("format", JString "markdown");
                 ("timeout", JNumber 60)])) =
  Some (JObject [("url", JString "https://example.com");
                 ("max_depth", JNumber 3);
                 ("max_breadth", JNumber 20);
                 ("limit", JNumber (if 0 =? 0 then 50 else 0));
                 ("extract_depth", JString "basic");
                 ("select_paths",
                  JArray [JString "/docs/*"; JString "/api/*";
                          JString "/guide/*"; JString "/tutorial/*"]);
                 ("allow_external", JBool false);
                 ("categories",
                  JArray [JString "Documentation"; JString "Developer"]);
                 ("format", JString "markdown");
                 ("timeout", JNumber 60)]).
Proof.
  apply (proj1 (proj2 (proj2 (proj2 (preset_bodies test_platform
                                       (test_client 200 "{}") (Ctx false)))))
               "https://example.com" 0).
  vm_compute. constructor.
Defined.

(** ** The text of [GetSearchContext] *)

Lemma append_nil_r (s : string) : s +:+ "" = s.
Proof. induction s as [|a s IH]; [done|]. by rewrite append_cons, IH. Qed.

Lemma append_assoc (s t u : string) : (s +:+ t) +:+ u = s +:+ (t +:+ u).
Proof. induction s as [|a s IH]; [done|]. by rewrite !append_cons, IH. Qed.

Lemma GetSearchContext_loop (context : string) (i : nat)
    (rs : list SearchResult.t) :
  foldl GetSearchContext_step (context, i) rs =
  (context +:+ GetSearchContext_blocks i rs, (i + length rs)%nat).
Proof.
  revert context i. induction rs as [|r rs IH]; intros context i.
  - simpl. by rewrite append_nil_r, Nat.add_0_r.
  - cbn [foldl GetSearchContext_blocks length].
    change (GetSearchContext_step (context, i) r)
      with (context +:+ GetSearchContext_entry i r, S i).
    rewrite IH, append_assoc. f_equal. lia.
Qed.

(** X18. When its search succeeds, [GetSearchContext] returns the line
    "Search query: " with the query, an empty line, and then one block
    for each result of the response, in the order of the response: the
    block of the result at index [i] is headed "Source " with the number
    [i + 1], and gives the title, the URL and the content of the result,
    each on a line, and an empty line. With no result, the text is the
    first two lines alone. *)
Theorem GetSearchContext_text_layout (pf : Platform) (c : Client.t)
    (ctx : Context) (query : string) (maxTokens : Z)
    (resp : SearchResponse.t) :
  result (Search pf c ctx query (Some (GetSearchContext_opts maxTokens))) =
    inr resp ->
  result (GetSearchContext pf c ctx query maxTokens) =
    inr ("Search query: " +:+ query +:+ LF +:+ LF +:+
         GetSearchContext_blocks 0 (SearchResponse.Results resp)) /\
  (SearchResponse.Results resp = [] ->
   result (GetSearchContext pf c ctx query maxTokens) =
     inr ("Search query: " +:+ query +:+ LF +:+ LF)).
Proof.
  unfold GetSearchContext.
  destruct (Search _ _ _ _ _) as [reqs [err|resp']]; simpl; [done|].
  intros [= ->]. rewrite GetSearchContext_loop. simpl.
  rewrite !append_assoc. split; [done|].
  intros ->. simpl. by rewrite append_nil_r.
Qed.

Lemma GetSearchContext_text_layout_witness :
  result (GetSearchContext test_platform (test_client 200 "{}") (Ctx false)
            "q" 100) =
  inr ("Search query: " +:+ "q" +:+ LF +:+ LF +:+
       GetSearchContext_blocks 0 [test_result]).
Proof.
  apply (GetSearchContext_text_layout test_platform (test_client 200 "{}")
           (Ctx false) "q" 100 test_response).
  reflexivity.
Defined.

(** ** The text of the errors *)

(** X19. What [Error()] gives for the errors of the operations. The error
    of an empty URL list or URL is the bare message, without the name of
    the operation. On a client without key, the text is the name of the
    operation ("search failed: ", "extract failed: ", "crawl failed: ",
    "map failed: ") followed by the missing-key message. For an answer
    with a status other than 200, it is the name of the operation
    followed by the message of the [APIError] that [errors.As] finds. *)
Theorem error_texts (pf : Platform) (c : Client.t) (ctx : Context) :
  let missing :=
    "missing API key - provide via parameter or TAVILY_API_KEY environment variable" in
  let text {A : Type} (x : Net (error + A)) := error_Error <$> failure x in
  let rejected {A : Type} (prefix : string) (x : Net (error + A))
               (req : Request.t) :=
    forall resp respData,
      req ∈ sent x ->
      http_Client.Do (Client.httpClient c) req = inr resp ->
      Response.Body resp = inr respData ->
      Response.StatusCode resp <> 200 ->
      exists err e,
        result x = inl err /\ errors_As_APIError err = Some e /\
        APIError.StatusCode e = Response.StatusCode resp /\
        error_Error err = prefix +:+ APIError.Message e in
  (forall opts, text (Extract pf c ctx [] opts) =
                Some "at least one URL is required") /\
  (forall opts, text (Crawl pf c ctx "" opts) = Some "URL is required") /\
  (forall opts, text (Map pf c ctx "" opts) = Some "URL is required") /\
  (Client.apiKey c = "" ->
   (forall query opts,
      text (Search pf c ctx query opts) =
      Some ("search failed: " +:+ missing)) /\
   (forall urls opts, urls <> [] ->
      text (Extract pf c ctx urls opts) =
      Some ("extract failed: " +:+ missing)) /\
   (forall url opts, url <> "" ->
      text (Crawl pf c ctx url opts) = Some ("crawl failed: " +:+ missing)) /\
   (forall url opts, url <> "" ->
      text (Map pf c ctx url opts) = Some ("map failed: " +:+ missing))) /\
  (forall query opts req,
     rejected "search failed: " (Search pf c ctx query opts) req) /\
  (forall urls opts req,
     rejected "extract failed: " (Extract pf c ctx urls opts) req) /\
  (forall url opts req,
     rejected "crawl failed: " (Crawl pf c ctx url opts) req) /\
  (forall url opts req,
     rejected "map failed: " (Map pf c ctx url opts) req).
Proof.
  intros missing text rejected. subst missing text rejected. simpl.
  destruct (operations_after_send pf c ctx) as (HS & HE & HC & HM).
  split; [done|]. split; [done|]. split; [done|]. split.
  { intros Hk. unfold failure. split; [|split; [|split]].
    - intros query opts. rewrite Search_unfold. simpl.
      by rewrite doRequest_missing_key.
    - intros urls opts Hn. rewrite Extract_unfold by done. simpl.
      by rewrite doRequest_missing_key.
    - intros url opts Hn. rewrite Crawl_unfold by done. simpl.
      by rewrite doRequest_missing_key.
    - intros url opts Hn. rewrite Map_unfold by done. simpl.
      by rewrite doRequest_missing_key. }
  split; [|split; [|split]];
    intros ? ? req resp respData Hin Hdo Hb Hst%Z.eqb_neq;
    [rewrite (HS _ _ _ Hin)|rewrite (HE _ _ _ Hin)
    |rewrite (HC _ _ _ Hin)|rewrite (HM _ _ _ Hin)];
    unfold handle_response; rewrite Hdo, Hb, Hst; simpl;
    destruct (parseAPIError_spec pf (Response.StatusCode resp) respData)
      as (e & -> & Hcode & _);
    eexists; exists e; (split; [reflexivity|]); by repeat split.
Qed.

Lemma error_texts_witness :
  exists err e,
    result (Search test_platform (test_client 401 invalid_key_body)
              (Ctx false) "test" None) = inl err /\
    errors_As_APIError err = Some e /\
    APIError.StatusCode e = 401 /\
    error_Error err = "search failed: " +:+ APIError.Message e.
Proof.
  destruct (error_texts test_platform (test_client 401 invalid_key_body)
              (Ctx false))
    as (_ & _ & _ & _ & Hsearch & _).
  apply (Hsearch "test" None
           (outgoing_request (test_client 401 invalid_key_body) (Ctx false)
              "/search"
              (JObject [("query", JString "test");
                        ("search_depth", JString "basic");
                        ("topic", JString "general");
                        ("max_results", JNumber 5);
                        ("timeout", JNumber 60)]))
           (Response.mk 401 (inr invalid_key_body)) invalid_key_body).
  - vm_compute. constructor.
  - reflexivity.
  - reflexivity.
  - simpl. lia.
Defined.

(** ** A client from [New], at work *)

Lemma operations_sent_inv (pf : Platform) (c : Client.t) (ctx : Context) :
  let out endpoint (req : Request.t) :=
    Client.apiKey c <> "" /\
    exists body, req = outgoing_request c ctx endpoint body in
  (forall query opts req,
     req ∈ sent (Search pf c ctx query opts) -> out "/search" req) /\
  (forall urls opts req,
     req ∈ sent (Extract pf c ctx urls opts) -> out "/extract" req) /\
  (forall url opts req,
     req ∈ sent (Crawl pf c ctx url opts) -> out "/crawl" req) /\
  (forall url opts req,
     req ∈ sent (Map pf c ctx url opts) -> out "/map" req).
Proof.
  simpl. split; [|split; [|split]].
  - intros query opts req. rewrite Search_unfold. simpl.
    intros (body & Hk & _ & _ & _ & ->)%doRequest_sent_inv. eauto.
  - intros [|u urls] opts req; [by intros ?%elem_of_nil|].
    rewrite Extract_unfold by done. simpl.
    intros (body & Hk & _ & _ & _ & ->)%doRequest_sent_inv. eauto.
  - intros url opts req.
    destruct (String.eqb_spec url "") as [->|Hu]; [by intros ?%elem_of_nil|].
    rewrite Crawl_unfold by done. simpl.
    intros (body & Hk & _ & _ & _ & ->)%doRequest_sent_inv. eauto.
  - intros url opts req.
    destruct (String.eqb_spec url "") as [->|Hu]; [by intros ?%elem_of_nil|].
    rewrite Map_unfold by done. simpl.
    intros (body & Hk & _ & _ & _ & ->)%doRequest_sent_inv. eauto.
Qed.

Lemma New_request (pf : Platform) (apiKey : string) (opts : option Options.t)
    (ctx : Context) (endpoint : string) (body : JSON) :
  let c := New pf apiKey opts in
  let o := default Options.zero opts in
  let req := outgoing_request c ctx endpoint body in
  Client.apiKey c <> "" ->
  (apiKey <> "" ->
   Request.Header req !! "Authorization" = Some ("Bearer " +:+ apiKey)) /\
  (apiKey = "" ->
   os_Getenv pf "TAVILY_API_KEY" <> "" /\
   Request.Header req !! "Authorization" =
     Some ("Bearer " +:+ os_Getenv pf "TAVILY_API_KEY")) /\
  Request.Header req !! "Content-Type" = Some "application/json" /\
  Request.Header req !! "X-Client-Source" = Some "go-tavily" /\
  (Options.BaseURL o = "" ->
   Request.URL req = "https://api.tavily.com" +:+ endpoint) /\
  (forall base, Options.BaseURL o = base +:+ "/" ->
                Request.URL req = base +:+ endpoint).
Proof.
  intros c o req. subst req c. unfold New. fold o. simpl.
  intros Hk.
  split; [|split; [|split; [|split; [|split]]]].
  - intros Ha%String.eqb_neq. rewrite Ha.
    rewrite lookup_insert_ne by done. by rewrite lookup_insert_eq.
  - intros ->. simpl in *. split; [done|].
    rewrite lookup_insert_ne by done. by rewrite lookup_insert_eq.
  - by rewrite lookup_insert_eq.
  - rewrite !lookup_insert_ne by done. by rewrite lookup_insert_eq.
  - by intros ->.
  - intros base ->.
    destruct (String.eqb_spec (base +:+ "/") "") as [He|He].
    + by destruct base.
    + by rewrite TrimSuffix_append.
Qed.

(** X20. Every request sent through a client made by [New] carries
    [Authorization] "Bearer " followed by the key given to [New], or by
    the non-empty value of [TAVILY_API_KEY] when no key was given, with
    [Content-Type] "application/json" and [X-Client-Source] "go-tavily";
    its URL is "https://api.tavily.com" followed by the endpoint when no
    base URL was given, and a base URL given with a trailing slash is
    joined to the endpoint without doubling the slash. *)
Theorem requests_of_a_new_client (pf : Platform) (apiKey : string)
    (opts : option Options.t) (ctx : Context) :
  let c := New pf apiKey opts in
  let o := default Options.zero opts in
  let delivered endpoint (req : Request.t) :=
    (apiKey <> "" ->
     Request.Header req !! "Authorization" = Some ("Bearer " +:+ apiKey)) /\
    (apiKey = "" ->
     os_Getenv pf "TAVILY_API_KEY" <> "" /\
     Request.Header req !! "Authorization" =
       Some ("Bearer " +:+ os_Getenv pf "TAVILY_API_KEY")) /\
    Request.Header req !! "Content-Type" = Some "application/json" /\
    Request.Header req !! "X-Client-Source" = Some "go-tavily" /\
    (Options.BaseURL o = "" ->
     Request.URL req = "https://api.tavily.com" +:+ endpoint) /\
    (forall base, Options.BaseURL o = base +:+ "/" ->
                  Request.URL req = base +:+ endpoint) in
  (forall query sopts req,
     req ∈ sent (Search pf c ctx query sopts) -> delivered "/search" req) /\
  (forall urls eopts req,
     req ∈ sent (Extract pf c ctx urls eopts) -> delivered "/extract" req) /\
  (forall url copts req,
     req ∈ sent (Crawl pf c ctx url copts) -> delivered "/crawl" req) /\
  (forall url mopts req,
     req ∈ sent (Map pf c ctx url mopts) -> delivered "/map" req).
Proof.
  intros c o delivered. subst delivered.
  destruct (operations_sent_inv pf c ctx) as (HS & HE & HC & HM).
  split; [|split; [|split]]; intros ? ? req Hin;
    [apply HS in Hin|apply HE in Hin|apply HC in Hin|apply HM in Hin];
    destruct Hin as (Hk & body & ->); by apply New_request.
Qed.

Lemma requests_of_a_new_client_witness :
  let c := test_client 200 "{}" in
  let req := outgoing_request c (Ctx false) "/search"
               (JObject [("query", JString "q");
                         ("search_depth", JString "basic");
                         ("topic", JString "general");
                         ("max_results", JNumber 5);
                         ("timeout", JNumber 60)]) in
  Request.Header req !! "Authorization" = Some "Bearer tvly-test-key" /\
  Request.URL req = "http://127.0.0.1:8080" +:+ "/search".
Proof.
  intros c req.
  destruct (proj1 (requests_of_a_new_client test_platform "tvly-test-key"
                     (Some (Options.mk "http://127.0.0.1:8080/"
                                       (Some (test_server 200 "{}")) 0))
                     (Ctx false)) "q" None req)
    as (Hauth & _ & _ & _ & _ & Hurl).
  { vm_compute. constructor. }
  split.
  - apply Hauth. discriminate.
  - apply (Hurl "http://127.0.0.1:8080"). reflexivity.
Defined.

(** ** The class of a rejected request *)

(** X21. When the HTTP client answers the request an operation sent with
    a status other than 200 (201 and 204 included) and a body that is
    read, [errors.As] finds in the error of the operation an [APIError]
    whose class is that of the status: [IsUnauthorized] for 401,
    [IsRateLimit] for 429, [IsForbidden] for 403, 432 and 433,
    [IsBadRequest] for 400, and none of the four for any other status. *)
Theorem answers_are_classified_by_status (pf : Platform) (c : Client.t)
    (ctx : Context) :
  let classified {A : Type} (x : Net (error + A)) (req : Request.t) :=
    forall resp respData,
      req ∈ sent x ->
      http_Client.Do (Client.httpClient c) req = inr resp ->
      Response.Body resp = inr respData ->
      Response.StatusCode resp <> 200 ->
      let status := Response.StatusCode resp in
      exists err e,
        result x = inl err /\ errors_As_APIError err = Some e /\
        APIError.IsUnauthorized e = (status =? 401) /\
        APIError.IsRateLimit e = (status =? 429) /\
        APIError.IsForbidden e =
          ((status =? 403) || (status =? 432) || (status =? 433)) /\
        APIError.IsBadRequest e = (status =? 400) in
  (forall query opts req, classified (Search pf c ctx query opts) req) /\
  (forall urls opts req, classified (Extract pf c ctx urls opts) req) /\
  (forall url opts req, classified (Crawl pf c ctx url opts) req) /\
  (forall url opts req, classified (Map pf c ctx url opts) req).
Proof.
  intros classified. subst classified. simpl.
  destruct (operations_after_send pf c ctx) as (HS & HE & HC & HM).
  split; [|split; [|split]];
    intros ? ? req resp respData Hin Hdo Hb Hst%Z.eqb_neq;
    [rewrite (HS _ _ _ Hin)|rewrite (HE _ _ _ Hin)
    |rewrite (HC _ _ _ Hin)|rewrite (HM _ _ _ Hin)];
    unfold handle_response; rewrite Hdo, Hb, Hst; simpl;
    destruct (parseAPIError_spec pf (Response.StatusCode resp) respData)
      as (e & -> & Hcode & _);
    eexists; exists e; (split; [reflexivity|]); (split; [reflexivity|]);
    unfold APIError.IsUnauthorized, APIError.IsRateLimit,
      APIError.IsForbidden, APIError.IsBadRequest;
    by rewrite Hcode.
Qed.

Lemma answers_are_classified_by_status_witness :
  exists err e,
    result (Search test_platform (test_client 204 "") (Ctx false) "q" None) =
      inl err /\
    errors_As_APIError err = Some e /\
    APIError.IsUnauthorized e = false /\
    APIError.IsRateLimit e = false /\
    APIError.IsForbidden e = false /\
    APIError.IsBadRequest e = false.
Proof.
  apply (proj1 (answers_are_classified_by_status test_platform
                  (test_client 204 "") (Ctx false)) "q" None
               (outgoing_request (test_client 204 "") (Ctx false) "/search"
                  (JObject [("query", JString "q");
                            ("search_depth", JString "basic");
                            ("topic", JString "general");
                            ("max_results", JNumber 5);
                            ("timeout", JNumber 60)]))
               (Response.mk 204 (inr "")) "").
  - vm_compute. constructor.
  - reflexivity.
  - reflexivity.
  - simpl. lia.
Defined.
